(** * SmartFill front end ([app.py]): polling, staging and result rendering

    A shallow embedding of the Streamlit script [app.py].  One run of the
    script is a function of the session state, the widget inputs and the
    outside world (S3, Step Functions, clock); it returns the new session
    state, the trace of UI calls and service calls it made, and how the run
    ended (ran to the end, or [st.rerun()]). *)

From Stdlib Require Import ZArith QArith List String Ascii Bool Lia.
From Stdlib Require Import Permutation Sorted DecimalString.
Import ListNotations.

#[local] Set Warnings "-register-all".
#[local] Open Scope string_scope.
#[local] Open Scope list_scope.
#[local] Open Scope Z_scope.

(** ** Python values as the script sees them *)

Module Py.

(** A Python [float]: [json.loads] also accepts [NaN] and [Infinity]. *)
Inductive pyfloat : Type :=
| FFinite (q : Q)
| FInf (negative : bool)
| FNaN.

(** What [json.loads] returns.  A [dict] keeps its insertion order, so it is
    an association list; the keys of a decoded object are distinct. *)
Inductive json : Type :=
| JNull
| JBool (b : bool)
| JInt (n : Z)
| JFloat (f : pyfloat)
| JStr (s : string)
| JList (l : list json)
| JDict (kvs : list (string * json)).

(** The exceptions below [Exception] that the script can meet.
    [ServiceError] stands for whatever boto3 raises. *)
Inductive exn : Type :=
| TypeError
| ValueError
| OverflowError
| KeyError (k : string)
| AttributeError
| JSONDecodeError
| ServiceError (msg : string).

Inductive res (A : Type) : Type :=
| Ok (a : A)
| Raise (e : exn).
Arguments Ok {A} a.
Arguments Raise {A} e.

Definition res_bind {A B} (r : res A) (k : A -> res B) : res B :=
  match r with
  | Ok a => k a
  | Raise e => Raise e
  end.

(** The text of a JSON document, represented by what [json.loads] makes of
    it: a value, or a [JSONDecodeError]. *)
Inductive json_text : Type :=
| WellFormed (v : json)
| Malformed (raw : string).

Definition json_loads (t : json_text) : res json :=
  match t with
  | WellFormed v => Ok v
  | Malformed _ => Raise JSONDecodeError
  end.

(** [json.dumps] of a value is a text that loads back to it. *)
Definition json_dumps (v : json) : json_text := WellFormed v.

(** *** Strings *)

(** A [string] holds the UTF-8 bytes of a Python [str]; the characters of the
    [str] are its code points, each one to four bytes long. *)

Definition is_continuation (c : ascii) : bool :=
  let n := nat_of_ascii c in
  ((128 <=? n) && (n <=? 191))%nat.

Definition starts_inside (s : string) : bool :=
  match s with
  | EmptyString => false
  | String c _ => is_continuation c
  end.

(** The characters of a [str], each as its own bytes. *)
Fixpoint code_points (s : string) : list string :=
  match s with
  | EmptyString => []
  | String c r =>
      match code_points r with
      | [] => [String c EmptyString]
      | cp :: rest =>
          if starts_inside cp then String c cp :: rest
          else String c EmptyString :: cp :: rest
      end
  end.

Fixpoint continuation_bits (s : string) (acc : N) : N :=
  match s with
  | EmptyString => acc
  | String c r => continuation_bits r (acc * 64 + (N_of_ascii c - 128))%N
  end.

(** [ord(c)] of one character. *)
Definition code_of (cp : string) : N :=
  match cp with
  | EmptyString => 0%N
  | String c r =>
      let b := N_of_ascii c in
      let lead :=
        (if b <? 128 then b
         else if b <? 224 then b - 192
         else if b <? 240 then b - 224
         else b - 240)%N in
      continuation_bits r lead
  end.

(** [str.isspace] of one character, by code point (Unicode 14): the controls
    9-13 and 28-31, the space, U+0085, U+00A0, U+1680, U+2000-U+200A, U+2028,
    U+2029, U+202F, U+205F and U+3000. *)
Definition is_space (n : N) : bool :=
  (existsb (N.eqb n)
     [9; 10; 11; 12; 13; 28; 29; 30; 31; 32; 133; 160; 5760; 8232; 8233;
      8239; 8287; 12288]
   || (8192 <=? n) && (n <=? 8202))%N.

Definition is_space_point (cp : string) : bool := is_space (code_of cp).

Fixpoint lstrip_points (l : list string) : list string :=
  match l with
  | [] => []
  | cp :: r => if is_space_point cp then lstrip_points r else l
  end.

Definition join (l : list string) : string := String.concat "" l.

(** [s.strip()] *)
Definition strip (s : string) : string :=
  join (rev (lstrip_points (rev (lstrip_points (code_points s))))).

(** Truth value of a [str]. *)
Definition str_truthy (s : string) : bool :=
  match s with
  | EmptyString => false
  | _ => true
  end.

(** [p in s] for two strings. *)
Fixpoint is_substring (p s : string) : bool :=
  String.prefix p s ||
  match s with
  | EmptyString => false
  | String _ r => is_substring p r
  end.

(** [s.endswith(suffix)] *)
Fixpoint ends_with (suffix s : string) : bool :=
  String.eqb s suffix ||
  match s with
  | EmptyString => false
  | String _ r => ends_with suffix r
  end.

(** [s] without its first [n] bytes. *)
Fixpoint drop (n : nat) (s : string) : string :=
  match n, s with
  | O, _ => s
  | S _, EmptyString => EmptyString
  | S m, String _ r => drop m r
  end.

(** [s[:n]] *)
Definition take (n : nat) (s : string) : string :=
  join (firstn n (code_points s)).

(** [str(n)] for an [int]. *)
Definition str_of_Z (n : Z) : string := NilZero.string_of_int (Z.to_int n).
Definition str_of_nat (n : nat) : string := str_of_Z (Z.of_nat n).

(** *** [int(...)] *)

(** The code points of the digit zero of every decimal script (Unicode 14);
    the nine code points after each are its digits one to nine. *)
Definition decimal_zeros : list N :=
  [48; 1632; 1776; 1984; 2406; 2534; 2662; 2790; 2918; 3046; 3174; 3302;
   3430; 3558; 3664; 3792; 3872; 4160; 4240; 6112; 6160; 6470; 6608; 6784;
   6800; 6992; 7088; 7232; 7248; 42528; 43216; 43264; 43472; 43504; 43600;
   44016; 65296; 66720; 68912; 69734; 69872; 69942; 70096; 70384; 70736;
   70864; 71248; 71360; 71472; 71904; 72016; 72784; 73040; 73120; 92768;
   92864; 93008; 120782; 120792; 120802; 120812; 120822; 123200; 123632;
   125264; 130032]%N.

Definition decimal_of (n : N) : option Z :=
  match find (fun z => (z <=? n) && (n <? z + 10))%N decimal_zeros with
  | Some z => Some (Z.of_N (n - z))
  | None => None
  end.

(** What [int] makes of one character before it parses: a code point below
    127 stands for itself, so of the ASCII controls only 9-13 count as
    whitespace; above, a Unicode space counts as a space and a Unicode
    decimal digit as its value; anything else is rejected. *)
Inductive int_char : Type :=
| ISpace
| ISign (negative : bool)
| IDigit (d : Z)
| IUnderscore
| IOther.

Definition int_char_of (n : N) : int_char :=
  (if n <? 127 then
     if (9 <=? n) && (n <=? 13) || (n =? 32) then ISpace
     else if n =? 43 then ISign false
     else if n =? 45 then ISign true
     else if n =? 95 then IUnderscore
     else if (48 <=? n) && (n <=? 57) then IDigit (Z.of_N (n - 48))
     else IOther
   else if is_space n then ISpace
   else match decimal_of n with
        | Some d => IDigit d
        | None => IOther
        end)%N.

Fixpoint drop_spaces (l : list int_char) : list int_char :=
  match l with
  | ISpace :: r => drop_spaces r
  | _ => l
  end.

(** Decimal digits, single underscores allowed between digits; the value and
    the number of digits read. *)
Fixpoint parse_digits (l : list int_char) (acc : Z) (count : nat)
    (after_digit : bool) : option (Z * nat) :=
  match l with
  | [] => if after_digit then Some (acc, count) else None
  | IDigit d :: r => parse_digits r (10 * acc + d) (S count) true
  | IUnderscore :: r =>
      if after_digit then parse_digits r acc count false else None
  | _ => None
  end.

(** [sys.int_info.default_max_str_digits] *)
Definition int_max_str_digits : nat := 4300.

(** [int(s)] for a [str], base 10: whitespace around is dropped, one sign is
    allowed, and more than [int_max_str_digits] digits are refused. *)
Definition int_of_str (s : string) : res Z :=
  let cs := map (fun cp => int_char_of (code_of cp)) (code_points s) in
  let body := rev (drop_spaces (rev (drop_spaces cs))) in
  let signed :=
    match body with
    | ISign negative :: digits => (negative, digits)
    | digits => (false, digits)
    end in
  match parse_digits (snd signed) 0 0 false with
  | Some (n, count) =>
      if (count <=? int_max_str_digits)%nat
      then Ok (if fst signed then - n else n)
      else Raise ValueError
  | None => Raise ValueError
  end.

(** Truncation toward zero, as [int(x)] does for a float. *)
Definition trunc (q : Q) : Z := Z.quot (Qnum q) (Z.pos (Qden q)).

Definition py_int (v : json) : res Z :=
  match v with
  | JInt n => Ok n
  | JBool b => Ok (if b then 1 else 0)
  | JFloat (FFinite q) => Ok (trunc q)
  | JFloat (FInf _) => Raise OverflowError
  | JFloat FNaN => Raise ValueError
  | JStr s => int_of_str s
  | JNull | JList _ | JDict _ => Raise TypeError
  end.

(** *** Containers *)

Fixpoint assoc (k : string) (kvs : list (string * json)) : option json :=
  match kvs with
  | [] => None
  | (k', v) :: rest => if String.eqb k' k then Some v else assoc k rest
  end.

Definition is_dict (v : json) : bool :=
  match v with
  | JDict _ => true
  | _ => false
  end.

Definition is_the_str (k : string) (v : json) : bool :=
  match v with
  | JStr s => String.eqb s k
  | _ => false
  end.

(** [k in v], for a string [k]. *)
Definition py_in (k : string) (v : json) : res bool :=
  match v with
  | JDict kvs => Ok (match assoc k kvs with Some _ => true | None => false end)
  | JList l => Ok (existsb (is_the_str k) l)
  | JStr s => Ok (is_substring k s)
  | JNull | JBool _ | JInt _ | JFloat _ => Raise TypeError
  end.

(** [v[k]], for a string [k]. *)
Definition py_getitem (v : json) (k : string) : res json :=
  match v with
  | JDict kvs =>
      match assoc k kvs with
      | Some x => Ok x
      | None => Raise (KeyError k)
      end
  | _ => Raise TypeError
  end.

(** [v.get(k, default)]: only a [dict] has the method. *)
Definition py_get (v : json) (k : string) (default : json) : res json :=
  match v with
  | JDict kvs =>
      match assoc k kvs with
      | Some x => Ok x
      | None => Ok default
      end
  | _ => Raise AttributeError
  end.

(** The value [d.get(k, default)] has for a [dict] [d]. *)
Definition dict_get (kvs : list (string * json)) (k : string) (default : json)
  : json :=
  match assoc k kvs with
  | Some x => x
  | None => default
  end.

Definition keys (kvs : list (string * json)) : list string :=
  nodup string_dec (map fst kvs).

Definition py_len (v : json) : res nat :=
  match v with
  | JStr s => Ok (List.length (code_points s))
  | JList l => Ok (List.length l)
  | JDict kvs => Ok (List.length (keys kvs))
  | JNull | JBool _ | JInt _ | JFloat _ => Raise TypeError
  end.

Definition chars (s : string) : list json := map JStr (code_points s).

(** The items a [for] loop (or [zip], [enumerate]) draws from [v]. *)
Definition py_iter (v : json) : res (list json) :=
  match v with
  | JList l => Ok l
  | JStr s => Ok (chars s)
  | JDict kvs => Ok (map JStr (keys kvs))
  | JNull | JBool _ | JInt _ | JFloat _ => Raise TypeError
  end.

Definition float_truthy (f : pyfloat) : bool :=
  match f with
  | FFinite q => negb (Qnum q =? 0)
  | FInf _ | FNaN => true
  end.

(** Truth value of a value in an [if]. *)
Definition py_truthy (v : json) : bool :=
  match v with
  | JNull => false
  | JBool b => b
  | JInt n => negb (n =? 0)
  | JFloat f => float_truthy f
  | JStr s => str_truthy s
  | JList l => match l with [] => false | _ => true end
  | JDict kvs => match kvs with [] => false | _ => true end
  end.

End Py.
Export Py.

(** ** The trace of a run *)

(** A piece of an f-string: literal text (a formatted [int] included), or
    [str(...)] of a payload value or of an exception. *)
Inductive fragment : Type :=
| FText (s : string)
| FValue (v : json)
| FExn (e : exn).

Definition fstring := list fragment.

(** What one upload widget entry carries. *)
Record file : Type := mkFile { name : string; content : string }.

(** The calls of a run that are visible from outside: Streamlit calls,
    [print], [time.sleep], and the calls to S3 and Step Functions. *)
Inductive event : Type :=
| SidebarSessionId (sid : string)
| Spinner (msg : string)
| Sleep (seconds : Q)
| Print (msg : fstring)
| ProgressBar (percent : nat)
| Progress (items_done total_items : nat)
| ProgressEmpty
| UploadStatus (msg : fstring)
| UploadStatusEmpty
| StartingInfo (msg : string)
| StartingEmpty
| SuccessBox (msg : string)
| SuccessBoxEmpty
| Header (msg : string)
| Subheader (msg : fstring)
| Markdown (msg : fstring)
| Write (msg : fstring)
| Info (msg : string)
| Success (msg : string)
| Warning (msg : fstring)
| Error (msg : fstring)
| Button (label : string)
| PutObject (bucket : option string) (key body : string)
| UploadFileobj (f : file) (bucket : option string) (key : string)
| StartExecution (state_machine : option string) (exec_name : string)
                 (input : json_text)
| DescribeExecution (arn : string).

(** ** Rendering: UI calls and exceptions *)

Module Render.

(** A computation that makes UI calls and then returns or raises. *)
Definition W (A : Type) : Type := list event * res A.

Definition ret {A} (a : A) : W A := ([], Ok a).

Definition bind {A B} (m : W A) (k : A -> W B) : W B :=
  match m with
  | (out, Ok a) => let (out', r) := k a in (out ++ out', r)
  | (out, Raise e) => (out, Raise e)
  end.

Definition emit (e : event) : W unit := ([e], Ok tt).

Definition lift {A} (r : res A) : W A := ([], r).

Definition output {A} (m : W A) : list event := fst m.
Definition result {A} (m : W A) : res A := snd m.

Declare Scope render_scope.
Delimit Scope render_scope with render.
Notation "x <- m ;; k" := (bind m (fun x => k))
  (at level 61, m at next level, right associativity) : render_scope.
Notation "m ;; k" := (bind m (fun _ => k))
  (at level 61, right associativity) : render_scope.
#[local] Open Scope render_scope.

(** [for i, x in enumerate(l, start): body] *)
Fixpoint for_enum {A} (start : nat) (l : list A) (body : nat -> A -> W unit)
  : W unit :=
  match l with
  | [] => ret tt
  | x :: rest => body start x ;; for_enum (S start) rest body
  end.

(** [for x in l: body] *)
Definition for_each {A} (l : list A) (body : A -> W unit) : W unit :=
  for_enum 0 l (fun _ => body).

(** Lines 329-334: one follow-up entry. *)
Definition render_follow_up (idx : nat) (fu_item : json) : W unit :=
  q <- lift (py_get fu_item "question" (JStr "N/A")) ;;
  fu_question <- lift (py_get q "S" (JStr "N/A")) ;;
  fu_answer <- lift (py_get fu_item "answer" (JStr "N/A")) ;;
  emit (Markdown [FText ("**" ++ str_of_nat (idx + 1) ++ ". ");
                  FValue fu_question; FText "**"]) ;;
  emit (Markdown [FText "   Answer: "; FValue fu_answer]).

(** Lines 316-336 (and the same text at 350-370 and 386-406): one question
    with its answer and follow-ups. *)
Definition render_question (body : json) : W unit :=
  question_id <- lift (py_get body "question_id" (JStr "N/A")) ;;
  question <- lift (py_get body "question" (JStr "N/A")) ;;
  answer <- lift (py_get body "answer" (JStr "N/A")) ;;
  emit (Markdown [FText "**Question "; FValue question_id; FText "**: ";
                  FValue question]) ;;
  emit (Markdown [FText "**Answer**: "; FValue answer]) ;;
  follow_up <- lift (py_get body "follow-up" (JList [])) ;;
  (if py_truthy follow_up then
     n <- lift (py_len follow_up) ;;
     if (0 <? n)%nat then
       emit (Markdown [FText "**Follow-up Questions:**"]) ;;
       items <- lift (py_iter follow_up) ;;
       for_enum 0 items render_follow_up
     else ret tt
   else ret tt) ;;
  emit (Markdown [FText "---"]).

(** Lines 344-370 and 380-406: an entry of a topic, rendered where it
    stands. *)
Definition render_item (item : json) : W unit :=
  has_body <- lift (py_in "body" item) ;;
  if has_body then
    body <- lift (py_getitem item "body") ;;
    if is_dict body then render_question body else ret tt
  else ret tt.

(** Lines 302-309: the bodies of a topic that are dictionaries. *)
Fixpoint collect_questions (items : list json) : res (list json) :=
  match items with
  | [] => Ok []
  | item :: rest =>
      res_bind (py_in "body" item) (fun has_body =>
      if has_body then
        res_bind (py_getitem item "body") (fun body =>
        res_bind (collect_questions rest) (fun qs =>
        Ok (if is_dict body then body :: qs else qs)))
      else collect_questions rest)
  end.

(** The sort key of line 312: [int(q.get('question_id', '0'))]. *)
Definition question_key (q : json) : res Z :=
  res_bind (py_get q "question_id" (JStr "0")) py_int.

(** The keys of all elements, computed before anything is moved. *)
Fixpoint with_keys (qs : list json) : res (list (Z * json)) :=
  match qs with
  | [] => Ok []
  | q :: rest =>
      res_bind (question_key q) (fun k =>
      res_bind (with_keys rest) (fun kqs => Ok ((k, q) :: kqs)))
  end.

(** [sorted] is stable: elements with equal keys keep their order.  The
    result of a stable sort is unique, so insertion is as good a model as
    any. *)
Fixpoint insert_by_key (x : Z * json) (l : list (Z * json))
  : list (Z * json) :=
  match l with
  | [] => [x]
  | y :: rest =>
      if fst x <=? fst y then x :: y :: rest
      else y :: insert_by_key x rest
  end.

Fixpoint stable_sort (l : list (Z * json)) : list (Z * json) :=
  match l with
  | [] => []
  | x :: rest => insert_by_key x (stable_sort rest)
  end.

(** Line 312. *)
Definition sorted_questions (questions : list json) : res (list json) :=
  res_bind (with_keys questions) (fun kqs => Ok (map snd (stable_sort kqs))).

(** Lines 299-336: one named topic, its questions sorted. *)
Definition render_named_topic (topic_name topic_data : json) : W unit :=
  emit (Subheader [FValue topic_name]) ;;
  items <- lift (py_iter topic_data) ;;
  questions <- lift (collect_questions items) ;;
  sorted <- lift (sorted_questions questions) ;;
  for_each sorted render_question.

(** Lines 341-370 and 377-406: one topic under its position. *)
Definition render_numbered_topic (topic_idx : nat) (topic_data : json)
  : W unit :=
  emit (Subheader [FText ("Topic " ++ str_of_nat (topic_idx + 1))]) ;;
  items <- lift (py_iter topic_data) ;;
  for_each items render_item.

(** Lines 297-336: as many names as result lists. *)
Definition render_paired (topics topics_data : json) : W unit :=
  names <- lift (py_iter topics) ;;
  datas <- lift (py_iter topics_data) ;;
  for_each (combine names datas)
           (fun p => render_named_topic (fst p) (snd p)).

(** Lines 340-370 and 376-406. *)
Definition render_positional (topics_data : json) : W unit :=
  datas <- lift (py_iter topics_data) ;;
  for_enum 0 datas render_numbered_topic.

Definition mismatch_warning : event :=
  Warning [FText "Topic names and data lengths don't match. Displaying data without topic names."].

(** Lines 289-406: what is shown of a decoded output. *)
Definition render_output (output : json) : W unit :=
  has_results <- lift (py_in "topic_results" output) ;;
  has_topics <- (if has_results : bool then lift (py_in "topics" output)
                 else ret false) ;;
  if has_results && has_topics then
    emit (Header "Processing Results") ;;
    topics <- lift (py_getitem output "topics") ;;
    topics_data <- lift (py_getitem output "topic_results") ;;
    n_topics <- lift (py_len topics) ;;
    n_data <- lift (py_len topics_data) ;;
    if (n_topics =? n_data)%nat then render_paired topics topics_data
    else emit mismatch_warning ;; render_positional topics_data
  else
    has_results' <- lift (py_in "topic_results" output) ;;
    if has_results' : bool then
      emit (Header "Processing Results") ;;
      topics_data <- lift (py_getitem output "topic_results") ;;
      render_positional topics_data
    else ret tt.

End Render.

(** ** One run of the script *)

Module Script.
Import Render.

(** [st.session_state], once lines 60-67 and 119-126 have run. *)
Record session : Type := mkSession {
  session_id : option string;
  last_check_time : Q;
  auto_check : bool;
  uploaded_files : list string;
  execution_arn : option string;
  execution_status : option string
}.

(** The widget values of a run: the text area, the uploader ([chosen_files]
    is the script's variable [uploaded_files], which shares its name with a
    key of the session state) and the two buttons. *)
Record inputs : Type := mkInputs {
  user_text : string;
  chosen_files : list file;
  process_button : bool;
  manual_button : bool
}.

(** The fields of a [describe_execution] response that the script reads. *)
Record describe_response : Type := mkResponse {
  resp_status : string;
  resp_output : option json_text;
  resp_error : option json_text;
  resp_cause : option json_text
}.

(** The outside world: its state and what each call does to it. *)
Record services (World : Type) : Type := mkServices {
  time_time : World -> Q;
  time_sleep : Q -> World -> World;
  strftime_now : World -> string;
  uuid4 : World -> World * string;
  put_object : option string -> string -> string -> World -> World * res unit;
  upload_fileobj : file -> option string -> string -> World -> World * res unit;
  start_execution :
    option string -> string -> json_text -> World -> World * res string;
  describe_execution : string -> World -> World * res describe_response
}.
Arguments time_time {World}.
Arguments time_sleep {World}.
Arguments strftime_now {World}.
Arguments uuid4 {World}.
Arguments put_object {World}.
Arguments upload_fileobj {World}.
Arguments start_execution {World}.
Arguments describe_execution {World}.

(** How a piece of the script ends: it falls through with a value, raises an
    [Exception], or calls [st.rerun()], which no [except Exception] stops. *)
Inductive ctl (A : Type) : Type :=
| Normal (a : A)
| Raised (e : exn)
| Rerun.
Arguments Normal {A} a.
Arguments Raised {A} e.
Arguments Rerun {A}.

Record ran (World A : Type) : Type := mkRan {
  world_after : World;
  session_after : session;
  events : list event;
  how : ctl A
}.
Arguments mkRan {World A}.
Arguments world_after {World A}.
Arguments session_after {World A}.
Arguments events {World A}.
Arguments how {World A}.

(** Truth value of [None] or a [str]. *)
Definition truthy (v : option string) : bool :=
  match v with
  | Some s => str_truthy s
  | None => false
  end.

(** [status in ['SUCCEEDED', 'FAILED', 'TIMED_OUT', 'ABORTED']] *)
Definition terminal (status : string) : bool :=
  existsb (String.eqb status) ["SUCCEEDED"; "FAILED"; "TIMED_OUT"; "ABORTED"].

Definition terminal_opt (status : option string) : bool :=
  match status with
  | Some s => terminal s
  | None => false
  end.

Section Run.

Context {World : Type}.
Variable svc : services World.
Variable S3_BUCKET : option string.
Variable STEP_FUNCTION_ARN : option string.

Definition M (A : Type) : Type := World -> session -> ran World A.

Definition mret {A} (a : A) : M A :=
  fun w s => mkRan w s [] (Normal a).

(** The events of [r], after [before]. *)
Definition after {A} (before : list event) (r : ran World A) : ran World A :=
  match r with
  | mkRan w s evs h => mkRan w s (before ++ evs) h
  end.

Definition mbind {A B} (m : M A) (k : A -> M B) : M B :=
  fun w s =>
    match m w s with
    | mkRan w1 s1 evs (Normal a) => after evs (k a w1 s1)
    | mkRan w1 s1 evs (Raised e) => mkRan w1 s1 evs (Raised e)
    | mkRan w1 s1 evs Rerun => mkRan w1 s1 evs Rerun
    end.

(** [try: m except Exception as e: handler e] *)
Definition try_except {A} (m : M A) (handler : exn -> M A) : M A :=
  fun w s =>
    match m w s with
    | mkRan w1 s1 evs (Raised e) => after evs (handler e w1 s1)
    | r => r
    end.

Declare Scope script_scope.
Delimit Scope script_scope with script.
Notation "x <- m ;; k" := (mbind m (fun x => k))
  (at level 61, m at next level, right associativity) : script_scope.
Notation "m ;; k" := (mbind m (fun _ => k))
  (at level 61, right associativity) : script_scope.
#[local] Open Scope script_scope.

Definition say (e : event) : M unit :=
  fun w s => mkRan w s [e] (Normal tt).

Definition rerun {A} : M A :=
  fun w s => mkRan w s [] Rerun.

Definition read : M session :=
  fun w s => mkRan w s [] (Normal s).

Definition update (f : session -> session) : M unit :=
  fun w s => mkRan w (f s) [] (Normal tt).

Definition of_res {A} (r : res A) : M A :=
  fun w s => mkRan w s [] (match r with Ok a => Normal a | Raise e => Raised e end).

(** The UI calls of a rendering, and its exception if it raises one. *)
Definition rendering (m : W unit) : M unit :=
  fun w s =>
    mkRan w s (output m)
          (match result m with Ok a => Normal a | Raise e => Raised e end).

(** A call to a service: it is recorded, changes the world, and returns or
    raises. *)
Definition call {A} (e : event) (f : World -> World * res A) : M A :=
  fun w s =>
    let (w', r) := f w in
    mkRan w' s [e] (match r with Ok a => Normal a | Raise x => Raised x end).

Definition sleep (seconds : Q) : M unit :=
  fun w s => mkRan (time_sleep svc seconds w) s [Sleep seconds] (Normal tt).

Definition now : M Q :=
  fun w s => mkRan w s [] (Normal (time_time svc w)).

Definition set_session_id v s :=
  mkSession v (last_check_time s) (auto_check s) (uploaded_files s)
            (execution_arn s) (execution_status s).
Definition set_auto_check v s :=
  mkSession (session_id s) (last_check_time s) v (uploaded_files s)
            (execution_arn s) (execution_status s).
Definition set_uploaded_files v s :=
  mkSession (session_id s) (last_check_time s) (auto_check s) v
            (execution_arn s) (execution_status s).
Definition set_execution_arn v s :=
  mkSession (session_id s) (last_check_time s) (auto_check s)
            (uploaded_files s) v (execution_status s).
Definition set_execution_status v s :=
  mkSession (session_id s) (last_check_time s) (auto_check s)
            (uploaded_files s) (execution_arn s) v.

(** Lines 60-67 and 119-126: a new browser session starts from these. *)
Definition fresh_session (w : World) : session :=
  mkSession None (time_time svc w) false [] None None.

(** Lines 70-73. *)
Definition generate_session_id : M string :=
  fun w s =>
    let now := strftime_now svc w in
    let (w', u) := uuid4 svc w in
    let unique_id := take 8 u in
    mkRan w' s [] (Normal (now ++ "-" ++ unique_id)%string).

(** Lines 76-100. *)
Definition auto_check_status : M (option string) :=
  s <- read ;;
  match execution_arn s with
  | Some arn =>
      if str_truthy arn then
        try_except
          (response <- call (DescribeExecution arn)
                            (describe_execution svc arn) ;;
           let current_status := resp_status response in
           update (set_execution_status (Some current_status)) ;;
           if terminal current_status then
             update (set_auto_check false) ;;
             mret (Some current_status)
           else mret (Some current_status))
          (fun e =>
             say (Print [FText "Error checking status: "; FExn e]) ;;
             update (set_auto_check false) ;;
             mret None)
      else mret None
  | None => mret None
  end.

(** Lines 133-144. *)
Definition auto_check_block : M unit :=
  s <- read ;;
  if auto_check s && truthy (execution_arn s) then
    say (Spinner "Waiting for processing to complete... This may take a few minutes.") ;;
    status <- auto_check_status ;;
    if terminal_opt status then rerun
    else sleep (2 # 1) ;; rerun
  else mret tt.

(** *** Staging (lines 156-211) *)

(** Line 163. *)
Definition total_items (user_text : string) (files : list file) : nat :=
  (List.length files + (if str_truthy (strip user_text) then 1 else 0))%nat.

Definition text_filename (t : Q) : string :=
  "user_input_" ++ str_of_Z (trunc t) ++ ".txt".

(** Lines 167-190: the text, if there is any, goes first.  The two local
    variables [file_paths] and [files_processed] are threaded through. *)
Definition stage_text (sid user_text : string) (total_files : nat)
    (file_paths : list string) (files_processed : nat)
  : M (list string * nat) :=
  if str_truthy (strip user_text) then
    try_except
      (t <- now ;;
       let file_key := (sid ++ "/" ++ text_filename t)%string in
       say (UploadStatus
              [FText ("Uploading user-entered text as " ++ text_filename t
                      ++ "...")]) ;;
       call (PutObject S3_BUCKET file_key user_text)
            (put_object svc S3_BUCKET file_key user_text) ;;
       say (Progress (S files_processed) total_files) ;;
       mret (file_paths ++ [file_key], S files_processed))
      (fun e =>
         say (Error [FText "Error uploading user text: "; FExn e]) ;;
         mret (file_paths, files_processed))
  else mret (file_paths, files_processed).

(** Lines 194-211: the body of the loop over the uploaded files. *)
Definition stage_file (sid : string) (total_files : nat) (f : file)
    (file_paths : list string) (files_processed : nat)
  : M (list string * nat) :=
  try_except
    (let file_key := (sid ++ "/" ++ name f)%string in
     say (UploadStatus [FText ("Uploading " ++ name f ++ "...")]) ;;
     call (UploadFileobj f S3_BUCKET file_key)
          (upload_fileobj svc f S3_BUCKET file_key) ;;
     say (Progress (S files_processed) total_files) ;;
     mret (file_paths ++ [file_key], S files_processed))
    (fun e =>
       say (Error [FText ("Error uploading " ++ name f ++ ": "); FExn e]) ;;
       mret (file_paths, files_processed)).

(** Line 193. *)
Fixpoint stage_files (sid : string) (total_files : nat) (files : list file)
    (file_paths : list string) (files_processed : nat)
  : M (list string * nat) :=
  match files with
  | [] => mret (file_paths, files_processed)
  | f :: rest =>
      p <- stage_file sid total_files f file_paths files_processed ;;
      stage_files sid total_files rest (fst p) (snd p)
  end.

(** Lines 156-211: the keys of what reached the bucket. *)
Definition stage (sid user_text : string) (files : list file)
  : M (list string) :=
  let total_files := total_items user_text files in
  p <- stage_text sid user_text total_files [] 0%nat ;;
  p' <- stage_files sid total_files files (fst p) (snd p) ;;
  mret (fst p').

(** *** Launch (lines 213-257) *)

(** Lines 222-255. *)
Definition launch (sid : string) : M unit :=
  try_except
    (let execution_input :=
       JDict [("session_id", JStr sid); ("last_session_id", JNull)] in
     let exec_name := ("Execution-" ++ sid)%string in
     arn <- call (StartExecution STEP_FUNCTION_ARN exec_name
                                 (json_dumps execution_input))
                 (start_execution svc STEP_FUNCTION_ARN exec_name
                                  (json_dumps execution_input)) ;;
     update (set_execution_arn (Some arn)) ;;
     say (SuccessBox "Processing pipeline started successfully!") ;;
     sleep (3 # 2) ;;
     say ProgressEmpty ;;
     say UploadStatusEmpty ;;
     say StartingEmpty ;;
     say SuccessBoxEmpty ;;
     update (set_auto_check true) ;;
     rerun)
    (fun e =>
       say StartingEmpty ;;
       say (Error [FText "Error starting Step Function: "; FExn e])).

(** Lines 213-257. *)
Definition after_staging (sid : string) (file_paths : list string) : M unit :=
  match file_paths with
  | _ :: _ =>
      say (UploadStatus [FText "All content uploaded successfully!"]) ;;
      update (set_uploaded_files file_paths) ;;
      say (StartingInfo "Starting document processing pipeline...") ;;
      launch sid
  | [] =>
      say (Error [FText "No content was successfully uploaded. Please try again."])
  end.

Definition has_content (inp : inputs) : bool :=
  match chosen_files inp with
  | _ :: _ => true
  | [] => str_truthy (strip (user_text inp))
  end.

(** Lines 147-257. *)
Definition process_content (inp : inputs) : M unit :=
  say (Button "Process Content") ;;
  if has_content inp && process_button inp then
    sid <- generate_session_id ;;
    update (set_session_id (Some sid)) ;;
    say (SidebarSessionId sid) ;;
    say (ProgressBar 0) ;;
    file_paths <- stage sid (user_text inp) (chosen_files inp) ;;
    after_staging sid file_paths
  else mret tt.

(** *** Status and results (lines 260-439) *)

Definition or_empty_object (field : option json_text) : json_text :=
  match field with
  | Some t => t
  | None => WellFormed (JDict [])
  end.

(** Lines 276-408. *)
Definition show_succeeded (arn : string) : M unit :=
  say (Success "Processing completed successfully!") ;;
  sleep (1 # 1) ;;
  try_except
    (response <- call (DescribeExecution arn) (describe_execution svc arn) ;;
     output <- of_res (json_loads (or_empty_object (resp_output response))) ;;
     rendering (render_output output))
    (fun e => say (Warning [FText "Could not parse execution output: "; FExn e])).

(** Lines 410-423. *)
Definition show_failed (arn : string) : M unit :=
  say (Error [FText "Processing failed."]) ;;
  try_except
    (response <- call (DescribeExecution arn) (describe_execution svc arn) ;;
     error <- of_res (json_loads (or_empty_object (resp_error response))) ;;
     cause <- of_res (json_loads (or_empty_object (resp_cause response))) ;;
     say (Error [FText "Error: "; FValue error]) ;;
     say (Error [FText "Cause: "; FValue cause]))
    (fun e => say (Warning [FText "Could not parse error details: "; FExn e])).

(** Lines 425-432. *)
Definition show_running (inp : inputs) : M unit :=
  s <- read ;;
  if negb (auto_check s) then
    say (Info "Processing is running.") ;;
    say (Button "Check Status Manually") ;;
    if manual_button inp then auto_check_status ;; rerun
    else mret tt
  else mret tt.

(** Lines 260-439. *)
Definition display (inp : inputs) : M unit :=
  s <- read ;;
  match execution_arn s with
  | Some arn =>
      if str_truthy arn then
        say (Header "Execution Status") ;;
        match execution_status s with
        | Some status =>
            if str_truthy status then
              say (Write [FText ("Current Status: **" ++ status ++ "**")]) ;;
              (if auto_check s && String.eqb status "RUNNING" then
                 say (Spinner "Processing your documents... This may take several minutes depending on file size and complexity.") ;;
                 say (Info "The system is analyzing your documents. Please wait.")
               else mret tt) ;;
              if String.eqb status "SUCCEEDED" then show_succeeded arn
              else if String.eqb status "FAILED" then show_failed arn
              else if String.eqb status "RUNNING" then show_running inp
              else mret tt
            else
              say (Info "Awaiting status update...") ;;
              if auto_check s then rerun else mret tt
        | None =>
            say (Info "Awaiting status update...") ;;
            if auto_check s then rerun else mret tt
        end
      else mret tt
  | None => mret tt
  end.

(** Lines 128-130. *)
Definition show_session_id : M unit :=
  s <- read ;;
  match session_id s with
  | Some sid => if str_truthy sid then say (SidebarSessionId sid) else mret tt
  | None => mret tt
  end.

(** The script from line 128 on. *)
Definition script (inp : inputs) : M unit :=
  show_session_id ;;
  auto_check_block ;;
  process_content inp ;;
  display inp.

(** One run: [stored] is what [st.session_state] holds when the run starts,
    [None] for a new browser session. *)
Definition run_script (stored : option session) (inp : inputs) (w : World)
  : ran World unit :=
  script inp w (match stored with Some s => s | None => fresh_session w end).

End Run.
End Script.

(** ** Notions the statements use *)

Module Obs.
Import Render.

(** An entry on which neither ['body' in item] nor [item['body']] raises:
    an object, a list that does not hold the string ['body'], or a string
    that does not contain it. *)
Definition entry_is_read (item : json) : bool :=
  match item with
  | JDict _ => true
  | JList l => negb (existsb (is_the_str "body") l)
  | JStr s => negb (is_substring "body" s)
  | JNull | JBool _ | JInt _ | JFloat _ => false
  end.

(** The question an entry carries: its ['body'], when the entry is an
    object and the body is one too. *)
Definition entry_body (item : json) : list json :=
  match item with
  | JDict kvs =>
      match assoc "body" kvs with
      | Some (JDict b) => [JDict b]
      | _ => []
      end
  | _ => []
  end.

(** The questions of a topic, in the order of the payload. *)
Definition bodies (items : list json) : list json := flat_map entry_body items.

(** An entry that is read and carries no question: an object without a
    ['body'] or whose ['body'] is not an object, a list without the string
    ['body'], a string without the substring ['body']. *)
Definition skipped_entry (item : json) : bool :=
  entry_is_read item && match entry_body item with [] => true | _ => false end.

(** The number a question is sorted under: [int] of its [question_id],
    0 when it has none. *)
Definition id_number (body : json) : res Z :=
  match body with
  | JDict b =>
      match assoc "question_id" b with
      | Some v => py_int v
      | None => Ok 0
      end
  | _ => Raise AttributeError
  end.

(** The id under which a question is shown. *)
Definition id_shown (body : json) : json :=
  match body with
  | JDict b => dict_get b "question_id" (JStr "N/A")
  | _ => JNull
  end.

(** The order that line 312 sorts by, on questions paired with their
    keys. *)
Definition key_le (a b : Z * json) : Prop := fst a <= fst b.

(** The key of a question whose id converts. *)
Definition key_of (q : json) : Z :=
  match id_number q with
  | Ok k => k
  | Raise _ => 0
  end.

Definition has_key (k : Z) (q : json) : bool :=
  match id_number q with
  | Ok k' => k' =? k
  | Raise _ => false
  end.

(** The [question_id] of a line ["**Question {question_id}**: {question}"]. *)
Definition question_line (e : event) : list json :=
  match e with
  | Markdown [FText s; FValue qid; FText t; FValue _] =>
      if String.eqb s "**Question " && String.eqb t "**: " then [qid] else []
  | _ => []
  end.

(** The question ids that a trace shows, in the order shown. *)
Definition question_ids (evs : list event) : list json :=
  flat_map question_line evs.

Definition subheader_of (e : event) : list fstring :=
  match e with
  | Subheader msg => [msg]
  | _ => []
  end.

(** The subheaders of a trace, in order. *)
Definition subheaders (evs : list event) : list fstring :=
  flat_map subheader_of evs.

(** An event that is neither a question line nor a subheader. *)
Definition quiet (e : event) : Prop :=
  question_line e = [] /\ subheader_of e = [].

Definition sleep_of (e : event) : list Q :=
  match e with
  | Sleep seconds => [seconds]
  | _ => []
  end.

(** The pauses of a trace, in seconds. *)
Definition sleeps (evs : list event) : list Q := flat_map sleep_of evs.

Definition is_warning (e : event) : bool :=
  match e with
  | Warning _ => true
  | _ => false
  end.

(** The id under which an entry of a topic is shown, if it is shown. *)
Definition shown_id (item : json) : list json :=
  match item with
  | JDict kvs =>
      match assoc "body" kvs with
      | Some (JDict b) => [dict_get b "question_id" (JStr "N/A")]
      | _ => []
      end
  | _ => []
  end.

(** The ids of a topic's entries in the order of the payload. *)
Definition ids_in_payload_order (topic_data : json) : list json :=
  match py_iter topic_data with
  | Ok items => flat_map shown_id items
  | Raise _ => []
  end.

(** [sorted] holds the questions [qs] in ascending order of their numbers,
    questions of the same number in the order they have in [qs]. *)
Definition in_id_order (qs sorted : list json) : Prop :=
  Permutation qs sorted
  /\ (exists ks, Forall2 (fun q k => id_number q = Ok k) sorted ks
                 /\ StronglySorted Z.le ks)
  /\ forall k, filter (has_key k) sorted = filter (has_key k) qs.

(** [ids] are the ids of the questions of a topic, in ascending order of
    their numbers. *)
Definition ids_in_id_order (topic_data : json) (ids : list json) : Prop :=
  exists items sorted,
    py_iter topic_data = Ok items
    /\ in_id_order (bodies items) sorted
    /\ ids = map id_shown sorted.

(** ["Topic 1"], ["Topic 2"], ... *)
Definition positional_labels (n : nat) : list fstring :=
  map (fun i => [FText ("Topic " ++ str_of_nat i)]) (seq 1 n).

(** The guard of line 133: the next run starts with a poll. *)
Definition polls_next (s : Script.session) : bool :=
  Script.auto_check s && Script.truthy (Script.execution_arn s).

(** What lines 128-130 put in the sidebar. *)
Definition sidebar (s : Script.session) : list event :=
  match Script.session_id s with
  | Some sid => if str_truthy sid then [SidebarSessionId sid] else []
  | None => []
  end.

Definition describe_call (e : event) : list string :=
  match e with
  | DescribeExecution arn => [arn]
  | _ => []
  end.

(** The executions whose status a run fetched, in order. *)
Definition describe_calls (evs : list event) : list string :=
  flat_map describe_call evs.

Definition waiting_spinner : event :=
  Spinner "Waiting for processing to complete... This may take a few minutes.".

Definition manual_check_button : event := Button "Check Status Manually".

Definition is_manual_check_button (e : event) : bool :=
  match e with
  | Button label => String.eqb label "Check Status Manually"
  | _ => false
  end.

(** The run offers the manual check. *)
Definition offers_manual_check (evs : list event) : bool :=
  existsb is_manual_check_button evs.

Definition progress_report (e : event) : list (nat * nat) :=
  match e with
  | Progress items_done total_items => [(items_done, total_items)]
  | _ => []
  end.

(** The progress reports of a trace: [(items_done, total_items)] for every
    [upload_progress.progress(items_done / total_items)]. *)
Definition progress_reports (evs : list event) : list (nat * nat) :=
  flat_map progress_report evs.

Definition upload_attempt (e : event) : list string :=
  match e with
  | PutObject _ key _ => [key]
  | UploadFileobj _ _ key => [key]
  | _ => []
  end.

(** The keys under which a run tried to store something, in order. *)
Definition upload_attempts (evs : list event) : list string :=
  flat_map upload_attempt evs.

Definition error_message (e : event) : list fstring :=
  match e with
  | Error msg => [msg]
  | _ => []
  end.

(** The [st.error] messages of a trace, in order. *)
Definition error_messages (evs : list event) : list fstring :=
  flat_map error_message evs.

Definition upload (e : event) : list event :=
  match e with
  | PutObject _ _ _ | UploadFileobj _ _ _ => [e]
  | _ => []
  end.

(** The calls to S3 of a trace, in order. *)
Definition uploads (evs : list event) : list event := flat_map upload evs.

(** A field of the response of [describe_execution] decodes to [v]: the
    field holds JSON text for [v], or it is absent and [v] is the empty
    object. *)
Definition reads (field : option json_text) (v : json) : Prop :=
  match field with
  | None => v = JDict []
  | Some (WellFormed x) => v = x
  | Some (Malformed _) => False
  end.

(** The field is there and is not JSON. *)
Definition undecodable (field : option json_text) : Prop :=
  match field with
  | Some (Malformed _) => True
  | _ => False
  end.

(** The request of lines 223-232 for a session. *)
Definition execution_name (sid : string) : string := "Execution-" ++ sid.

Definition execution_input (sid : string) : json_text :=
  json_dumps (JDict [("session_id", JStr sid); ("last_session_id", JNull)]).

Definition launch_error (e : exn) : event :=
  Error [FText "Error starting Step Function: "; FExn e].

(** The key of an uploaded file (line 196). *)
Definition file_key (sid : string) (f : file) : string :=
  sid ++ "/" ++ name f.

(** The key of the text (lines 170-171) when the clock shows [t]. *)
Definition text_key (sid : string) (t : Q) : string :=
  sid ++ "/" ++ Script.text_filename t.

(** [key] matches ["{sid}/user_input_*.txt"]. *)
Definition matches_text_key (sid key : string) : bool :=
  let stem := (sid ++ "/user_input_")%string in
  String.prefix stem key && ends_with ".txt" (drop (String.length stem) key).

(** A file name of the form [user_input_*.txt]. *)
Definition named_like_text (f : file) : bool :=
  String.prefix "user_input_" (name f)
  && ends_with ".txt" (drop (String.length "user_input_") (name f)).

(** What each upload of the loop of line 193 returns, the world moving on
    from one call to the next. *)
Fixpoint upload_results {World} (svc : Script.services World)
    (bucket : option string) (sid : string) (files : list file) (w : World)
  : list (res unit) :=
  match files with
  | [] => []
  | f :: rest =>
      let (w', r) := Script.upload_fileobj svc f bucket (file_key sid f) w in
      r :: upload_results svc bucket sid rest w'
  end.

(** The world after the uploads of the loop of line 193. *)
Fixpoint world_after_uploads {World} (svc : Script.services World)
    (bucket : option string) (sid : string) (files : list file) (w : World)
  : World :=
  match files with
  | [] => w
  | f :: rest =>
      world_after_uploads svc bucket sid rest
        (fst (Script.upload_fileobj svc f bucket (file_key sid f) w))
  end.

(** What storing the text of a submission returns (lines 167-190), and
    the world after it; [None] when there is no text. *)
Definition text_upload {World} (svc : Script.services World)
    (bucket : option string) (sid text : string) (w : World)
  : option (World * res unit) :=
  if str_truthy (strip text) then
    Some (Script.put_object svc bucket
            (text_key sid (Script.time_time svc w)) text w)
  else None.

Definition world_after_text {World} (w : World)
    (upload : option (World * res unit)) : World :=
  match upload with
  | Some (w', _) => w'
  | None => w
  end.

Definition text_kept {World} (svc : Script.services World) (sid : string)
    (w : World) (upload : option (World * res unit)) : list string :=
  match upload with
  | Some (_, Ok _) => [text_key sid (Script.time_time svc w)]
  | _ => []
  end.

Definition text_attempt {World} (svc : Script.services World) (sid : string)
    (w : World) (upload : option (World * res unit)) : list string :=
  match upload with
  | Some _ => [text_key sid (Script.time_time svc w)]
  | None => []
  end.

Definition text_failure {World} (upload : option (World * res unit))
  : list fstring :=
  match upload with
  | Some (_, Raise e) => [[FText "Error uploading user text: "; FExn e]]
  | _ => []
  end.

Definition succeeded {A} (r : res A) : bool :=
  match r with
  | Ok _ => true
  | Raise _ => false
  end.

(** The keys of the files whose upload returned, in order. *)
Fixpoint kept_keys (sid : string) (files : list file)
    (results : list (res unit)) : list string :=
  match files, results with
  | f :: files', r :: results' =>
      if succeeded r then file_key sid f :: kept_keys sid files' results'
      else kept_keys sid files' results'
  | _, _ => []
  end.

(** How many uploads raised. *)
Definition failures (results : list (res unit)) : nat :=
  List.length (filter (fun r => negb (succeeded r)) results).

(** The messages for the files whose upload raised, in order. *)
Fixpoint failure_messages (files : list file) (results : list (res unit))
  : list fstring :=
  match files, results with
  | f :: files', r :: results' =>
      match r with
      | Ok _ => failure_messages files' results'
      | Raise e =>
          [FText ("Error uploading " ++ name f ++ ": "); FExn e]
          :: failure_messages files' results'
      end
  | _, _ => []
  end.

(** The id that [generate_session_id] makes in the world [w], and the world
    after it. *)
Definition new_session_id {World} (svc : Script.services World) (w : World)
  : string :=
  Script.strftime_now svc w ++ "-" ++ take 8 (snd (Script.uuid4 svc w)).

Definition world_after_id {World} (svc : Script.services World) (w : World)
  : World :=
  fst (Script.uuid4 svc w).

(** The code points Python 3.11 counts as whitespace. *)
Definition whitespace : list N :=
  [9; 10; 11; 12; 13; 28; 29; 30; 31; 32; 133; 160; 5760; 8192; 8193; 8194;
   8195; 8196; 8197; 8198; 8199; 8200; 8201; 8202; 8232; 8233; 8239; 8287;
   12288]%N.

Definition is_whitespace (cp : string) : bool :=
  existsb (N.eqb (code_of cp)) whitespace.

(** A text of whitespace only (the empty text included). *)
Definition all_space (s : string) : bool :=
  forallb is_whitespace (code_points s).

Definition start_call (e : event) : list (option string * string * json_text) :=
  match e with
  | StartExecution state_machine exec_name input =>
      [(state_machine, exec_name, input)]
  | _ => []
  end.

(** The executions a run asked for, in order. *)
Definition start_calls (evs : list event)
  : list (option string * string * json_text) :=
  flat_map start_call evs.

Definition no_content_error : event :=
  Error [FText "No content was successfully uploaded. Please try again."].

(** What staging puts in a trace. *)
Definition is_staging (e : event) : bool :=
  match e with
  | UploadStatus _ | PutObject _ _ _ | UploadFileobj _ _ _ | Progress _ _
  | Error _ => true
  | _ => false
  end.

(** The lines with which results are shown. *)
Definition shows_results (e : event) : bool :=
  match e with
  | Header _ | Subheader _ | Markdown _ => true
  | _ => false
  end.

Definition is_mismatch_warning (e : event) : bool :=
  match e with
  | Warning [FText msg] =>
      String.eqb msg
        "Topic names and data lengths don't match. Displaying data without topic names."
  | _ => false
  end.

(** The line of a question, of its answer, and the separator. *)
Definition question_shown (body : list (string * json)) : event :=
  Markdown [FText "**Question ";
            FValue (dict_get body "question_id" (JStr "N/A"));
            FText "**: "; FValue (dict_get body "question" (JStr "N/A"))].

Definition answer_shown (body : list (string * json)) : event :=
  Markdown [FText "**Answer**: ";
            FValue (dict_get body "answer" (JStr "N/A"))].

Definition follow_up_header : event :=
  Markdown [FText "**Follow-up Questions:**"].

Definition separator : event := Markdown [FText "---"].

(** [fu_item] is a follow-up in the shape of the upstream payload, with
    question text [q] under ['S'] and answer [a]. *)
Definition follow_up_of (fu_item : json) (qa : json * json) : Prop :=
  exists kvs wrapped,
    fu_item = JDict kvs
    /\ assoc "question" kvs = Some (JDict wrapped)
    /\ assoc "S" wrapped = Some (fst qa)
    /\ assoc "answer" kvs = Some (snd qa).

(** A follow-up that is not an object, or whose ['question'] is missing or
    is not an object (a plain string, say). *)
Definition bare_follow_up (fu_item : json) : bool :=
  match fu_item with
  | JDict kvs => negb (is_dict (dict_get kvs "question" (JStr "N/A")))
  | _ => true
  end.

(** A line with which results are shown, or the warning of line 338. *)
Definition is_rendered (e : event) : bool :=
  shows_results e || is_mismatch_warning e.

(** The two lines of each follow-up, numbered from [start]. *)
Fixpoint follow_ups_shown (start : nat) (qas : list (json * json))
  : list event :=
  match qas with
  | [] => []
  | (q, a) :: rest =>
      Markdown [FText ("**" ++ str_of_nat start ++ ". "); FValue q;
                FText "**"]
      :: Markdown [FText "   Answer: "; FValue a]
      :: follow_ups_shown (S start) rest
  end.

(** The stored status is RUNNING. *)
Definition status_is_running (s : Script.session) : bool :=
  match Script.execution_status s with
  | Some status => String.eqb status "RUNNING"
  | None => false
  end.

(** A status for which lines 276-432 have a branch. *)
Definition has_a_branch (status : string) : bool :=
  String.eqb status "SUCCEEDED" || String.eqb status "FAILED"
  || String.eqb status "RUNNING".

(** Automatic checking is on only when an execution handle is stored. *)
Definition handle_if_checking (s : Script.session) : Prop :=
  Script.auto_check s = true -> Script.execution_arn s <> None.

(** A handle is stored. *)
Definition has_handle (s : Script.session) : Prop :=
  Script.execution_arn s <> None.

(** A piece of the script keeps the property [I] of the session. *)
Definition preserves {World A} (I : Script.session -> Prop)
    (m : World -> Script.session -> Script.ran World A) : Prop :=
  forall w s, I s -> I (Script.session_after (m w s)).

(** The session after a series of runs, each with its widget values and
    the world it finds. *)
Definition session_after_runs {World} (svc : Script.services World)
    (bucket state_machine : option string)
    (runs : list (Script.inputs * World)) (s : Script.session)
  : Script.session :=
  fold_left
    (fun s run =>
       Script.session_after
         (Script.script svc bucket state_machine (fst run) (snd run) s))
    runs s.

End Obs.

(** ** A world to run the script in *)

Module TestWorld.
Import Script.

(** What the services answer: which uploads fail, what [start_execution]
    returns, and what the successive [describe_execution] calls return. *)
Record scenario : Type := mkScenario {
  failing_uploads : list string;
  text_upload_fails : bool;
  start_result : res string;
  describe_results : list (res describe_response)
}.

Definition denied : exn := ServiceError "AccessDenied".
Definition throttled : exn := ServiceError "ThrottlingException".

(** The state of this world is the number of [describe_execution] calls
    made so far. *)
Definition services_of (sc : scenario) : services nat :=
  mkServices nat
    (fun _ => 1700000000 # 1)
    (fun _ w => w)
    (fun _ => "20260104093000")
    (fun w => (w, "3f2a9c1e-7b4d-4e8a-9c55-0d1e2f3a4b5c"))
    (fun _ _ _ w => (w, if text_upload_fails sc then Raise denied else Ok tt))
    (fun f _ _ w =>
       (w, if existsb (String.eqb (name f)) (failing_uploads sc)
           then Raise denied else Ok tt))
    (fun _ _ _ w => (w, start_result sc))
    (fun _ w => (S w, nth w (describe_results sc) (Raise throttled))).

Definition bucket : option string := Some "smartfill-uploads".
Definition state_machine : option string :=
  Some "arn:aws:states:us-east-1:111122223333:stateMachine:smartfill".
Definition an_arn : string :=
  "arn:aws:states:us-east-1:111122223333:execution:smartfill:Execution-1".

Definition status_only (status : string) : describe_response :=
  mkResponse status None None None.

Definition all_fine : scenario :=
  mkScenario [] false (Ok an_arn) [Ok (status_only "RUNNING")].

Definition no_click : inputs := mkInputs "" [] false false.

(** A session whose execution is under way. *)
Definition polling (status : option string) (auto : bool) : session :=
  mkSession (Some "20260104093000-3f2a9c1e") (1700000000 # 1) auto
            ["20260104093000-3f2a9c1e/report.pdf"] (Some an_arn) status.

Definition a_question (qid : json) (text : string) : json :=
  JDict [("body", JDict [("question_id", qid); ("question", JStr text);
                         ("answer", JStr "yes")])].

(** One name for two result lists, the first with its questions out of
    order. *)
Definition mismatched_results : list json :=
  [JList [a_question (JInt 2) "Is the route open?";
          a_question (JInt 1) "Who is in charge?"];
   JList [a_question (JInt 1) "Is there shelter?"]].



(** Two names, two result lists, ids [3, "1", 2] in the first. *)
Definition paired_results : list json :=
  [JList [a_question (JInt 3) "third";
          a_question (JStr "1") "first";
          a_question (JInt 2) "second"];
   JList [a_question (JInt 1) "only"]].

Definition paired_fields : list (string * json) :=
  [("topics", JList [JStr "A"; JStr "B"]);
   ("topic_results", JList paired_results)].

Definition paired_payload : json := JDict paired_fields.

(** An id that [int] does not accept. *)
Definition unparseable_payload : json :=
  JDict [("topics", JList [JStr "A"]);
         ("topic_results", JList [JList [a_question (JStr "abc") "first"]])].

(** An entry without a ['body'] between two that have one. *)
Definition an_entry_without_body : json := JDict [("statusCode", JInt 500)].

Definition a_session_id : string := "20260104093000-3f2a9c1e".

Definition report : file := mkFile "report.pdf" "%PDF-1.7".
Definition notes : file := mkFile "notes.txt" "water level rising".
Definition broken : file := mkFile "broken.pdf" "".
Definition text_like : file := mkFile "user_input_notes.txt" "see attached".

Definition one_upload_fails : scenario :=
  mkScenario ["broken.pdf"] false (Ok an_arn) [].

Definition start_fails : scenario :=
  mkScenario [] false (Raise throttled) [].

(** The execution failed with the error name Step Functions reports. *)
Definition failed_with_plain_error : scenario :=
  mkScenario [] false (Ok an_arn)
    [Ok (mkResponse "FAILED" None
           (Some (Malformed "States.TaskFailed"))
           (Some (Malformed "Lambda function timed out")))].

Definition failed_with_json_error : scenario :=
  mkScenario [] false (Ok an_arn)
    [Ok (mkResponse "FAILED" None
           (Some (WellFormed (JDict [("code", JInt 42)]))) None)].

Definition still_running : scenario :=
  mkScenario [] false (Ok an_arn)
    [Ok (status_only "RUNNING"); Ok (status_only "SUCCEEDED")].

Definition manual_click : inputs := mkInputs "" [] false true.

(** Every call to [describe_execution] fails. *)
Definition unreachable : scenario := mkScenario [] false (Ok an_arn) [].


(** Entries that are read and carry no question, of every kind. *)
Definition entries_without_question : list json :=
  [an_entry_without_body; JDict [("body", JStr "timeout")];
   JStr "error"; JList [JStr "retry"]; JList []].


(** A world whose uuids change from one call to the next. *)
Definition uuids : list string :=
  ["3f2a9c1e-7b4d-4e8a-9c55-0d1e2f3a4b5c";
   "a81d44c0-19f2-4b7e-8d3a-6c5e4f3b2a10"].

Definition with_changing_ids : services nat :=
  let base := services_of all_fine in
  mkServices nat (time_time base) (time_sleep base) (strftime_now base)
    (fun w => (S w, nth w uuids ""))
    (put_object base) (upload_fileobj base) (start_execution base)
    (describe_execution base).

Definition every_upload_fails : scenario :=
  mkScenario ["report.pdf"; "notes.txt"] true (Ok an_arn) [].

Definition submission : inputs :=
  mkInputs "The river is rising." [report; notes] true false.

(** A text of a space, a tab, a no-break space (U+00A0) and an ideographic
    space (U+3000). *)
Definition blank_text : string :=
  String " " (String "009" (String "194" (String "160"
    (String "227" (String "128" (String "128" EmptyString)))))).

Definition blank_submission : inputs := mkInputs blank_text [] true false.

Definition a_follow_up (q a : string) : json :=
  JDict [("question", JDict [("S", JStr q)]); ("answer", JStr a)].

Definition body_with_follow_ups : list (string * json) :=
  [("question_id", JInt 4); ("question", JStr "Is power out?");
   ("answer", JStr "yes");
   ("follow-up", JList [a_follow_up "Since when?" "noon";
                        a_follow_up "Where?" "north district"])].

Definition body_with_bare_follow_up : list (string * json) :=
  [("question_id", JInt 4); ("question", JStr "Is power out?");
   ("answer", JStr "yes");
   ("follow-up", JList [JDict [("question", JStr "Since when?");
                                ("answer", JStr "noon")]])].

Definition results_only_fields : list (string * json) :=
  [("topic_results", JList mismatched_results)].

End TestWorld.
(** ** Facts about the Python primitives *)

Example int_of_str_3 : py_int (JStr " 12_3 ") = Ok 123.
Proof. reflexivity. Qed.

Example int_of_str_bad : py_int (JStr "abc") = Raise ValueError.
Proof. reflexivity. Qed.

(** [int] takes one sign and single underscores between digits. *)
Example int_of_str_signs :
  map int_of_str ["-5"; "+5"; "007"; "1_0"; "+ 5"; "1__0"; "_1"; "1_"; ""; "0x10"]
  = [Ok (-5); Ok 5; Ok 7; Ok 10; Raise ValueError; Raise ValueError;
     Raise ValueError; Raise ValueError; Raise ValueError; Raise ValueError].
Proof. reflexivity. Qed.

(** The separators 28-31 are whitespace for [strip] and not for [int]. *)
Example int_of_str_separator :
  int_of_str (String "028" "5") = Raise ValueError
  /\ strip (String "028" "5") = "5".
Proof. split; reflexivity. Qed.

(** U+00A0 and U+3000 are whitespace for both. *)
Example no_break_space :
  let nbsp := String "194" (String "160" "") in
  let wide := String "227" (String "128" (String "128" "")) in
  int_of_str (nbsp ++ "5" ++ wide) = Ok 5
  /\ strip (nbsp ++ "5 6" ++ wide) = "5 6"
  /\ strip (nbsp ++ wide) = ""
  /\ py_len (JStr (nbsp ++ "5" ++ wide)) = Ok 3%nat.
Proof. repeat split. Qed.

(** Decimal digits of other scripts count: Arabic-Indic 3 and 4. *)
Example int_of_str_arabic_indic :
  let three := String "217" (String "163" "") in
  let four := String "217" (String "164" "") in
  int_of_str (three ++ four) = Ok 34.
Proof. reflexivity. Qed.

Example str_of_nat_12 : str_of_nat 12 = "12".
Proof. reflexivity. Qed.

(** ** Facts about strings and keys *)

Module KeyFacts.
Import Obs Script.

Lemma prefix_nil s : String.prefix "" s = true.
Proof. now destruct s. Qed.

Lemma prefix_app a b c : String.prefix (a ++ b) (a ++ c) = String.prefix b c.
Proof.
  induction a as [| x a IH]; [reflexivity |].
  simpl. now destruct (ascii_dec x x).
Qed.

Lemma prefix_self_app a b : String.prefix a (a ++ b) = true.
Proof.
  induction a as [| x a IH]; simpl; [apply prefix_nil |].
  now destruct (ascii_dec x x).
Qed.

Lemma append_assoc a b c : ((a ++ b) ++ c = a ++ (b ++ c))%string.
Proof. induction a as [| x a IH]; simpl; [reflexivity | now rewrite IH]. Qed.

Lemma drop_app_add a b n :
  drop (String.length a + n) (a ++ b) = drop n b.
Proof. induction a as [| x a IH]; simpl; [reflexivity | exact IH]. Qed.

Lemma drop_app a b : drop (String.length a) (a ++ b) = b.
Proof. rewrite <- (Nat.add_0_r (String.length a)). apply drop_app_add. Qed.

Lemma str_length_app a b :
  String.length (a ++ b) = (String.length a + String.length b)%nat.
Proof. induction a as [| x a IH]; simpl; [reflexivity | now rewrite IH]. Qed.

Lemma ends_with_app suffix a : ends_with suffix (a ++ suffix) = true.
Proof.
  induction a as [| x a IH]; simpl.
  - destruct suffix; cbn [ends_with]; now rewrite String.eqb_refl.
  - rewrite IH. apply orb_true_r.
Qed.

(** The key of the text matches ["{sid}/user_input_*.txt"]. *)
Lemma text_key_matches sid t : matches_text_key sid (text_key sid t) = true.
Proof.
  unfold matches_text_key, text_key, text_filename.
  replace (sid ++ "/" ++ "user_input_" ++ str_of_Z (trunc t) ++ ".txt")%string
    with ((sid ++ "/user_input_") ++ str_of_Z (trunc t) ++ ".txt")%string
    by (now rewrite append_assoc).
  now rewrite prefix_self_app, drop_app, ends_with_app.
Qed.

(** The key of an uploaded file matches it exactly when its name has the
    form [user_input_*.txt]. *)
Lemma file_key_matches sid f :
  matches_text_key sid (file_key sid f) = named_like_text f.
Proof.
  unfold matches_text_key, file_key, named_like_text.
  rewrite prefix_app, str_length_app, drop_app_add.
  destruct (name f) as [| c rest]; [reflexivity |].
  simpl. reflexivity.
Qed.

End KeyFacts.

(** ** Facts about whitespace *)

Module TextFacts.
Import Obs.

Lemma whitespace_is_space n :
  existsb (N.eqb n) whitespace = is_space n.
Proof.
  destruct (is_space n) eqn:Hs.
  - unfold is_space in Hs. apply orb_true_iff in Hs.
    apply existsb_exists. destruct Hs as [Hs | Hs].
    + apply existsb_exists in Hs. destruct Hs as (x & Hin & Hx).
      apply N.eqb_eq in Hx. subst x. exists n. split; [| apply N.eqb_refl].
      unfold whitespace. cbn [In] in *.
      repeat (destruct Hin as [<- | Hin]; [tauto |]). contradiction.
    + apply andb_true_iff in Hs. destruct Hs as [Hlo Hhi].
      apply N.leb_le in Hlo, Hhi. exists n. split; [| apply N.eqb_refl].
      assert (H : (n = 8192 \/ n = 8193 \/ n = 8194 \/ n = 8195 \/ n = 8196
                   \/ n = 8197 \/ n = 8198 \/ n = 8199 \/ n = 8200
                   \/ n = 8201 \/ n = 8202)%N) by lia.
      unfold whitespace. cbn [In].
      repeat (destruct H as [-> | H]; [tauto |]). subst n. tauto.
  - destruct (existsb (N.eqb n) whitespace) eqn:Hw; [| reflexivity].
    apply existsb_exists in Hw. destruct Hw as (x & Hin & Hx).
    apply N.eqb_eq in Hx. subst x. unfold whitespace in Hin. cbn [In] in Hin.
    repeat (destruct Hin as [<- | Hin]; [discriminate Hs |]). contradiction.
Qed.

Lemma is_whitespace_point cp : is_whitespace cp = is_space_point cp.
Proof. apply whitespace_is_space. Qed.

Lemma all_space_points s :
  all_space s = forallb is_space_point (code_points s).
Proof.
  unfold all_space. induction (code_points s) as [| cp l IH]; [reflexivity |].
  cbn [forallb]. now rewrite is_whitespace_point, IH.
Qed.

Lemma lstrip_points_blank l :
  forallb is_space_point l = true -> lstrip_points l = [].
Proof.
  induction l as [| cp l IH]; [reflexivity |]. cbn [forallb lstrip_points].
  intros H. apply andb_true_iff in H. destruct H as [Hc Hl].
  rewrite Hc. now apply IH.
Qed.

Lemma lstrip_points_suffix l :
  exists before, l = before ++ lstrip_points l
                 /\ forallb is_space_point before = true.
Proof.
  induction l as [| cp l (before & Hl & Hb)]; [now exists [] |].
  cbn [lstrip_points]. destruct (is_space_point cp) eqn:Hc.
  - exists (cp :: before). cbn [app forallb]. rewrite Hc, Hb.
    split; [now f_equal | reflexivity].
  - now exists [].
Qed.

Lemma lstrip_points_head l cp rest :
  lstrip_points l = cp :: rest -> is_space_point cp = false.
Proof.
  induction l as [| c l IH]; [discriminate |]. cbn [lstrip_points].
  destruct (is_space_point c) eqn:Hc; [exact IH |].
  intros H. inversion H; subst. exact Hc.
Qed.

Lemma forallb_rev {A} (f : A -> bool) l : forallb f (rev l) = forallb f l.
Proof.
  induction l as [| x l IH]; [reflexivity |]. cbn [rev forallb].
  rewrite forallb_app, IH. cbn [forallb]. rewrite andb_true_r.
  apply andb_comm.
Qed.

Lemma code_points_nonempty s : Forall (fun cp => cp <> "") (code_points s).
Proof.
  induction s as [| c s IH]; [constructor |]. cbn [code_points].
  destruct (code_points s) as [| cp rest]; [repeat constructor; discriminate |].
  inversion IH; subst.
  destruct (starts_inside cp); repeat constructor; try assumption; discriminate.
Qed.

Lemma join_empty l :
  Forall (fun cp => cp <> "") l -> join l = "" -> l = [].
Proof.
  intros Hall. destruct Hall as [| cp l Hcp _]; [reflexivity |].
  unfold join. cbn [concat]. destruct cp as [| c cp]; [contradiction |].
  destruct l; discriminate.
Qed.

(** [strip] leaves nothing exactly of a text of whitespace. *)
Lemma strip_all_space s : all_space s = true -> strip s = "".
Proof.
  rewrite all_space_points. intros H. unfold strip.
  now rewrite (lstrip_points_blank _ H).
Qed.

Lemma strip_not_all_space s : all_space s = false -> strip s <> "".
Proof.
  rewrite all_space_points. intros Hs Hstrip. unfold strip in Hstrip.
  destruct (lstrip_points_suffix (code_points s)) as (before & Hl & Hb).
  destruct (lstrip_points (code_points s)) as [| cp rest] eqn:Hrest.
  - rewrite app_nil_r in Hl. rewrite Hl, Hb in Hs. discriminate.
  - pose proof (lstrip_points_head _ _ _ Hrest) as Hcp.
    destruct (lstrip_points_suffix (rev (cp :: rest))) as (after & Hr & Ha).
    remember (lstrip_points (rev (cp :: rest))) as kept eqn:Hkept.
    apply join_empty in Hstrip.
    + assert (Hnil : kept = [])
        by (now rewrite <- (rev_involutive kept), Hstrip).
      rewrite Hnil, app_nil_r in Hr. rewrite <- Hr, forallb_rev in Ha.
      cbn [forallb] in Ha. rewrite Hcp in Ha. discriminate.
    + pose proof (code_points_nonempty s) as Hall. rewrite Hl in Hall.
      apply Forall_app in Hall. destruct Hall as [_ Hall].
      rewrite Forall_forall in *. intros x Hx. apply Hall.
      apply in_rev in Hx. apply in_rev. rewrite Hr.
      apply in_or_app. now right.
Qed.

Lemma str_truthy_strip s : str_truthy (strip s) = negb (all_space s).
Proof.
  destruct (all_space s) eqn:Hs.
  - now rewrite (strip_all_space s Hs).
  - pose proof (strip_not_all_space s Hs). now destruct (strip s).
Qed.

End TextFacts.

(** ** Facts about rendering *)

Module RenderFacts.
Import Render Obs.
#[local] Open Scope render_scope.

Lemma bind_ret_l {A B} (a : A) (k : A -> W B) : bind (ret a) k = k a.
Proof. unfold bind, ret. destruct (k a). reflexivity. Qed.


Lemma bind_lift_ok {A B} (a : A) (k : A -> W B) : bind (lift (Ok a)) k = k a.
Proof. apply bind_ret_l. Qed.

Lemma bind_lift_raise {A B} e (k : A -> W B) :
  bind (lift (Raise e)) k = lift (Raise e).
Proof. reflexivity. Qed.

Lemma bind_raise {A B} out e (k : A -> W B) :
  bind (out, Raise e) k = (out, Raise e).
Proof. reflexivity. Qed.

Lemma for_enum_shift {A} (f : A -> W unit) l :
  forall i j, for_enum i l (fun _ => f) = for_enum j l (fun _ => f).
Proof.
  induction l as [| x l IH]; intros i j; simpl; [reflexivity |].
  now rewrite (IH (S i) (S j)).
Qed.

Lemma for_each_cons {A} (f : A -> W unit) x l :
  for_each (x :: l) f = bind (f x) (fun _ => for_each l f).
Proof.
  unfold for_each. simpl. now rewrite (for_enum_shift f l 1%nat 0%nat).
Qed.










(** *** Line 312: the sort *)

Lemma insert_by_key_perm x l : Permutation (x :: l) (insert_by_key x l).
Proof.
  induction l as [| y l IH]; simpl; [reflexivity |].
  destruct (fst x <=? fst y); [reflexivity |].
  rewrite perm_swap. now constructor.
Qed.

Lemma stable_sort_perm l : Permutation l (stable_sort l).
Proof.
  induction l as [| x l IH]; simpl; [constructor |].
  rewrite <- insert_by_key_perm. now constructor.
Qed.

Lemma insert_by_key_sorted x l :
  Sorted key_le l -> Sorted key_le (insert_by_key x l).
Proof.
  induction 1 as [| y l Hs IH Hhd]; simpl.
  - repeat constructor.
  - destruct (Z.leb_spec (fst x) (fst y)) as [Hle | Hgt].
    + constructor; [now constructor | constructor; exact Hle].
    + constructor; [exact IH |].
      destruct l as [| z l]; simpl.
      * constructor. unfold key_le. lia.
      * inversion Hhd; subst.
        destruct (fst x <=? fst z); constructor; unfold key_le in *; lia.
Qed.

Lemma stable_sort_sorted l : Sorted key_le (stable_sort l).
Proof.
  induction l as [| x l IH]; simpl; [constructor |].
  now apply insert_by_key_sorted.
Qed.

Lemma key_le_trans : Relations_1.Transitive key_le.
Proof. intros a b c. unfold key_le. lia. Qed.

Lemma stable_sort_strongly_sorted l : StronglySorted key_le (stable_sort l).
Proof.
  apply Sorted_StronglySorted; [exact key_le_trans | apply stable_sort_sorted].
Qed.

(** Elements with the same key keep the order they came in. *)
Lemma insert_by_key_stable k x l :
  filter (fun p => fst p =? k) (insert_by_key x l)
  = filter (fun p => fst p =? k) (x :: l).
Proof.
  induction l as [| y l IH]; simpl; [reflexivity |].
  destruct (Z.leb_spec (fst x) (fst y)) as [Hle | Hgt]; [reflexivity |].
  simpl in *. rewrite IH.
  destruct (Z.eqb_spec (fst x) k), (Z.eqb_spec (fst y) k); try reflexivity.
  lia.
Qed.

Lemma stable_sort_stable k l :
  filter (fun p => fst p =? k) (stable_sort l)
  = filter (fun p => fst p =? k) l.
Proof.
  induction l as [| x l IH]; simpl; [reflexivity |].
  rewrite insert_by_key_stable. simpl. now rewrite IH.
Qed.

(** The sort key of the code is the number of the question. *)
Lemma question_key_id_number q : question_key q = id_number q.
Proof.
  unfold question_key, id_number, py_get.
  destruct q as [| | | | | | b]; try reflexivity.
  now destruct (assoc "question_id" b).
Qed.

(** [with_keys] pairs every question with the integer of its id. *)
Lemma with_keys_spec qs :
  forall kqs,
    with_keys qs = Ok kqs ->
    map snd kqs = qs /\ Forall (fun p => id_number (snd p) = Ok (fst p)) kqs.
Proof.
  induction qs as [| q qs IH]; simpl; intros kqs H.
  - inversion H. split; constructor.
  - rewrite question_key_id_number in H.
    destruct (id_number q) as [k |] eqn:Hk; simpl in H; [| discriminate].
    destruct (with_keys qs) as [kqs' |]; simpl in H; [| discriminate].
    inversion H; subst. destruct (IH kqs' eq_refl) as [Hm Hf].
    split; simpl; [now rewrite Hm | now constructor].
Qed.

Lemma with_keys_total qs :
  Forall (fun q => exists k, id_number q = Ok k) qs ->
  exists kqs, with_keys qs = Ok kqs.
Proof.
  induction 1 as [| q qs [k Hk] _ [kqs IH]]; cbn [with_keys].
  - now exists [].
  - rewrite question_key_id_number, Hk, IH. simpl. now eexists.
Qed.

Lemma filter_map_snd k kqs :
  Forall (fun p => id_number (snd p) = Ok (fst p)) kqs ->
  filter (has_key k) (map snd kqs)
  = map snd (filter (fun p => fst p =? k) kqs).
Proof.
  induction 1 as [| p kqs Hp _ IH]; simpl; [reflexivity |].
  unfold has_key at 1. rewrite Hp.
  destruct (fst p =? k); simpl; now rewrite IH.
Qed.

(** What line 312 returns when every id converts. *)
Lemma sorted_questions_spec qs :
  Forall (fun q => exists k, id_number q = Ok k) qs ->
  exists sorted ks,
    sorted_questions qs = Ok sorted
    /\ Permutation qs sorted
    /\ Forall2 (fun q k => id_number q = Ok k) sorted ks
    /\ StronglySorted Z.le ks
    /\ forall k, filter (has_key k) sorted = filter (has_key k) qs.
Proof.
  intros Hall. destruct (with_keys_total qs Hall) as [kqs Hkqs].
  destruct (with_keys_spec qs kqs Hkqs) as [Hsnd Hkeys].
  exists (map snd (stable_sort kqs)), (map fst (stable_sort kqs)).
  assert (Hkeys' : Forall (fun p => id_number (snd p) = Ok (fst p))
                          (stable_sort kqs)).
  { rewrite Forall_forall in *. intros p Hp. apply Hkeys.
    eapply Permutation_in; [symmetry; apply stable_sort_perm | exact Hp]. }
  repeat split.
  - unfold sorted_questions. now rewrite Hkqs.
  - rewrite <- Hsnd. apply Permutation_map, stable_sort_perm.
  - clear - Hkeys'. induction Hkeys'; simpl; now constructor.
  - pose proof (stable_sort_strongly_sorted kqs) as Hs.
    induction Hs as [| p l _ IH Hp]; simpl; constructor.
    + apply IH. now inversion Hkeys'.
    + rewrite Forall_forall in *. intros k Hk.
      apply in_map_iff in Hk. destruct Hk as [p' [<- Hp']].
      now apply Hp.
  - intros k. rewrite (filter_map_snd k _ Hkeys'), stable_sort_stable.
    rewrite <- (filter_map_snd k _ Hkeys). now rewrite Hsnd.
Qed.

Lemma sorted_questions_raise qs e :
  with_keys qs = Raise e -> sorted_questions qs = Raise e.
Proof. intros H. unfold sorted_questions. now rewrite H. Qed.

Lemma with_keys_map qs :
  forall kqs,
    with_keys qs = Ok kqs -> kqs = map (fun q => (key_of q, q)) qs.
Proof.
  induction qs as [| q qs IH]; simpl; intros kqs H.
  - now inversion H.
  - unfold key_of at 1.
    rewrite question_key_id_number in H.
    destruct (id_number q) as [k |]; simpl in H; [| discriminate].
    destruct (with_keys qs) as [kqs' |]; simpl in H; [| discriminate].
    inversion H; subst. now rewrite (IH kqs' eq_refl).
Qed.

(** A list sorted by pairwise distinct keys is determined by its
    elements. *)
Lemma sorted_by_distinct_keys_unique (l : list (Z * json)) :
  forall l',
    Permutation l l' ->
    StronglySorted key_le l -> StronglySorted key_le l' ->
    NoDup (map fst l) ->
    l = l'.
Proof.
  induction l as [| x l IH]; intros l' Hperm Hs Hs' Hnd.
  - now apply Permutation_nil in Hperm.
  - destruct l' as [| y l'].
    { symmetry in Hperm. now apply Permutation_nil in Hperm. }
    inversion Hs as [| ? ? Hsl Hx]; subst.
    inversion Hs' as [| ? ? Hsl' Hy]; subst.
    rewrite Forall_forall in Hx, Hy.
    assert (Hxy : x = y).
    { assert (Hin_y : In y (x :: l))
        by (eapply Permutation_in; [symmetry; exact Hperm | now left]).
      assert (Hin_x : In x (y :: l'))
        by (eapply Permutation_in; [exact Hperm | now left]).
      destruct Hin_y as [-> | Hin_y]; [reflexivity |].
      destruct Hin_x as [-> | Hin_x]; [reflexivity |].
      exfalso.
      pose proof (Hx y Hin_y) as H1. pose proof (Hy x Hin_x) as H2.
      unfold key_le in *.
      inversion Hnd as [| ? ? Hnotin _]; subst. apply Hnotin.
      replace (fst x) with (fst y) by lia. now apply in_map. }
    subst y. f_equal. apply IH; try assumption.
    + now apply Permutation_cons_inv in Hperm.
    + now inversion Hnd.
Qed.

(** With distinct ids, the order in which the questions arrive has no
    effect on line 312. *)
Lemma sorted_questions_order_irrelevant qs qs' :
  Permutation qs qs' ->
  Forall (fun q => exists k, id_number q = Ok k) qs ->
  NoDup (map key_of qs) ->
  sorted_questions qs = sorted_questions qs'.
Proof.
  intros Hperm Hall Hnd.
  assert (Hall' : Forall (fun q => exists k, id_number q = Ok k) qs')
    by (eapply Permutation_Forall; eassumption).
  destruct (with_keys_total qs Hall) as [kqs Hkqs].
  destruct (with_keys_total qs' Hall') as [kqs' Hkqs'].
  unfold sorted_questions. rewrite Hkqs, Hkqs'. simpl. do 2 f_equal.
  apply with_keys_map in Hkqs, Hkqs'. subst kqs kqs'.
  set (f := fun q => (key_of q, q)).
  apply sorted_by_distinct_keys_unique;
    try apply stable_sort_strongly_sorted.
  - rewrite <- !stable_sort_perm. now apply Permutation_map.
  - eapply Permutation_NoDup; [| exact Hnd].
    rewrite <- stable_sort_perm. now rewrite map_map.
Qed.

(** *** Which path a payload takes *)

Lemma render_output_equal_lengths kvs names datas :
  assoc "topics" kvs = Some (JList names) ->
  assoc "topic_results" kvs = Some (JList datas) ->
  List.length names = List.length datas ->
  render_output (JDict kvs)
  = (emit (Header "Processing Results") ;;
     for_each (combine names datas)
              (fun p => render_named_topic (fst p) (snd p))).
Proof.
  intros Ht Hr Hlen. unfold render_output, render_paired, py_in, py_getitem.
  rewrite Ht, Hr, !bind_lift_ok. cbn [andb py_len py_iter].
  f_equal. now rewrite !bind_lift_ok, Hlen, Nat.eqb_refl.
Qed.


Lemma render_output_no_topics kvs datas :
  assoc "topics" kvs = None ->
  assoc "topic_results" kvs = Some (JList datas) ->
  render_output (JDict kvs)
  = (emit (Header "Processing Results") ;;
     for_enum 0 datas render_numbered_topic).
Proof.
  intros Ht Hr. unfold render_output, render_positional, py_in, py_getitem.
  rewrite Ht, Hr, !bind_lift_ok. cbn [andb py_iter].
  now rewrite !bind_lift_ok.
Qed.

(** *** What a trace shows *)

Lemma output_bind {A B} (m : W A) (k : A -> W B) :
  output (bind m k)
  = output m ++ match result m with Ok a => output (k a) | Raise _ => [] end.
Proof.
  destruct m as [out [a | e]]; simpl.
  - now destruct (k a).
  - now rewrite app_nil_r.
Qed.

Lemma result_bind {A B} (m : W A) (k : A -> W B) :
  result (bind m k)
  = match result m with Ok a => result (k a) | Raise e => Raise e end.
Proof.
  destruct m as [out [a | e]]; simpl; [| reflexivity].
  now destruct (k a).
Qed.

Lemma py_get_dict kvs k d : py_get (JDict kvs) k d = Ok (dict_get kvs k d).
Proof. unfold py_get, dict_get. now destruct (assoc k kvs). Qed.

Lemma quiet_silent evs :
  Forall quiet evs -> question_ids evs = [] /\ subheaders evs = [].
Proof.
  unfold question_ids, subheaders.
  induction 1 as [| e evs [Hq Hs] _ [IHq IHs]]; simpl; [now split |].
  now rewrite Hq, Hs, IHq, IHs.
Qed.

Ltac run_lifted :=
  match goal with
  | |- context [bind (lift ?r) _] =>
      destruct r; [rewrite bind_lift_ok | rewrite bind_lift_raise]
  end.

Lemma quiet_follow_up idx fu_item :
  Forall quiet (output (render_follow_up idx fu_item)).
Proof.
  unfold render_follow_up.
  repeat (run_lifted; [| now constructor]).
  repeat constructor.
Qed.

Lemma quiet_follow_ups items :
  forall i, Forall quiet (output (for_enum i items render_follow_up)).
Proof.
  induction items as [| x items IH]; intros i; simpl for_enum.
  - constructor.
  - rewrite output_bind. apply Forall_app. split.
    + apply quiet_follow_up.
    + destruct (result (render_follow_up i x)); [apply IH | constructor].
Qed.

(** The question line is out before the follow-ups are looked at, and
    nothing else of a question is a question line or a subheader. *)
Lemma render_question_shows b :
  question_ids (output (render_question (JDict b)))
  = [dict_get b "question_id" (JStr "N/A")]
  /\ subheaders (output (render_question (JDict b))) = [].
Proof.
  unfold render_question. rewrite !py_get_dict, !bind_lift_ok.
  set (tail := bind _ (fun _ => emit (Markdown [FText "---"]))).
  assert (Htail : Forall quiet (output tail)).
  { subst tail. rewrite output_bind. apply Forall_app. split.
    - destruct (py_truthy _); [| constructor].
      run_lifted; [| constructor].
      destruct (0 <? a)%nat; [| constructor].
      rewrite output_bind. apply Forall_app. split; [repeat constructor |].
      simpl result. cbv iota.
      run_lifted; [apply quiet_follow_ups | constructor].
    - destruct (result _); repeat constructor. }
  apply quiet_silent in Htail. destruct Htail as [Hq Hs].
  rewrite !output_bind. unfold question_ids, subheaders in *.
  simpl. rewrite Hq, Hs. now split.
Qed.

Lemma render_item_shows item :
  question_ids (output (render_item item)) = shown_id item
  /\ subheaders (output (render_item item)) = [].
Proof.
  unfold render_item, shown_id.
  destruct item as [| | | | s | l | kvs]; simpl py_in;
    try (rewrite bind_lift_raise; now split).
  - rewrite bind_lift_ok. destruct (is_substring "body" s); now split.
  - rewrite bind_lift_ok. destruct (existsb _ l); now split.
  - rewrite bind_lift_ok. unfold py_getitem.
    destruct (assoc "body" kvs) as [body |]; [| now split].
    rewrite bind_lift_ok.
    destruct body; try now split.
    apply render_question_shows.
Qed.

Lemma result_bind_ok {B} (m : W unit) (k : unit -> W B) b :
  result (bind m k) = Ok b -> result m = Ok tt /\ result (k tt) = Ok b.
Proof.
  rewrite result_bind. destruct (result m) as [[] | e]; [now split | discriminate].
Qed.

Lemma question_ids_app l1 l2 :
  question_ids (l1 ++ l2) = question_ids l1 ++ question_ids l2.
Proof. apply flat_map_app. Qed.

Lemma subheaders_app l1 l2 :
  subheaders (l1 ++ l2) = subheaders l1 ++ subheaders l2.
Proof. apply flat_map_app. Qed.

(** A topic rendered where its entries stand shows them in that order. *)
Lemma for_each_item_shows items :
  result (for_each items render_item) = Ok tt ->
  question_ids (output (for_each items render_item)) = flat_map shown_id items
  /\ subheaders (output (for_each items render_item)) = [].
Proof.
  induction items as [| x items IH].
  - now split.
  - rewrite for_each_cons. intros Hok.
    apply result_bind_ok in Hok. destruct Hok as [Hx Hrest].
    destruct (IH Hrest) as [IHq IHs].
    destruct (render_item_shows x) as [Hq Hs].
    rewrite output_bind, Hx, question_ids_app, subheaders_app.
    rewrite Hq, Hs, IHq, IHs. now split.
Qed.

Lemma numbered_topic_shows idx topic_data :
  result (render_numbered_topic idx topic_data) = Ok tt ->
  question_ids (output (render_numbered_topic idx topic_data))
  = ids_in_payload_order topic_data
  /\ subheaders (output (render_numbered_topic idx topic_data))
     = [[FText ("Topic " ++ str_of_nat (idx + 1))]].
Proof.
  unfold render_numbered_topic, ids_in_payload_order. intros Hok.
  apply result_bind_ok in Hok. destruct Hok as [_ Hok].
  rewrite output_bind. cbn [emit result output fst snd].
  destruct (py_iter topic_data) as [items | e].
  - rewrite bind_lift_ok in *.
    destruct (for_each_item_shows items Hok) as [Hq Hs].
    rewrite question_ids_app, subheaders_app, Hq, Hs. now split.
  - discriminate.
Qed.

Lemma positional_shows datas :
  forall i,
    result (for_enum i datas render_numbered_topic) = Ok tt ->
    question_ids (output (for_enum i datas render_numbered_topic))
    = flat_map ids_in_payload_order datas
    /\ subheaders (output (for_enum i datas render_numbered_topic))
       = map (fun i => [FText ("Topic " ++ str_of_nat i)])
             (seq (S i) (List.length datas)).
Proof.
  induction datas as [| d datas IH]; intros i.
  - now split.
  - cbn [for_enum]. intros Hok.
    apply result_bind_ok in Hok. destruct Hok as [Hd Hrest].
    destruct (IH (S i) Hrest) as [IHq IHs].
    destruct (numbered_topic_shows i d Hd) as [Hq Hs].
    rewrite output_bind, Hd, question_ids_app, subheaders_app.
    rewrite Hq, Hs, IHq, IHs. cbn [flat_map List.length seq map app].
    now rewrite Nat.add_1_r.
Qed.

(** *** The questions of a topic *)

Lemma collect_questions_bodies items :
  forall qs, collect_questions items = Ok qs -> qs = bodies items.
Proof.
  induction items as [| item items IH]; intros qs H.
  - now inversion H.
  - cbn [collect_questions] in H. unfold bodies. cbn [flat_map].
    fold (bodies items).
    destruct item as [| | | | s | l | kvs]; cbn in H; try discriminate.
    + destruct (is_substring "body" s); [discriminate | now apply IH].
    + destruct (existsb (is_the_str "body") l); [discriminate | now apply IH].
    + cbn [entry_body]. destruct (assoc "body" kvs) as [body |];
        [| now apply IH].
      cbn in H. destruct (collect_questions items) as [qs' |];
        [| discriminate].
      cbn in H. inversion H; subst. rewrite (IH qs' eq_refl).
      now destruct body.
Qed.

Lemma collect_questions_read items :
  Forall (fun item => entry_is_read item = true) items ->
  collect_questions items = Ok (bodies items).
Proof.
  induction 1 as [| item items Hitem _ IH]; [reflexivity |].
  cbn [collect_questions]. unfold bodies. cbn [flat_map]. fold (bodies items).
  destruct item as [| | | | s | l | kvs]; cbn in Hitem; try discriminate.
  - apply negb_true_iff in Hitem. cbn. now rewrite Hitem.
  - apply negb_true_iff in Hitem. cbn. now rewrite Hitem.
  - cbn. destruct (assoc "body" kvs) as [body |]; [| exact IH].
    cbn. rewrite IH. cbn. now destruct body.
Qed.

Lemma bodies_are_objects items :
  Forall (fun q => exists b, q = JDict b) (bodies items).
Proof.
  unfold bodies. induction items as [| item items IH]; [constructor |].
  cbn [flat_map]. apply Forall_app. split; [| exact IH].
  destruct item as [| | | | | | kvs]; try constructor.
  cbn. destruct (assoc "body" kvs) as [[| | | | | | b] |]; repeat constructor.
  now exists b.
Qed.


(** What line 312 returns, when it returns. *)
Lemma sorted_questions_ok qs sorted :
  sorted_questions qs = Ok sorted -> in_id_order qs sorted.
Proof.
  intros H.
  assert (Hall : Forall (fun q => exists k, id_number q = Ok k) qs).
  { unfold sorted_questions in H.
    destruct (with_keys qs) as [kqs |] eqn:Hkqs; [| discriminate].
    destruct (with_keys_spec qs kqs Hkqs) as [<- Hkeys].
    clear - Hkeys. induction Hkeys as [| p kqs Hp _ IH]; constructor.
    - now exists (fst p).
    - exact IH. }
  destruct (sorted_questions_spec qs Hall)
    as (sorted' & ks & Hsorted & Hperm & Hkeys & Hasc & Hstable).
  rewrite H in Hsorted. inversion Hsorted; subst sorted'.
  split; [exact Hperm | split; [now exists ks | exact Hstable]].
Qed.

(** Each question is shown under its id, in the order of the list. *)
Lemma for_each_question_shows qs :
  Forall (fun q => exists b, q = JDict b) qs ->
  result (for_each qs render_question) = Ok tt ->
  question_ids (output (for_each qs render_question)) = map id_shown qs
  /\ subheaders (output (for_each qs render_question)) = [].
Proof.
  induction 1 as [| q qs [b ->] _ IH]; [now split |].
  rewrite for_each_cons. intros Hok.
  apply result_bind_ok in Hok. destruct Hok as [Hq Hrest].
  destruct (IH Hrest) as [IHq IHs].
  destruct (render_question_shows b) as [Hids Hsubs].
  rewrite output_bind, Hq, question_ids_app, subheaders_app.
  rewrite Hids, Hsubs, IHq, IHs. now split.
Qed.

(** A named topic that is rendered to its end shows its name and the ids
    of its questions in ascending order. *)
Lemma named_topic_shows topic_name topic_data :
  result (render_named_topic topic_name topic_data) = Ok tt ->
  subheaders (output (render_named_topic topic_name topic_data))
  = [[FValue topic_name]]
  /\ ids_in_id_order topic_data
       (question_ids (output (render_named_topic topic_name topic_data))).
Proof.
  unfold render_named_topic, ids_in_id_order. intros Hok.
  apply result_bind_ok in Hok. destruct Hok as [_ Hok].
  rewrite output_bind. cbn [emit result output fst snd].
  destruct (py_iter topic_data) as [items | e]; [| discriminate].
  rewrite bind_lift_ok in *.
  destruct (collect_questions items) as [qs | e] eqn:Hqs; [| discriminate].
  rewrite bind_lift_ok in *.
  destruct (sorted_questions qs) as [sorted | e] eqn:Hsorted;
    [| discriminate].
  rewrite bind_lift_ok in *.
  apply collect_questions_bodies in Hqs. subst qs.
  pose proof (sorted_questions_ok _ _ Hsorted) as Horder.
  assert (Hobjects : Forall (fun q => exists b, q = JDict b) sorted).
  { destruct Horder as (Hperm & _).
    pose proof (bodies_are_objects items) as Hb.
    rewrite Forall_forall in *. intros q Hq. apply Hb.
    eapply Permutation_in; [symmetry; exact Hperm | exact Hq]. }
  destruct (for_each_question_shows sorted Hobjects Hok) as [Hq Hs].
  rewrite question_ids_app, subheaders_app, Hq, Hs. split; [reflexivity |].
  exists items, sorted.
  split; [reflexivity | split; [exact Horder | reflexivity]].
Qed.

(** The paired path, rendered to its end: every name above the ids of its
    result list. *)
Lemma paired_shows pairs :
  let shown := for_each pairs (fun p => render_named_topic (fst p) (snd p)) in
  result shown = Ok tt ->
  subheaders (output shown) = map (fun p => [FValue (fst p)]) pairs
  /\ exists groups,
      Forall2 ids_in_id_order (map snd pairs) groups
      /\ question_ids (output shown) = List.concat groups.
Proof.
  cbv zeta. induction pairs as [| p pairs IH].
  - intros _. split; [reflexivity |]. exists []. now split; [constructor |].
  - rewrite for_each_cons. intros Hok.
    apply result_bind_ok in Hok. destruct Hok as [Hp Hrest].
    destruct (IH Hrest) as (IHs & groups & Hgroups & IHq).
    destruct (named_topic_shows (fst p) (snd p) Hp) as [Hs Hq].
    rewrite output_bind, Hp, question_ids_app, subheaders_app.
    rewrite Hs, IHs, IHq. split; [reflexivity |].
    exists (question_ids (output (render_named_topic (fst p) (snd p)))
            :: groups).
    split; [now constructor | reflexivity].
Qed.



Lemma map_snd_combine {A B} (l1 : list A) (l2 : list B) :
  List.length l1 = List.length l2 -> map snd (combine l1 l2) = l2.
Proof.
  revert l2. induction l1 as [| a l1 IH]; intros [| b l2] H;
    try discriminate; [reflexivity |].
  cbn. f_equal. apply IH. now inversion H.
Qed.

Lemma map_fst_combine {A B} (l1 : list A) (l2 : list B) :
  List.length l1 = List.length l2 -> map fst (combine l1 l2) = l1.
Proof.
  revert l2. induction l1 as [| a l1 IH]; intros [| b l2] H;
    try discriminate; [reflexivity |].
  cbn. f_equal. apply IH. now inversion H.
Qed.


End RenderFacts.

(** ** Facts about a run *)

Module ScriptFacts.
Import Render Obs Script.

Section Run.

Context {World : Type}.
Variable svc : services World.
Variable S3_BUCKET : option string.
Variable STEP_FUNCTION_ARN : option string.

#[local] Abbreviation auto_check_status := (auto_check_status svc).
#[local] Abbreviation auto_check_block := (auto_check_block svc).
#[local] Abbreviation show_succeeded := (show_succeeded svc).
#[local] Abbreviation show_failed := (show_failed svc).
#[local] Abbreviation show_running := (show_running svc).
#[local] Abbreviation display := (display svc).
#[local] Abbreviation launch := (launch svc STEP_FUNCTION_ARN).
#[local] Abbreviation after_staging := (after_staging svc STEP_FUNCTION_ARN).
#[local] Abbreviation stage_text := (stage_text svc S3_BUCKET).
#[local] Abbreviation stage_file := (stage_file svc S3_BUCKET).
#[local] Abbreviation stage_files := (stage_files svc S3_BUCKET).
#[local] Abbreviation stage := (stage svc S3_BUCKET).
#[local] Abbreviation process_content :=
  (process_content svc S3_BUCKET STEP_FUNCTION_ARN).
#[local] Abbreviation script := (script svc S3_BUCKET STEP_FUNCTION_ARN).

Ltac unfold_script :=
  unfold Script.auto_check_status, Script.auto_check_block, mbind, try_except,
    call, say, read, update, mret, rerun, sleep, now, of_res, rendering.

(** *** Polling (lines 76-100 and 133-144) *)

Lemma auto_check_status_fetched w s arn w' resp :
  execution_arn s = Some arn ->
  str_truthy arn = true ->
  describe_execution svc arn w = (w', Ok resp) ->
  auto_check_status w s
  = mkRan w'
      (if terminal (resp_status resp)
       then set_auto_check false
              (set_execution_status (Some (resp_status resp)) s)
       else set_execution_status (Some (resp_status resp)) s)
      [DescribeExecution arn]
      (Normal (Some (resp_status resp))).
Proof.
  intros Harn Htrue Hdesc. unfold_script. simpl.
  rewrite Harn, Htrue. simpl. rewrite Hdesc. simpl.
  destruct (terminal (resp_status resp)); reflexivity.
Qed.

Lemma auto_check_status_failed w s arn w' e :
  execution_arn s = Some arn ->
  str_truthy arn = true ->
  describe_execution svc arn w = (w', Raise e) ->
  auto_check_status w s
  = mkRan w' (set_auto_check false s)
      [DescribeExecution arn; Print [FText "Error checking status: "; FExn e]]
      (Normal None).
Proof.
  intros Harn Htrue Hdesc. unfold_script. simpl.
  rewrite Harn, Htrue. simpl. rewrite Hdesc. reflexivity.
Qed.

Lemma auto_check_block_skipped w s :
  polls_next s = false -> auto_check_block w s = mkRan w s [] (Normal tt).
Proof.
  unfold polls_next. intros Hoff. unfold_script. simpl. now rewrite Hoff.
Qed.

Lemma auto_check_block_fetched w s arn w' resp :
  auto_check s = true ->
  execution_arn s = Some arn ->
  str_truthy arn = true ->
  describe_execution svc arn w = (w', Ok resp) ->
  auto_check_block w s
  = if terminal (resp_status resp) then
      mkRan w'
        (set_auto_check false
           (set_execution_status (Some (resp_status resp)) s))
        [waiting_spinner; DescribeExecution arn] Rerun
    else
      mkRan (time_sleep svc (2 # 1) w')
        (set_execution_status (Some (resp_status resp)) s)
        [waiting_spinner; DescribeExecution arn; Sleep (2 # 1)] Rerun.
Proof.
  intros Hauto Harn Htrue Hdesc.
  unfold Script.auto_check_block, mbind at 1, read. cbn [how session_after world_after events].
  rewrite Hauto, Harn. cbn [truthy andb]. rewrite Htrue.
  unfold mbind at 1, say. cbn [how session_after world_after events].
  unfold mbind at 1. rewrite (auto_check_status_fetched w s arn w' resp Harn Htrue Hdesc).
  cbn [how session_after world_after events terminal_opt].
  destruct (terminal (resp_status resp)); reflexivity.
Qed.

Lemma auto_check_block_failed w s arn w' e :
  auto_check s = true ->
  execution_arn s = Some arn ->
  str_truthy arn = true ->
  describe_execution svc arn w = (w', Raise e) ->
  auto_check_block w s
  = mkRan (time_sleep svc (2 # 1) w') (set_auto_check false s)
      [waiting_spinner; DescribeExecution arn;
       Print [FText "Error checking status: "; FExn e]; Sleep (2 # 1)]
      Rerun.
Proof.
  intros Hauto Harn Htrue Hdesc.
  unfold Script.auto_check_block, mbind at 1, read. cbn [how session_after world_after events].
  rewrite Hauto, Harn. cbn [truthy andb]. rewrite Htrue.
  unfold mbind at 1, say. cbn [how session_after world_after events].
  unfold mbind at 1. rewrite (auto_check_status_failed w s arn w' e Harn Htrue Hdesc).
  reflexivity.
Qed.

(** *** Results and errors (lines 276-423) *)

(** What [show_succeeded] does, by what [describe_execution] returns. *)
Lemma show_succeeded_run arn w s :
  show_succeeded arn w s
  = let w1 := time_sleep svc (1 # 1) w in
    let start := [Success "Processing completed successfully!";
                  Sleep (1 # 1); DescribeExecution arn] in
    let warn e := Warning [FText "Could not parse execution output: "; FExn e] in
    match describe_execution svc arn w1 with
    | (w2, Ok response) =>
        match json_loads (or_empty_object (resp_output response)) with
        | Ok out =>
            mkRan w2 s
              (start ++ output (render_output out)
                     ++ match result (render_output out) with
                        | Ok _ => []
                        | Raise e => [warn e]
                        end)
              (Normal tt)
        | Raise e => mkRan w2 s (start ++ [warn e]) (Normal tt)
        end
    | (w2, Raise e) => mkRan w2 s (start ++ [warn e]) (Normal tt)
    end.
Proof.
  unfold Script.show_succeeded. unfold_script. simpl.
  destruct (describe_execution svc arn _) as [w2 [response | e]]; simpl;
    [| reflexivity].
  destruct (json_loads _) as [out | e]; simpl; [| reflexivity].
  destruct (render_output out) as [evs [[] | e]]; simpl.
  - now rewrite !app_nil_r.
  - reflexivity.
Qed.

(** What [show_failed] does, by what [describe_execution] returns. *)
Lemma show_failed_run arn w s :
  show_failed arn w s
  = let start := [Error [FText "Processing failed."]; DescribeExecution arn] in
    let warn e := Warning [FText "Could not parse error details: "; FExn e] in
    match describe_execution svc arn w with
    | (w', Ok response) =>
        match json_loads (or_empty_object (resp_error response)) with
        | Ok error =>
            match json_loads (or_empty_object (resp_cause response)) with
            | Ok cause =>
                mkRan w' s
                  (start ++ [Error [FText "Error: "; FValue error];
                             Error [FText "Cause: "; FValue cause]])
                  (Normal tt)
            | Raise e => mkRan w' s (start ++ [warn e]) (Normal tt)
            end
        | Raise e => mkRan w' s (start ++ [warn e]) (Normal tt)
        end
    | (w', Raise e) => mkRan w' s (start ++ [warn e]) (Normal tt)
    end.
Proof.
  unfold Script.show_failed. unfold_script. simpl.
  destruct (describe_execution svc arn w) as [w' [response | e]]; simpl;
    [| reflexivity].
  destruct (json_loads (or_empty_object (resp_error response))); simpl;
    [| reflexivity].
  destruct (json_loads (or_empty_object (resp_cause response))); reflexivity.
Qed.

Lemma show_succeeded_safe arn w s :
  how (show_succeeded arn w s) = Normal tt
  /\ session_after (show_succeeded arn w s) = s.
Proof.
  rewrite show_succeeded_run. cbv zeta.
  destruct (describe_execution svc arn _) as [w2 [response | e]];
    [| now split].
  destruct (json_loads _); now split.
Qed.

Lemma show_failed_safe arn w s :
  how (show_failed arn w s) = Normal tt
  /\ session_after (show_failed arn w s) = s.
Proof.
  rewrite show_failed_run. cbv zeta.
  destruct (describe_execution svc arn w) as [w' [response | e]];
    [| now split].
  destruct (json_loads (or_empty_object (resp_error response)));
    [| now split].
  destruct (json_loads (or_empty_object (resp_cause response))); now split.
Qed.

(** *** The run as a whole *)

Lemma show_session_id_run (w : World) s :
  show_session_id w s = mkRan w s (sidebar s) (Normal tt).
Proof.
  unfold show_session_id, sidebar. unfold_script. simpl.
  destruct (session_id s) as [sid |]; [| reflexivity].
  destruct (str_truthy sid); reflexivity.
Qed.

(** A run that starts with automatic checking on is a poll tick and
    nothing else. *)
Lemma script_poll_tick inp w s arn :
  auto_check s = true ->
  execution_arn s = Some arn ->
  str_truthy arn = true ->
  script inp w s
  = match describe_execution svc arn w with
    | (w', Ok resp) =>
        if terminal (resp_status resp) then
          mkRan w'
            (set_auto_check false
               (set_execution_status (Some (resp_status resp)) s))
            (sidebar s ++ [waiting_spinner; DescribeExecution arn]) Rerun
        else
          mkRan (time_sleep svc (2 # 1) w')
            (set_execution_status (Some (resp_status resp)) s)
            (sidebar s ++ [waiting_spinner; DescribeExecution arn;
                           Sleep (2 # 1)])
            Rerun
    | (w', Raise e) =>
        mkRan (time_sleep svc (2 # 1) w') (set_auto_check false s)
          (sidebar s ++ [waiting_spinner; DescribeExecution arn;
                         Print [FText "Error checking status: "; FExn e];
                         Sleep (2 # 1)])
          Rerun
    end.
Proof.
  intros Hauto Harn Htrue. unfold Script.script, mbind.
  rewrite show_session_id_run.
  destruct (describe_execution svc arn w) as [w' [resp | e]] eqn:Hdesc.
  - rewrite (auto_check_block_fetched w s arn w' resp Hauto Harn Htrue Hdesc).
    destruct (terminal (resp_status resp)); reflexivity.
  - rewrite (auto_check_block_failed w s arn w' e Hauto Harn Htrue Hdesc).
    reflexivity.
Qed.

(** A run that is neither a poll tick nor a submission shows the button
    and the status. *)
Lemma script_idle inp w s :
  polls_next s = false ->
  process_button inp = false ->
  script inp w s
  = let r := display inp w s in
    mkRan (world_after r) (session_after r)
          (sidebar s ++ Button "Process Content" :: events r) (how r).
Proof.
  intros Hoff Hbutton. unfold Script.script, Script.process_content, mbind.
  rewrite show_session_id_run, (auto_check_block_skipped w s Hoff).
  rewrite Hbutton, andb_false_r. unfold say, mret, after.
  now destruct (display inp w s) as [w' s' evs h].
Qed.

Lemma auto_check_status_normal w s :
  exists v, how (auto_check_status w s) = Normal v.
Proof.
  unfold_script. simpl.
  destruct (execution_arn s) as [arn |]; simpl; [| now eexists].
  destruct (str_truthy arn); simpl; [| now eexists].
  destruct (describe_execution svc arn w) as [w' [resp | e]]; simpl;
    [| now eexists].
  destruct (terminal (resp_status resp)); simpl; now eexists.
Qed.

(** A status check fetches the status once and never switches automatic
    checking on. *)
Lemma auto_check_status_once w s arn :
  execution_arn s = Some arn ->
  str_truthy arn = true ->
  describe_calls (events (auto_check_status w s)) = [arn]
  /\ (auto_check s = false ->
      auto_check (session_after (auto_check_status w s)) = false).
Proof.
  intros Harn Htrue.
  destruct (describe_execution svc arn w) as [w' [resp | e]] eqn:Hdesc.
  - rewrite (auto_check_status_fetched w s arn w' resp Harn Htrue Hdesc).
    split; [reflexivity |].
    now destruct (terminal (resp_status resp)).
  - rewrite (auto_check_status_failed w s arn w' e Harn Htrue Hdesc).
    now split.
Qed.

(** Lines 425-432, reached with automatic checking off. *)
Lemma display_running inp w s arn :
  auto_check s = false ->
  execution_arn s = Some arn ->
  str_truthy arn = true ->
  execution_status s = Some "RUNNING" ->
  display inp w s
  = let shown := [Header "Execution Status";
                  Write [FText "Current Status: **RUNNING**"];
                  Info "Processing is running."; manual_check_button] in
    if manual_button inp then
      let r := auto_check_status w s in
      mkRan (world_after r) (session_after r) (shown ++ events r) Rerun
    else mkRan w s shown (Normal tt).
Proof.
  intros Hauto Harn Htrue Hstatus.
  destruct (auto_check_status_normal w s) as [v Hv].
  unfold Script.display, Script.show_running, mbind, say, read, mret, rerun.
  rewrite Harn, Htrue, Hstatus, Hauto. simpl. rewrite Hauto. simpl.
  destruct (manual_button inp); [| reflexivity].
  destruct (auto_check_status w s) as [w' s' evs h]. simpl in Hv. subst h.
  simpl. now rewrite app_nil_r.
Qed.

Lemma mbind_say {A} e (k : unit -> M A) (w : World) s :
  mbind (say e) k w s = after [e] (k tt w s).
Proof. reflexivity. Qed.

Lemma session_after_after {A} evs (r : ran World A) :
  session_after (after evs r) = session_after r.
Proof. now destruct r. Qed.

Lemma show_running_keeps_off inp w s arn :
  auto_check s = false ->
  execution_arn s = Some arn ->
  str_truthy arn = true ->
  auto_check (session_after (show_running inp w s)) = false.
Proof.
  intros Hauto Harn Htrue.
  destruct (auto_check_status_normal w s) as [v Hv].
  destruct (auto_check_status_once w s arn Harn Htrue) as [_ Hoff].
  unfold Script.show_running, mbind, say, read, mret, rerun.
  rewrite Hauto. simpl.
  destruct (manual_button inp); [| exact Hauto].
  destruct (auto_check_status w s) as [w' s' evs h]. simpl in Hv. subst h.
  simpl in *. now apply Hoff.
Qed.

(** Showing the status never switches automatic checking on. *)
Lemma display_keeps_off inp w s :
  auto_check s = false ->
  auto_check (session_after (display inp w s)) = false.
Proof.
  intros Hauto. unfold Script.display. unfold mbind at 1, read.
  destruct (execution_arn s) as [arn |] eqn:Harn; [| exact Hauto].
  destruct (str_truthy arn) eqn:Htrue; [| exact Hauto].
  rewrite mbind_say, !session_after_after.
  assert (Hidle :
    auto_check
      (session_after
         (mbind (say (Info "Awaiting status update..."))
                (fun _ => if auto_check s then rerun else mret tt) w s))
    = false).
  { rewrite mbind_say, !session_after_after, Hauto. exact Hauto. }
  destruct (execution_status s) as [status |]; [| exact Hidle].
  destruct (str_truthy status); [| exact Hidle].
  rewrite mbind_say, !session_after_after.
  rewrite Hauto. cbn [andb]. unfold mbind at 1, mret at 1, after.
  destruct (String.eqb status "SUCCEEDED").
  { destruct (show_succeeded_safe arn w s) as [_ Hs].
    destruct (Script.show_succeeded svc arn w s) as [w' s' evs h];
      simpl in *; now subst. }
  destruct (String.eqb status "FAILED").
  { destruct (show_failed_safe arn w s) as [_ Hs].
    destruct (Script.show_failed svc arn w s) as [w' s' evs h];
      simpl in *; now subst. }
  destruct (String.eqb status "RUNNING").
  { pose proof (show_running_keeps_off inp w s arn Hauto Harn Htrue) as Hs.
    destruct (Script.show_running svc inp w s) as [w' s' evs h];
      simpl in *; exact Hs. }
  exact Hauto.
Qed.

(** Once automatic checking is off, only a submission switches it on. *)
Lemma script_keeps_off inp w s :
  auto_check s = false ->
  process_button inp = false ->
  auto_check (session_after (script inp w s)) = false.
Proof.
  intros Hauto Hbutton. rewrite script_idle; [| | exact Hbutton].
  - cbv zeta. cbn [session_after]. now apply display_keeps_off.
  - unfold polls_next. now rewrite Hauto.
Qed.

(** *** Launch (lines 213-257) *)

Lemma launch_failed sid w s w' e :
  start_execution svc STEP_FUNCTION_ARN (execution_name sid)
                  (execution_input sid) w = (w', Raise e) ->
  launch sid w s
  = mkRan w' s
      [StartExecution STEP_FUNCTION_ARN (execution_name sid)
                      (execution_input sid);
       StartingEmpty; launch_error e]
      (Normal tt).
Proof.
  intros Hstart. unfold Script.launch, try_except, mbind, call.
  unfold execution_name, execution_input in Hstart.
  now rewrite Hstart.
Qed.

Lemma launch_started sid w s w' arn :
  start_execution svc STEP_FUNCTION_ARN (execution_name sid)
                  (execution_input sid) w = (w', Ok arn) ->
  launch sid w s
  = mkRan (time_sleep svc (3 # 2) w')
      (set_auto_check true (set_execution_arn (Some arn) s))
      [StartExecution STEP_FUNCTION_ARN (execution_name sid)
                      (execution_input sid);
       SuccessBox "Processing pipeline started successfully!";
       Sleep (3 # 2); ProgressEmpty; UploadStatusEmpty; StartingEmpty;
       SuccessBoxEmpty]
      Rerun.
Proof.
  intros Hstart. unfold Script.launch, try_except, mbind, call.
  unfold execution_name, execution_input in Hstart.
  now rewrite Hstart.
Qed.

Lemma after_staging_failed sid file_paths w s w' e :
  file_paths <> [] ->
  start_execution svc STEP_FUNCTION_ARN (execution_name sid)
                  (execution_input sid) w = (w', Raise e) ->
  after_staging sid file_paths w s
  = mkRan w' (set_uploaded_files file_paths s)
      [UploadStatus [FText "All content uploaded successfully!"];
       StartingInfo "Starting document processing pipeline...";
       StartExecution STEP_FUNCTION_ARN (execution_name sid)
                      (execution_input sid);
       StartingEmpty; launch_error e]
      (Normal tt).
Proof.
  intros Hne Hstart. unfold Script.after_staging.
  destruct file_paths as [| k ks]; [contradiction |].
  unfold mbind, say, update.
  now rewrite (launch_failed sid w _ w' e Hstart).
Qed.

(** *** Staging (lines 156-211) *)

Lemma stage_file_run sid total f file_paths n w s :
  stage_file sid total f file_paths n w s
  = let attempt :=
      [UploadStatus [FText ("Uploading " ++ name f ++ "...")];
       UploadFileobj f S3_BUCKET (file_key sid f)] in
    match upload_fileobj svc f S3_BUCKET (file_key sid f) w with
    | (w', Ok _) =>
        mkRan w' s (attempt ++ [Progress (S n) total])
              (Normal (file_paths ++ [file_key sid f], S n))
    | (w', Raise e) =>
        mkRan w' s
          (attempt ++ [Error [FText ("Error uploading " ++ name f ++ ": ");
                              FExn e]])
          (Normal (file_paths, n))
    end.
Proof.
  unfold Script.stage_file, try_except, mbind, call, say, mret, file_key.
  now destruct (upload_fileobj svc f S3_BUCKET _ w) as [w' [[] | e]].
Qed.

Lemma stage_text_run sid text total file_paths n w s :
  stage_text sid text total file_paths n w s
  = if str_truthy (strip text) then
      let key := text_key sid (time_time svc w) in
      let attempt :=
        [UploadStatus
           [FText ("Uploading user-entered text as "
                   ++ text_filename (time_time svc w) ++ "...")];
         PutObject S3_BUCKET key text] in
      match put_object svc S3_BUCKET key text w with
      | (w', Ok _) =>
          mkRan w' s (attempt ++ [Progress (S n) total])
                (Normal (file_paths ++ [key], S n))
      | (w', Raise e) =>
          mkRan w' s
            (attempt ++ [Error [FText "Error uploading user text: "; FExn e]])
            (Normal (file_paths, n))
      end
    else mkRan w s [] (Normal (file_paths, n)).
Proof.
  unfold Script.stage_text, try_except, mbind, call, say, mret, now, text_key.
  destruct (str_truthy (strip text)); [| reflexivity].
  now destruct (put_object svc S3_BUCKET _ text w) as [w' [[] | e]].
Qed.

(** The loop of line 193: every file is tried, in order; the keys of those
    that went through are appended; each of them is followed by a progress
    report and each of the others by an error message. *)
Lemma stage_files_run sid total files :
  forall file_paths n w s,
    let results := upload_results svc S3_BUCKET sid files w in
    let kept := kept_keys sid files results in
    let r := stage_files sid total files file_paths n w s in
    how r = Normal (file_paths ++ kept, (n + List.length kept)%nat)
    /\ session_after r = s
    /\ world_after r = world_after_uploads svc S3_BUCKET sid files w
    /\ upload_attempts (events r) = map (file_key sid) files
    /\ progress_reports (events r)
       = map (fun k => (k, total)) (seq (S n) (List.length kept))
    /\ error_messages (events r) = failure_messages files results.
Proof.
  induction files as [| f rest IH]; intros file_paths n w s; cbv zeta.
  - simpl. rewrite app_nil_r, Nat.add_0_r. repeat split.
  - cbn [Script.stage_files upload_results world_after_uploads map].
    unfold mbind. rewrite stage_file_run. cbv zeta.
    destruct (upload_fileobj svc f S3_BUCKET (file_key sid f) w)
      as [w' [[] | e]]; cbn [fst snd kept_keys succeeded failure_messages].
    + specialize (IH (file_paths ++ [file_key sid f]) (S n) w' s).
      cbv zeta in IH.
      destruct (Script.stage_files svc S3_BUCKET sid total rest _ _ w' s)
        as [w2 s2 evs2 h2].
      cbn [how session_after world_after events after] in *.
      destruct IH as (Hh & Hs & Hw & Hu & Hp & He).
      unfold upload_attempts, progress_reports, error_messages in *.
      rewrite !flat_map_app, Hu, Hp, He, Hh, <- app_assoc.
      cbn [List.length seq map app flat_map upload_attempt progress_report
           error_message].
      rewrite Nat.add_succ_r. repeat split; assumption.
    + specialize (IH file_paths n w' s). cbv zeta in IH.
      destruct (Script.stage_files svc S3_BUCKET sid total rest _ _ w' s)
        as [w2 s2 evs2 h2].
      cbn [how session_after world_after events after] in *.
      destruct IH as (Hh & Hs & Hw & Hu & Hp & He).
      unfold upload_attempts, progress_reports, error_messages in *.
      rewrite !flat_map_app, Hu, Hp, He, Hh.
      repeat split; assumption.
Qed.

Lemma kept_and_failed sid files :
  forall w,
    let results := upload_results svc S3_BUCKET sid files w in
    (List.length (kept_keys sid files results) + failures results)%nat
    = List.length files.
Proof.
  unfold failures.
  induction files as [| f rest IH]; intros w; cbv zeta; [reflexivity |].
  cbn [upload_results].
  destruct (upload_fileobj svc f S3_BUCKET (file_key sid f) w)
    as [w' [[] | e]]; simpl; specialize (IH w'); cbv zeta in IH; lia.
Qed.

Lemma all_kept sid files :
  forall w,
    Forall (fun r => succeeded r = true)
           (upload_results svc S3_BUCKET sid files w) ->
    kept_keys sid files (upload_results svc S3_BUCKET sid files w)
    = map (file_key sid) files.
Proof.
  induction files as [| f rest IH]; intros w; [reflexivity |].
  cbn [upload_results].
  destruct (upload_fileobj svc f S3_BUCKET (file_key sid f) w) as [w' r].
  intros Hall. inversion Hall as [| ? ? Hr Hrest]; subst.
  cbn [kept_keys map]. rewrite Hr. now rewrite (IH w' Hrest).
Qed.

(** Lines 156-211 as a whole. *)
Lemma stage_run sid text files w s :
  let upload := text_upload svc S3_BUCKET sid text w in
  let results :=
    upload_results svc S3_BUCKET sid files (world_after_text w upload) in
  let kept := text_kept svc sid w upload ++ kept_keys sid files results in
  let r := stage sid text files w s in
  how r = Normal kept
  /\ session_after r = s
  /\ upload_attempts (events r)
     = text_attempt svc sid w upload ++ map (file_key sid) files
  /\ progress_reports (events r)
     = map (fun k => (k, total_items text files)) (seq 1 (List.length kept))
  /\ error_messages (events r)
     = text_failure upload ++ failure_messages files results.
Proof.
  cbv zeta.
  assert (Hloop : forall file_paths n w1 before,
    let results := upload_results svc S3_BUCKET sid files w1 in
    let r := after before
               (mbind (stage_files sid (total_items text files) files
                                   file_paths n)
                      (fun p' => mret (fst p')) w1 s) in
    how r = Normal (file_paths ++ kept_keys sid files results)
    /\ session_after r = s
    /\ upload_attempts (events r)
       = upload_attempts before ++ map (file_key sid) files
    /\ progress_reports (events r)
       = progress_reports before
         ++ map (fun k => (k, total_items text files))
                (seq (S n) (List.length (kept_keys sid files results)))
    /\ error_messages (events r)
       = error_messages before ++ failure_messages files results).
  { intros file_paths n w1 before. cbv zeta.
    pose proof (stage_files_run sid (total_items text files) files
                  file_paths n w1 s) as H.
    cbv zeta in H. unfold mbind, mret.
    destruct (Script.stage_files svc S3_BUCKET sid _ files file_paths n w1 s)
      as [w2 s2 evs2 h2].
    cbn [how session_after world_after events after] in *.
    destruct H as (Hh & Hs & _ & Hu & Hp & He). subst h2.
    unfold upload_attempts, progress_reports, error_messages in *.
    cbn [after fst how session_after events].
    rewrite app_nil_r, !flat_map_app, Hu, Hp, He.
    repeat split; assumption. }
  remember (stage sid text files w s) as r eqn:Hr.
  unfold Script.stage in Hr. unfold mbind at 1 in Hr.
  rewrite stage_text_run in Hr. unfold text_upload. revert Hr.
  destruct (str_truthy (strip text)); cbv zeta.
  - destruct (put_object svc S3_BUCKET _ text w) as [w1 [[] | e]];
      cbn [world_after_text text_kept text_attempt text_failure fst snd];
      cbv beta iota; cbn [fst snd]; intros ->.
    + apply (Hloop ([] ++ [text_key sid (time_time svc w)]) 1%nat w1
               ([UploadStatus
                   [FText ("Uploading user-entered text as "
                           ++ text_filename (time_time svc w) ++ "...")];
                 PutObject S3_BUCKET (text_key sid (time_time svc w)) text]
                ++ [Progress 1 (total_items text files)])).
    + apply (Hloop [] 0%nat w1
               ([UploadStatus
                   [FText ("Uploading user-entered text as "
                           ++ text_filename (time_time svc w) ++ "...")];
                 PutObject S3_BUCKET (text_key sid (time_time svc w)) text]
                ++ [Error [FText "Error uploading user text: "; FExn e]])).
  - cbn [world_after_text text_kept text_attempt text_failure fst snd].
    cbv beta iota. cbn [fst snd]. intros ->.
    apply (Hloop [] 0%nat w []).
Qed.

(** The calls to S3 of the loop of line 193: one per file, in order. *)
Lemma stage_files_uploads sid total files :
  forall file_paths n w s,
    uploads (events (stage_files sid total files file_paths n w s))
    = map (fun f => UploadFileobj f S3_BUCKET (file_key sid f)) files.
Proof.
  induction files as [| f rest IH]; intros file_paths n w s; [reflexivity |].
  cbn [Script.stage_files map]. unfold mbind. rewrite stage_file_run.
  cbv zeta.
  destruct (upload_fileobj svc f S3_BUCKET (file_key sid f) w)
    as [w' [[] | e]]; cbn [fst snd].
  - specialize (IH (file_paths ++ [file_key sid f]) (S n) w' s).
    destruct (Script.stage_files svc S3_BUCKET sid total rest _ _ w' s)
      as [w2 s2 evs2 h2].
    cbn [events after] in *. unfold uploads in *.
    rewrite flat_map_app, IH. reflexivity.
  - specialize (IH file_paths n w' s).
    destruct (Script.stage_files svc S3_BUCKET sid total rest _ _ w' s)
      as [w2 s2 evs2 h2].
    cbn [events after] in *. unfold uploads in *.
    rewrite flat_map_app, IH. reflexivity.
Qed.

(** The calls to S3 of the staging as a whole: the text, if it is not
    blank, then the files. *)
Lemma stage_uploads sid text files w s :
  uploads (events (stage sid text files w s))
  = (if all_space text then []
     else [PutObject S3_BUCKET (text_key sid (time_time svc w)) text])
    ++ map (fun f => UploadFileobj f S3_BUCKET (file_key sid f)) files.
Proof.
  assert (Hloop : forall file_paths n w1 before,
    uploads
      (events
         (after before
            (mbind (stage_files sid (total_items text files) files
                                file_paths n)
                   (fun p' => mret (fst p')) w1 s)))
    = uploads before
      ++ map (fun f => UploadFileobj f S3_BUCKET (file_key sid f)) files).
  { intros file_paths n w1 before.
    pose proof (stage_files_uploads sid (total_items text files) files
                  file_paths n w1 s) as H.
    pose proof (stage_files_run sid (total_items text files) files
                  file_paths n w1 s) as Hrun.
    cbv zeta in Hrun. destruct Hrun as (Hh & _).
    unfold mbind, mret.
    destruct (Script.stage_files svc S3_BUCKET sid _ files file_paths n w1 s)
      as [w2 s2 evs2 h2].
    cbn [how events] in *. subst h2. cbn [after events].
    unfold uploads in *. now rewrite app_nil_r, flat_map_app, H. }
  remember (stage sid text files w s) as r eqn:Hr.
  unfold Script.stage in Hr. unfold mbind at 1 in Hr.
  rewrite stage_text_run in Hr. rewrite TextFacts.str_truthy_strip in Hr.
  revert Hr. destruct (all_space text); cbn [negb]; cbv zeta.
  - intros ->. apply (Hloop [] 0%nat w []).
  - destruct (put_object svc S3_BUCKET _ text w) as [w1 [[] | e]];
      cbn [fst snd]; intros ->; rewrite Hloop; reflexivity.
Qed.

End Run.
End ScriptFacts.

(** ** The claims *)

Import Render Obs Script RenderFacts ScriptFacts KeyFacts.
#[local] Open Scope render_scope.



(** Entries of every kind that carries no question, between two questions
    and under a name: the two questions are all that is shown. *)
Example entries_without_question_are_skipped :
  let shown :=
    render_output
      (JDict [("topics", JList [JStr "A"]);
              ("topic_results",
               JList [JList (TestWorld.a_question (JInt 2) "second"
                             :: TestWorld.entries_without_question
                             ++ [TestWorld.a_question (JInt 1) "first"])])]) in
  forallb skipped_entry TestWorld.entries_without_question = true
  /\ question_ids (output shown) = [JInt 1; JInt 2]
  /\ existsb is_warning (output shown) = false
  /\ result shown = Ok tt.
Proof. repeat split. Qed.


Lemma with_keys_raises before q later e :
  Forall (fun q => exists k, id_number q = Ok k) before ->
  id_number q = Raise e ->
  with_keys (before ++ q :: later) = Raise e.
Proof.
  intros Hbefore Hq. induction Hbefore as [| x before [k Hk] _ IH];
    cbn [app with_keys]; rewrite question_key_id_number.
  - now rewrite Hq.
  - rewrite Hk. cbn [res_bind]. now rewrite IH.
Qed.

(** C2, as the code has it: with as many names as result lists, every name
    is paired with the result list at its position, and a rendering that
    reaches its end shows the names in order, under each the ids of its
    questions in ascending order of [int(question_id)], questions with
    equal numbers in the order of the payload; a question without a
    [question_id] counts as 0.  An id that [int] does not accept is not
    taken as 0: the exception of line 312 ends the rendering right after
    the name of the topic, and the handler of line 407 turns it into a
    warning.  With distinct numbers the order in which the entries arrive
    has no effect. *)
Theorem C2_equal_lengths_pair_and_sort :
  forall kvs names datas,
    assoc "topics" kvs = Some (JList names) ->
    assoc "topic_results" kvs = Some (JList datas) ->
    List.length names = List.length datas ->
    let shown := render_output (JDict kvs) in
    let parses q := exists k, id_number q = Ok k in
    let is_read item := entry_is_read item = true in
    shown
    = (emit (Header "Processing Results") ;;
       for_each (combine names datas)
                (fun p => render_named_topic (fst p) (snd p)))
    /\ (result shown = Ok tt ->
        subheaders (output shown) = map (fun n => [FValue n]) names
        /\ exists groups,
            Forall2 ids_in_id_order datas groups
            /\ question_ids (output shown) = List.concat groups)
    /\ (forall topic_name items,
          Forall is_read items ->
          Forall parses (bodies items) ->
          exists sorted,
            in_id_order (bodies items) sorted
            /\ render_named_topic topic_name (JList items)
               = (emit (Subheader [FValue topic_name]) ;;
                  for_each sorted render_question))
    /\ (forall body, assoc "question_id" body = None ->
                     question_key (JDict body) = Ok 0)
    /\ (forall topic_name items before q later e,
          Forall is_read items ->
          bodies items = before ++ q :: later ->
          Forall parses before ->
          id_number q = Raise e ->
          render_named_topic topic_name (JList items)
          = ([Subheader [FValue topic_name]], Raise e))
    /\ (forall World (svc : services World) arn w s w1 response e,
          describe_execution svc arn (time_sleep svc (1 # 1) w)
          = (w1, Ok response) ->
          resp_output response = Some (WellFormed (JDict kvs)) ->
          result shown = Raise e ->
          let r := show_succeeded svc arn w s in
          how r = Normal tt
          /\ events r
             = [Success "Processing completed successfully!";
                Sleep (1 # 1); DescribeExecution arn]
               ++ output shown
               ++ [Warning [FText "Could not parse execution output: ";
                            FExn e]])
    /\ (forall topic_name items items',
          Forall is_read items ->
          Forall is_read items' ->
          Permutation (bodies items) (bodies items') ->
          Forall parses (bodies items) ->
          NoDup (map key_of (bodies items)) ->
          render_named_topic topic_name (JList items)
          = render_named_topic topic_name (JList items')).
Proof.
  intros kvs names datas Htopics Hresults Hlen shown parses is_read.
  assert (Hpaired := render_output_equal_lengths kvs names datas
                       Htopics Hresults Hlen).
  fold shown in Hpaired.
  split; [exact Hpaired |].
  split; [| split; [| split; [| split; [| split]]]].
  - rewrite Hpaired. intros Hok.
    apply result_bind_ok in Hok. destruct Hok as [_ Hok].
    destruct (paired_shows (combine names datas) Hok)
      as (Hsubs & groups & Hgroups & Hids).
    rewrite output_bind. cbn [emit result output fst snd].
    rewrite question_ids_app, subheaders_app, Hsubs, Hids.
    rewrite map_snd_combine in Hgroups by exact Hlen.
    split.
    + cbn [subheaders flat_map subheader_of app].
      rewrite <- (map_fst_combine names datas Hlen) at 2.
      now rewrite map_map.
    + now exists groups.
  - intros topic_name items Hread Hall.
    destruct (sorted_questions_spec (bodies items) Hall)
      as (sorted & ks & Hsorted & Hperm & Hkeys & Hasc & Hstable).
    exists sorted. split.
    + split; [exact Hperm | split; [now exists ks | exact Hstable]].
    + unfold render_named_topic. cbn [py_iter].
      rewrite bind_lift_ok, (collect_questions_read items Hread).
      now rewrite bind_lift_ok, Hsorted, bind_lift_ok.
  - intros body Hnone. unfold question_key.
    now rewrite py_get_dict; unfold dict_get; rewrite Hnone.
  - intros topic_name items before q later e Hread Hbodies Hbefore Hq.
    unfold render_named_topic. cbn [py_iter].
    rewrite bind_lift_ok, (collect_questions_read items Hread).
    rewrite bind_lift_ok, Hbodies.
    now rewrite (sorted_questions_raise _ e
                   (with_keys_raises before q later e Hbefore Hq)).
  - intros World svc arn w s w1 response e Hfetch Hout Hraise r. subst r.
    rewrite show_succeeded_run. cbv zeta. rewrite Hfetch, Hout.
    cbn [or_empty_object json_loads]. fold shown. rewrite Hraise.
    split; reflexivity.
  - intros topic_name items items' Hread Hread' Hperm Hall Hnd.
    unfold render_named_topic. cbn [py_iter].
    rewrite !bind_lift_ok, (collect_questions_read items Hread).
    rewrite (collect_questions_read items' Hread'), !bind_lift_ok.
    now rewrite (sorted_questions_order_irrelevant _ _ Hperm Hall Hnd).
Qed.

Lemma C2_equal_lengths_pair_and_sort_witness :
  let shown := render_output TestWorld.paired_payload in
  subheaders (output shown) = [[FValue (JStr "A")]; [FValue (JStr "B")]]
  /\ exists groups,
      Forall2 ids_in_id_order TestWorld.paired_results groups
      /\ question_ids (output shown) = List.concat groups.
Proof.
  destruct (C2_equal_lengths_pair_and_sort
              TestWorld.paired_fields [JStr "A"; JStr "B"]
              TestWorld.paired_results eq_refl eq_refl eq_refl)
    as (_ & Hshown & _).
  exact (Hshown eq_refl).
Defined.

(** The example of the specification: ids [3, "1", 2] under "A" come out
    as "1", 2, 3, and the second topic under "B". *)
Example paired_payload_rendering :
  subheaders (output (render_output TestWorld.paired_payload))
  = [[FValue (JStr "A")]; [FValue (JStr "B")]]
  /\ question_ids (output (render_output TestWorld.paired_payload))
     = [JStr "1"; JInt 2; JInt 3; JInt 1]
  /\ result (render_output TestWorld.paired_payload) = Ok tt.
Proof. repeat split. Qed.

(** C2 as stated fails: an id that [int] does not accept (here ["abc"]) is
    not sorted as 0; the topic's name is shown, then [ValueError] is
    raised and no question is rendered. *)
Lemma C2_unparseable_id_is_not_zero :
  render_output TestWorld.unparseable_payload
  = ([Header "Processing Results"; Subheader [FValue (JStr "A")]],
     Raise ValueError).
Proof. reflexivity. Qed.

(** What [int] makes of an id decides: an id of Arabic-Indic digits is
    sorted by its value, an id with the separator 28 before the digit is
    refused. *)
Example ids_as_int_reads_them :
  let three := String "217" (String "163" "") in
  let topic ids :=
    JDict [("topics", JList [JStr "A"]);
           ("topic_results",
            JList [JList (map (fun qid => TestWorld.a_question qid "q")
                              ids)])] in
  question_ids (output (render_output (topic [JStr three; JInt 2])))
  = [JInt 2; JStr three]
  /\ render_output (topic [JStr (String "028" "5"); JInt 2])
     = ([Header "Processing Results"; Subheader [FValue (JStr "A")]],
        Raise ValueError).
Proof. split; reflexivity. Qed.




Lemma describe_calls_app l1 l2 :
  describe_calls (l1 ++ l2) = describe_calls l1 ++ describe_calls l2.
Proof. apply flat_map_app. Qed.

Lemma sleeps_app l1 l2 : sleeps (l1 ++ l2) = sleeps l1 ++ sleeps l2.
Proof. apply flat_map_app. Qed.

Lemma sidebar_is_quiet s :
  describe_calls (sidebar s) = [] /\ sleeps (sidebar s) = []
  /\ offers_manual_check (sidebar s) = false.
Proof.
  unfold sidebar. destruct (session_id s) as [sid |]; [| now repeat split].
  destruct (str_truthy sid); now repeat split.
Qed.

Lemma terminal_statuses status :
  terminal status = true
  <-> In status ["SUCCEEDED"; "FAILED"; "TIMED_OUT"; "ABORTED"].
Proof.
  unfold terminal. rewrite existsb_exists. split.
  - intros (x & Hin & Hx). apply String.eqb_eq in Hx. now subst.
  - intros Hin. exists status. split; [exact Hin | apply String.eqb_refl].
Qed.

(** C3: a run that starts with automatic checking on fetches the status
    once and ends in a rerun.  If the status fetched is none of SUCCEEDED,
    FAILED, TIMED_OUT and ABORTED, the run pauses 2 seconds before the
    rerun and the next run polls again.  If it is one of the four, or if
    the fetch raises, automatic checking is off afterwards; a run that
    starts with it off does not poll, and it stays off until something is
    submitted. *)
Theorem C3_poll_tick :
  forall World (svc : services World) bucket state_machine inp w s arn,
    auto_check s = true ->
    execution_arn s = Some arn ->
    str_truthy arn = true ->
    let r := script svc bucket state_machine inp w s in
    let final := ["SUCCEEDED"; "FAILED"; "TIMED_OUT"; "ABORTED"] in
    how r = Rerun
    /\ describe_calls (events r) = [arn]
    /\ match snd (describe_execution svc arn w) with
       | Ok resp =>
           execution_status (session_after r) = Some (resp_status resp)
           /\ (In (resp_status resp) final ->
               auto_check (session_after r) = false
               /\ sleeps (events r) = [])
           /\ (~ In (resp_status resp) final ->
               polls_next (session_after r) = true
               /\ sleeps (events r) = [2 # 1]
               /\ exists before, events r = before ++ [Sleep (2 # 1)])
       | Raise _ => auto_check (session_after r) = false
       end
    /\ (forall inp' w' s',
          auto_check s' = false ->
          auto_check_block svc w' s' = mkRan w' s' [] (Normal tt)
          /\ (process_button inp' = false ->
              auto_check
                (session_after (script svc bucket state_machine inp' w' s'))
              = false)).
Proof.
  intros World svc bucket state_machine inp w s arn Hauto Harn Htrue r final.
  subst r final.
  rewrite (script_poll_tick svc bucket state_machine inp w s arn
             Hauto Harn Htrue).
  destruct (sidebar_is_quiet s) as (Hd & Hs & _).
  assert (Hoff : forall inp' w' s',
    auto_check s' = false ->
    Script.auto_check_block svc w' s' = mkRan w' s' [] (Normal tt)
    /\ (process_button inp' = false ->
        auto_check
          (session_after (script svc bucket state_machine inp' w' s'))
        = false)).
  { intros inp' w' s' Hoff. split.
    - apply auto_check_block_skipped. unfold polls_next. now rewrite Hoff.
    - intros Hbutton. now apply script_keeps_off. }
  destruct (describe_execution svc arn w) as [w' [resp | e]]; cbn [snd].
  - pose proof (terminal_statuses (resp_status resp)) as Hfinal.
    destruct (terminal (resp_status resp));
      cbn [how events session_after];
      rewrite describe_calls_app, sleeps_app, Hd, Hs;
      (split; [reflexivity | split; [reflexivity | split; [| exact Hoff]]]).
    + split; [reflexivity | split; [now split |]].
      intros Hnot. exfalso. apply Hnot. now apply Hfinal.
    + split; [reflexivity | split].
      * intros Hin. apply Hfinal in Hin. discriminate.
      * intros _. split; [| split; [reflexivity |]].
        -- unfold polls_next. cbn. rewrite Hauto, Harn. cbn. exact Htrue.
        -- exists (sidebar s ++ [waiting_spinner; DescribeExecution arn]).
           now rewrite <- app_assoc.
  - cbn [how events session_after].
    rewrite describe_calls_app, Hd.
    split; [reflexivity | split; [reflexivity | split; [reflexivity |]]].
    exact Hoff.
Qed.

Lemma C3_poll_tick_witness :
  let run sc := script (TestWorld.services_of sc) TestWorld.bucket
                       TestWorld.state_machine TestWorld.no_click
                       0%nat (TestWorld.polling None true) in
  let running := run TestWorld.still_running in
  let failed := run TestWorld.failed_with_json_error in
  (how running = Rerun
   /\ describe_calls (events running) = [TestWorld.an_arn]
   /\ polls_next (session_after running) = true
   /\ sleeps (events running) = [2 # 1])
  /\ (how failed = Rerun
      /\ execution_status (session_after failed) = Some "FAILED"
      /\ auto_check (session_after failed) = false
      /\ sleeps (events failed) = []).
Proof.
  split.
  - destruct (C3_poll_tick nat
                (TestWorld.services_of TestWorld.still_running)
                TestWorld.bucket TestWorld.state_machine TestWorld.no_click
                0%nat (TestWorld.polling None true) TestWorld.an_arn
                eq_refl eq_refl eq_refl)
      as (Hhow & Hcalls & Hstatus & _).
    cbn [snd TestWorld.services_of describe_execution nth TestWorld.still_running
         TestWorld.describe_results] in Hstatus.
    destruct Hstatus as (_ & _ & Hrunning).
    destruct Hrunning as (Hnext & Hsleeps & _).
    + cbn. intros H. repeat (destruct H as [H | H]; [discriminate H |]).
      exact H.
    + repeat split; assumption.
  - destruct (C3_poll_tick nat
                (TestWorld.services_of TestWorld.failed_with_json_error)
                TestWorld.bucket TestWorld.state_machine TestWorld.no_click
                0%nat (TestWorld.polling None true) TestWorld.an_arn
                eq_refl eq_refl eq_refl)
      as (Hhow & _ & Hstatus & _).
    cbn [snd TestWorld.services_of describe_execution nth
         TestWorld.failed_with_json_error TestWorld.describe_results]
      in Hstatus.
    destruct Hstatus as (Hfailed & Hfinal & _).
    destruct Hfinal as (Hoff & Hsleeps).
    + cbn. tauto.
    + repeat split; assumption.
Defined.

(** Specification, property 6: RUNNING three times, then SUCCEEDED, makes
    three pauses of 2 seconds before automatic checking stops. *)
Example three_pauses_then_stop :
  let svc := TestWorld.services_of
               (TestWorld.mkScenario [] false (Ok TestWorld.an_arn)
                  [Ok (TestWorld.status_only "RUNNING");
                   Ok (TestWorld.status_only "RUNNING");
                   Ok (TestWorld.status_only "RUNNING");
                   Ok (TestWorld.status_only "SUCCEEDED")]) in
  let run w s := script svc TestWorld.bucket TestWorld.state_machine
                        TestWorld.no_click w s in
  let r1 := run 0%nat (TestWorld.polling None true) in
  let r2 := run (world_after r1) (session_after r1) in
  let r3 := run (world_after r2) (session_after r2) in
  let r4 := run (world_after r3) (session_after r3) in
  sleeps (events r1 ++ events r2 ++ events r3 ++ events r4)
  = [2 # 1; 2 # 1; 2 # 1]
  /\ auto_check (session_after r4) = false
  /\ execution_status (session_after r4) = Some "SUCCEEDED".
Proof. repeat split. Qed.

(** C9, as the code has it: when automatic checking is off and the stored
    status is RUNNING, a run that is not a submission shows the button
    "Check Status Manually"; pressing it fetches the status once and
    reruns, not pressing it fetches nothing.  (The button is tied to the
    status RUNNING; a stored PENDING does not bring it up.) *)
Theorem C9_manual_check_when_running :
  forall World (svc : services World) bucket state_machine inp w s arn,
    auto_check s = false ->
    execution_arn s = Some arn ->
    str_truthy arn = true ->
    execution_status s = Some "RUNNING" ->
    process_button inp = false ->
    let r := script svc bucket state_machine inp w s in
    offers_manual_check (events r) = true
    /\ (manual_button inp = true ->
        describe_calls (events r) = [arn] /\ how r = Rerun)
    /\ (manual_button inp = false ->
        describe_calls (events r) = [] /\ how r = Normal tt).
Proof.
  intros World svc bucket state_machine inp w s arn
         Hauto Harn Htrue Hstatus Hbutton r.
  subst r. rewrite script_idle; [| | exact Hbutton].
  2: { unfold polls_next. now rewrite Hauto. }
  rewrite (display_running svc inp w s arn Hauto Harn Htrue Hstatus).
  destruct (sidebar_is_quiet s) as (Hd & _ & Hm).
  destruct (auto_check_status_once svc w s arn Harn Htrue) as [Honce _].
  cbv zeta. unfold offers_manual_check in *.
  destruct (manual_button inp); cbn [events how].
  - rewrite existsb_app, Hm, describe_calls_app, Hd.
    split; [reflexivity | split; [| discriminate]].
    intros _. split; [| reflexivity].
    unfold describe_calls, manual_check_button in *.
    cbn [app flat_map describe_call]. exact Honce.
  - rewrite existsb_app, Hm, describe_calls_app, Hd.
    split; [reflexivity | split; [discriminate |]].
    intros _. now split.
Qed.

Lemma C9_manual_check_when_running_witness :
  let r := script (TestWorld.services_of TestWorld.still_running)
                  TestWorld.bucket TestWorld.state_machine
                  TestWorld.manual_click 0%nat
                  (TestWorld.polling (Some "RUNNING") false) in
  offers_manual_check (events r) = true
  /\ describe_calls (events r) = [TestWorld.an_arn] /\ how r = Rerun.
Proof.
  destruct (C9_manual_check_when_running nat
              (TestWorld.services_of TestWorld.still_running)
              TestWorld.bucket TestWorld.state_machine
              TestWorld.manual_click 0%nat
              (TestWorld.polling (Some "RUNNING") false) TestWorld.an_arn
              eq_refl eq_refl eq_refl eq_refl eq_refl)
    as (Hoffer & Hpressed & _).
  split; [exact Hoffer | exact (Hpressed eq_refl)].
Defined.

(** C9 as stated fails: with automatic checking off and the stored status
    PENDING, the run shows no manual check and fetches nothing. *)
Lemma C9_no_manual_check_when_pending :
  let r := run_script (TestWorld.services_of TestWorld.still_running)
                      TestWorld.bucket TestWorld.state_machine
                      (Some (TestWorld.polling (Some "PENDING") false))
                      TestWorld.no_click 0%nat in
  offers_manual_check (events r) = false
  /\ describe_calls (events r) = []
  /\ how r = Normal tt.
Proof. repeat split. Qed.

(** When the first poll fails, the status is still unknown and automatic
    checking is off: the next run shows "Awaiting status update..." and
    offers no manual check either. *)
Example no_manual_check_after_failed_first_poll :
  let svc := TestWorld.services_of TestWorld.unreachable in
  let run w s := script svc TestWorld.bucket TestWorld.state_machine
                        TestWorld.no_click w s in
  let r1 := run 0%nat (TestWorld.polling None true) in
  let r2 := run (world_after r1) (session_after r1) in
  auto_check (session_after r1) = false
  /\ execution_status (session_after r1) = None
  /\ events r2
     = [SidebarSessionId "20260104093000-3f2a9c1e";
        Button "Process Content"; Header "Execution Status";
        Info "Awaiting status update..."]
  /\ how r2 = Normal tt.
Proof. repeat split. Qed.

(** C4, as the code has it: on FAILED the block never raises and leaves the
    session as it is.  A field that is absent counts as an empty object; if
    both fields decode, both are shown; if one of them is there and is not
    JSON, neither is shown and the [JSONDecodeError] becomes a warning, as
    does an exception of the fetch. *)
Theorem C4_failed_shows_error_and_cause :
  forall World (svc : services World) arn w s,
    let r := show_failed svc arn w s in
    let start := [Error [FText "Processing failed."];
                  DescribeExecution arn] in
    let warn e := Warning [FText "Could not parse error details: "; FExn e] in
    how r = Normal tt
    /\ session_after r = s
    /\ match snd (describe_execution svc arn w) with
       | Ok response =>
           (forall error cause,
              reads (resp_error response) error ->
              reads (resp_cause response) cause ->
              events r = start ++ [Error [FText "Error: "; FValue error];
                                   Error [FText "Cause: "; FValue cause]])
           /\ (undecodable (resp_error response)
               \/ undecodable (resp_cause response) ->
               events r = start ++ [warn JSONDecodeError])
       | Raise e => events r = start ++ [warn e]
       end.
Proof.
  intros World svc arn w s r start warn. subst r start warn.
  destruct (show_failed_safe svc arn w s) as [Hhow Hsession].
  split; [exact Hhow | split; [exact Hsession |]].
  rewrite show_failed_run. cbv zeta.
  destruct (describe_execution svc arn w) as [w' [response | e]]; cbn [snd];
    [| reflexivity].
  unfold reads, undecodable.
  destruct (resp_error response) as [[error | raw] |];
    destruct (resp_cause response) as [[cause | raw'] |];
    cbn [or_empty_object json_loads events];
    (split; [intros ? ? He Hc; subst; try contradiction; reflexivity
            | intros [[] | []]; reflexivity]).
Qed.

(** What is shown when the fields decode, one of them being absent. *)
Example failed_with_json_error_shown :
  events (show_failed (TestWorld.services_of TestWorld.failed_with_json_error)
                      TestWorld.an_arn 0%nat
                      (TestWorld.polling (Some "FAILED") false))
  = [Error [FText "Processing failed."];
     DescribeExecution TestWorld.an_arn;
     Error [FText "Error: "; FValue (JDict [("code", JInt 42)])];
     Error [FText "Cause: "; FValue (JDict [])]].
Proof. reflexivity. Qed.

(** C4 as stated fails: an [error] that is not JSON (Step Functions reports
    a plain name such as [States.TaskFailed]) is not replaced by an empty
    object; neither error nor cause is shown, only the warning. *)
Lemma C4_undecodable_error_is_not_defaulted :
  events (show_failed
            (TestWorld.services_of TestWorld.failed_with_plain_error)
            TestWorld.an_arn 0%nat
            (TestWorld.polling (Some "FAILED") false))
  = [Error [FText "Processing failed."];
     DescribeExecution TestWorld.an_arn;
     Warning [FText "Could not parse error details: "; FExn JSONDecodeError]].
Proof. reflexivity. Qed.

(** C5: when [start_execution] raises, the launch block shows the error and
    leaves the session exactly as it was; after the staging of a submission
    the execution handle and the automatic-checking flag are what they were
    before, and the run goes on without a rerun. *)
Theorem C5_failed_start_changes_nothing :
  forall World (svc : services World) state_machine sid w s w' e,
    start_execution svc state_machine (execution_name sid)
                    (execution_input sid) w = (w', Raise e) ->
    let r := launch svc state_machine sid w s in
    session_after r = s
    /\ how r = Normal tt
    /\ In (launch_error e) (events r)
    /\ forall file_paths,
        file_paths <> [] ->
        let r' := after_staging svc state_machine sid file_paths w s in
        execution_arn (session_after r') = execution_arn s
        /\ auto_check (session_after r') = auto_check s
        /\ how r' = Normal tt
        /\ In (launch_error e) (events r').
Proof.
  intros World svc state_machine sid w s w' e Hstart r. subst r.
  rewrite (launch_failed svc state_machine sid w s w' e Hstart).
  split; [reflexivity | split; [reflexivity | split]].
  - cbn. tauto.
  - intros file_paths Hne r'. subst r'.
    rewrite (after_staging_failed svc state_machine sid file_paths w s w' e
               Hne Hstart).
    cbn. tauto.
Qed.

Lemma C5_failed_start_changes_nothing_witness :
  session_after
    (launch (TestWorld.services_of TestWorld.start_fails)
            TestWorld.state_machine TestWorld.a_session_id 0%nat
            (TestWorld.polling None false))
  = TestWorld.polling None false.
Proof.
  apply (C5_failed_start_changes_nothing nat
           (TestWorld.services_of TestWorld.start_fails)
           TestWorld.state_machine TestWorld.a_session_id 0%nat
           (TestWorld.polling None false) 0%nat TestWorld.throttled eq_refl).
Defined.

(** C6: staging tries every item in order whatever happens to the others.
    The keys returned are those of the items whose upload went through, in
    order; every item whose upload raised is reported by an error message
    of its own and is missing from the keys.  If exactly one of the M files
    fails, M-1 of their keys are returned. *)
Theorem C6_failed_upload_is_skipped :
  forall World (svc : services World) bucket sid text files w s,
    let upload := text_upload svc bucket sid text w in
    let results :=
      upload_results svc bucket sid files (world_after_text w upload) in
    let r := stage svc bucket sid text files w s in
    how r = Normal (text_kept svc sid w upload ++ kept_keys sid files results)
    /\ upload_attempts (events r)
       = text_attempt svc sid w upload ++ map (file_key sid) files
    /\ error_messages (events r)
       = text_failure upload ++ failure_messages files results
    /\ (List.length (kept_keys sid files results) + failures results)%nat
       = List.length files
    /\ (failures results = 1%nat ->
        List.length (kept_keys sid files results)
        = (List.length files - 1)%nat).
Proof.
  intros World svc bucket sid text files w s upload results r.
  destruct (stage_run svc bucket sid text files w s)
    as (Hhow & _ & Hattempts & _ & Herrors).
  pose proof (kept_and_failed svc bucket sid files
                (world_after_text w upload)) as Hcount.
  cbv zeta in Hcount. fold results in Hcount.
  split; [exact Hhow | split; [exact Hattempts | split; [exact Herrors |]]].
  split; [exact Hcount | intros Hone; lia].
Qed.

Lemma C6_failed_upload_is_skipped_witness :
  let svc := TestWorld.services_of TestWorld.one_upload_fails in
  let files := [TestWorld.report; TestWorld.broken; TestWorld.notes] in
  let results :=
    upload_results svc TestWorld.bucket TestWorld.a_session_id files 0%nat in
  failures results = 1%nat
  /\ List.length (kept_keys TestWorld.a_session_id files results) = 2%nat.
Proof.
  split; [reflexivity |].
  apply (C6_failed_upload_is_skipped nat
           (TestWorld.services_of TestWorld.one_upload_fails)
           TestWorld.bucket TestWorld.a_session_id ""
           [TestWorld.report; TestWorld.broken; TestWorld.notes] 0%nat
           (TestWorld.polling None false)).
  reflexivity.
Defined.

(** Specification, property 3, run: of three files the second fails; the
    keys of the first and the third come back and one error is shown. *)
Example one_of_three_fails :
  let r := stage (TestWorld.services_of TestWorld.one_upload_fails)
                 TestWorld.bucket TestWorld.a_session_id ""
                 [TestWorld.report; TestWorld.broken; TestWorld.notes] 0%nat
                 (TestWorld.polling None false) in
  how r = Normal ["20260104093000-3f2a9c1e/report.pdf";
                  "20260104093000-3f2a9c1e/notes.txt"]
  /\ error_messages (events r)
     = [[FText "Error uploading broken.pdf: "; FExn TestWorld.denied]]
  /\ progress_reports (events r) = [(1, 3); (2, 3)]%nat.
Proof. repeat split. Qed.

Lemma count_matching_keys sid files :
  List.length (filter (matches_text_key sid) (map (file_key sid) files))
  = List.length (filter named_like_text files).
Proof.
  induction files as [| f rest IH]; [reflexivity |].
  cbn [map filter]. rewrite file_key_matches.
  destruct (named_like_text f); cbn [List.length]; now rewrite IH.
Qed.

(** C7, as the code has it: text that is not blank is stored before any
    file, whatever becomes of the uploads, under the key
    "{session_id}/user_input_{int(time)}.txt", and every file after it
    under "{session_id}/{name}".  The key of the text matches
    "{session_id}/user_input_*.txt"; so does the key of every uploaded file
    that is itself named user_input_*.txt, hence exactly one key matches
    when no uploaded file has such a name.  When the text and all N files
    go through, the N+1 keys are returned, the key of the text first. *)
Theorem C7_text_is_staged_first :
  forall World (svc : services World) bucket sid text files w s,
    all_space text = false ->
    let first := (sid ++ "/user_input_" ++ str_of_Z (trunc (time_time svc w))
                      ++ ".txt")%string in
    let keys := first :: map (file_key sid) files in
    let r := stage svc bucket sid text files w s in
    uploads (events r)
    = PutObject bucket first text
      :: map (fun f => UploadFileobj f bucket (file_key sid f)) files
    /\ upload_attempts (events r) = keys
    /\ matches_text_key sid first = true
    /\ List.length (filter (matches_text_key sid) keys)
       = S (List.length (filter named_like_text files))
    /\ (Forall (fun f => named_like_text f = false) files ->
        List.length (filter (matches_text_key sid) keys) = 1%nat)
    /\ (forall w1,
          put_object svc bucket first text w = (w1, Ok tt) ->
          Forall (fun r => succeeded r = true)
                 (upload_results svc bucket sid files w1) ->
          how r = Normal keys
          /\ List.length keys = S (List.length files)).
Proof.
  intros World svc bucket sid text files w s Htext first keys r.
  change (sid ++ "/user_input_" ++ str_of_Z (trunc (time_time svc w))
              ++ ".txt")%string
    with (text_key sid (time_time svc w)) in first.
  subst r keys first.
  destruct (stage_run svc bucket sid text files w s)
    as (Hhow & _ & Hattempts & _ & _).
  pose proof (stage_uploads svc bucket sid text files w s) as Huploads.
  unfold text_upload in Hhow, Hattempts.
  rewrite TextFacts.str_truthy_strip in Hhow, Hattempts.
  rewrite Htext in Hhow, Hattempts, Huploads.
  cbn [negb world_after_text text_kept text_attempt app] in *.
  assert (Hcount :
    List.length (filter (matches_text_key sid)
                   (text_key sid (time_time svc w)
                    :: map (file_key sid) files))
    = S (List.length (filter named_like_text files))).
  { cbn [filter]. rewrite text_key_matches.
    cbn [List.length]. now rewrite count_matching_keys. }
  split; [exact Huploads |].
  split; [exact Hattempts |].
  split; [apply text_key_matches |].
  split; [exact Hcount |].
  split.
  - intros Hnone. rewrite Hcount. f_equal.
    clear - Hnone. induction Hnone as [| f rest Hf _ IH]; [reflexivity |].
    cbn [filter]. now rewrite Hf.
  - intros w1 Hput Hall.
    rewrite Hput in Hhow. cbn [app] in Hhow.
    rewrite (all_kept svc bucket sid files w1 Hall) in Hhow.
    split; [exact Hhow |].
    cbn [List.length]. now rewrite length_map.
Qed.

Lemma C7_text_is_staged_first_witness :
  let r := stage (TestWorld.services_of TestWorld.all_fine) TestWorld.bucket
                 TestWorld.a_session_id "  The river is rising. "
                 [TestWorld.report; TestWorld.notes] 0%nat
                 (TestWorld.polling None false) in
  let keys := ["20260104093000-3f2a9c1e/user_input_1700000000.txt";
               "20260104093000-3f2a9c1e/report.pdf";
               "20260104093000-3f2a9c1e/notes.txt"] in
  upload_attempts (events r) = keys /\ how r = Normal keys.
Proof.
  destruct (C7_text_is_staged_first nat
              (TestWorld.services_of TestWorld.all_fine)
              TestWorld.bucket TestWorld.a_session_id
              "  The river is rising. "
              [TestWorld.report; TestWorld.notes] 0%nat
              (TestWorld.polling None false) eq_refl)
    as (_ & Hattempts & _ & _ & _ & Hkeys).
  split; [exact Hattempts |].
  apply (Hkeys 0%nat eq_refl). repeat constructor.
Defined.

(** The text goes first also when nothing can be stored. *)
Example text_is_tried_first_when_uploads_fail :
  let r := stage (TestWorld.services_of TestWorld.every_upload_fails)
                 TestWorld.bucket TestWorld.a_session_id
                 "The river is rising."
                 [TestWorld.report; TestWorld.notes] 0%nat
                 (TestWorld.polling None false) in
  upload_attempts (events r)
  = ["20260104093000-3f2a9c1e/user_input_1700000000.txt";
     "20260104093000-3f2a9c1e/report.pdf";
     "20260104093000-3f2a9c1e/notes.txt"]
  /\ how r = Normal [].
Proof. split; reflexivity. Qed.

(** C7 as stated fails: an uploaded file named user_input_notes.txt gives a
    second key that matches "{session_id}/user_input_*.txt". *)
Lemma C7_two_keys_match :
  let r := stage (TestWorld.services_of TestWorld.all_fine) TestWorld.bucket
                 TestWorld.a_session_id "The river is rising."
                 [TestWorld.text_like] 0%nat
                 (TestWorld.polling None false) in
  how r = Normal ["20260104093000-3f2a9c1e/user_input_1700000000.txt";
                  "20260104093000-3f2a9c1e/user_input_notes.txt"]
  /\ List.length
       (filter (matches_text_key TestWorld.a_session_id)
          ["20260104093000-3f2a9c1e/user_input_1700000000.txt";
           "20260104093000-3f2a9c1e/user_input_notes.txt"])
     = 2%nat.
Proof. split; reflexivity. Qed.

Lemma total_items_counted text files :
  total_items text files
  = (List.length files + (if all_space text then 0 else 1))%nat.
Proof.
  unfold total_items. rewrite TextFacts.str_truthy_strip.
  now destruct (all_space text).
Qed.

(** C8, as the code has it: progress is reported right after each item
    that was stored, the text and the files alike, as the number of items
    stored so far over the number of items of the submission (the files,
    and the text if it is not blank); an item whose upload raises is
    followed by an error message and no progress report. *)
Theorem C8_progress_after_each_stored_item :
  forall World (svc : services World) bucket sid text files w s,
    let r := stage svc bucket sid text files w s in
    let items :=
      (List.length files + (if all_space text then 0 else 1))%nat in
    (exists keys,
        how r = Normal keys
        /\ progress_reports (events r)
           = map (fun k => (k, items)) (seq 1 (List.length keys)))
    /\ (forall total f file_paths n w0,
          let item := stage_file svc bucket sid total f file_paths n w0 s in
          let attempt :=
            [UploadStatus [FText ("Uploading " ++ name f ++ "...")];
             UploadFileobj f bucket (file_key sid f)] in
          match snd (upload_fileobj svc f bucket (file_key sid f) w0) with
          | Ok _ =>
              events item = attempt ++ [Progress (S n) total]
              /\ how item = Normal (file_paths ++ [file_key sid f], S n)
          | Raise e =>
              events item
              = attempt
                ++ [Error [FText ("Error uploading " ++ name f ++ ": ");
                           FExn e]]
              /\ how item = Normal (file_paths, n)
          end)
    /\ (forall total file_paths n w0,
          all_space text = false ->
          let filename :=
            ("user_input_" ++ str_of_Z (trunc (time_time svc w0))
                           ++ ".txt")%string in
          let key := (sid ++ "/" ++ filename)%string in
          let item := stage_text svc bucket sid text total file_paths n w0 s in
          let attempt :=
            [UploadStatus
               [FText ("Uploading user-entered text as " ++ filename
                       ++ "...")];
             PutObject bucket key text] in
          match snd (put_object svc bucket key text w0) with
          | Ok _ =>
              events item = attempt ++ [Progress (S n) total]
              /\ how item = Normal (file_paths ++ [key], S n)
          | Raise e =>
              events item
              = attempt ++ [Error [FText "Error uploading user text: ";
                                   FExn e]]
              /\ how item = Normal (file_paths, n)
          end).
Proof.
  intros World svc bucket sid text files w s r items. subst r items.
  split; [| split].
  - destruct (stage_run svc bucket sid text files w s)
      as (Hhow & _ & _ & Hprogress & _).
    rewrite total_items_counted in Hprogress.
    eexists. split; [exact Hhow | exact Hprogress].
  - intros total f file_paths n w0 item attempt. subst item attempt.
    rewrite stage_file_run. cbv zeta.
    now destruct (upload_fileobj svc f bucket (file_key sid f) w0)
      as [w' [[] | e]].
  - intros total file_paths n w0 Htext filename key item attempt.
    subst item attempt key filename.
    rewrite stage_text_run, TextFacts.str_truthy_strip, Htext.
    cbn [negb]. cbv zeta.
    change (sid ++ "/" ++ "user_input_" ++ str_of_Z (trunc (time_time svc w0))
                ++ ".txt")%string
      with (text_key sid (time_time svc w0)).
    change ("user_input_" ++ str_of_Z (trunc (time_time svc w0)) ++ ".txt")%string
      with (text_filename (time_time svc w0)).
    now destruct (put_object svc bucket (text_key sid (time_time svc w0))
                             text w0) as [w' [[] | e]].
Qed.

(** Text and two files, the first of which fails: progress after the text
    and after the second file, out of three items. *)
Example progress_of_a_mixed_submission :
  let r := stage (TestWorld.services_of TestWorld.one_upload_fails)
                 TestWorld.bucket TestWorld.a_session_id
                 "The river is rising."
                 [TestWorld.broken; TestWorld.notes] 0%nat
                 (TestWorld.polling None false) in
  progress_reports (events r) = [(1, 3); (2, 3)]%nat
  /\ how r = Normal ["20260104093000-3f2a9c1e/user_input_1700000000.txt";
                     "20260104093000-3f2a9c1e/notes.txt"].
Proof. split; reflexivity. Qed.

(** C8 as stated fails: the one item of this submission is processed, its
    upload raises, and no progress is reported after it. *)
Lemma C8_no_progress_after_failed_item :
  let r := stage (TestWorld.services_of TestWorld.one_upload_fails)
                 TestWorld.bucket TestWorld.a_session_id ""
                 [TestWorld.broken] 0%nat (TestWorld.polling None false) in
  upload_attempts (events r) = ["20260104093000-3f2a9c1e/broken.pdf"]
  /\ progress_reports (events r) = []
  /\ error_messages (events r)
     = [[FText "Error uploading broken.pdf: "; FExn TestWorld.denied]].
Proof. repeat split. Qed.

(** ** Further properties of the script *)

(** *** Session ids (lines 70-73) *)

Lemma append_cancel_l a b c : (a ++ b = a ++ c)%string -> b = c.
Proof.
  induction a as [| x a IH]; simpl; intros H; [exact H |].
  apply IH. now inversion H.
Qed.

(** X1: [generate_session_id] returns the time stamp, a dash and the first
    eight characters of a fresh uuid, touches nothing of the session and
    shows nothing; two ids made within the same second differ as soon as
    those eight characters differ. *)
Theorem session_ids_differ_by_suffix :
  forall World (svc : services World) w1 w2 s1 s2,
    strftime_now svc w1 = strftime_now svc w2 ->
    take 8 (snd (uuid4 svc w1)) <> take 8 (snd (uuid4 svc w2)) ->
    let r1 := generate_session_id svc w1 s1 in
    let r2 := generate_session_id svc w2 s2 in
    how r1 = Normal (new_session_id svc w1)
    /\ how r2 = Normal (new_session_id svc w2)
    /\ session_after r1 = s1 /\ events r1 = []
    /\ new_session_id svc w1 <> new_session_id svc w2.
Proof.
  intros World svc w1 w2 s1 s2 Hnow Hsuffix r1 r2. subst r1 r2.
  unfold generate_session_id, new_session_id.
  destruct (uuid4 svc w1) as [w1' u1], (uuid4 svc w2) as [w2' u2].
  cbn [snd] in *. repeat split.
  rewrite Hnow. intros Heq.
  apply append_cancel_l in Heq. apply (append_cancel_l "-") in Heq.
  contradiction.
Qed.

Lemma session_ids_differ_by_suffix_witness :
  new_session_id TestWorld.with_changing_ids 0%nat
  <> new_session_id TestWorld.with_changing_ids 1%nat.
Proof.
  apply (session_ids_differ_by_suffix nat TestWorld.with_changing_ids
           0%nat 1%nat (TestWorld.polling None false)
           (TestWorld.polling None false) eq_refl).
  discriminate.
Defined.

(** *** Staging (lines 156-211) *)

Lemma key_prefixed sid rest :
  String.prefix (sid ++ "/") (sid ++ "/" ++ rest) = true.
Proof.
  replace (sid ++ "/" ++ rest)%string with ((sid ++ "/") ++ rest)%string
    by apply append_assoc.
  apply prefix_self_app.
Qed.

Lemma kept_keys_prefixed sid files :
  forall results,
    Forall (fun k => String.prefix (sid ++ "/") k = true)
           (kept_keys sid files results).
Proof.
  induction files as [| f rest IH]; intros results; [constructor |].
  destruct results as [| r results]; [constructor |].
  cbn [kept_keys]. destruct (succeeded r); [| apply IH].
  constructor; [apply key_prefixed | apply IH].
Qed.

Lemma kept_keys_bound sid files :
  forall results,
    (List.length (kept_keys sid files results) <= List.length files)%nat.
Proof.
  induction files as [| f rest IH]; intros results; [cbn; lia |].
  destruct results as [| r results]; [cbn; lia |].
  cbn [kept_keys]. specialize (IH results).
  destruct (succeeded r); cbn [List.length]; lia.
Qed.

(** X2: every key that staging returns lies under the session's prefix
    "{session_id}/". *)
Theorem staged_keys_lie_under_the_session :
  forall World (svc : services World) bucket sid text files w s keys,
    how (stage svc bucket sid text files w s) = Normal keys ->
    Forall (fun k => String.prefix (sid ++ "/") k = true) keys.
Proof.
  intros World svc bucket sid text files w s keys Hkeys.
  destruct (stage_run svc bucket sid text files w s) as (Hhow & _).
  rewrite Hhow in Hkeys. inversion Hkeys; subst keys.
  apply Forall_app. split; [| apply kept_keys_prefixed].
  unfold text_kept.
  destruct (text_upload svc bucket sid text w) as [[w' [[] | e]] |];
    repeat constructor.
  apply key_prefixed.
Qed.

Lemma staged_keys_lie_under_the_session_witness :
  Forall (fun k => String.prefix "20260104093000-3f2a9c1e/" k = true)
         ["20260104093000-3f2a9c1e/user_input_1700000000.txt";
          "20260104093000-3f2a9c1e/report.pdf";
          "20260104093000-3f2a9c1e/notes.txt"].
Proof.
  apply (staged_keys_lie_under_the_session nat
           (TestWorld.services_of TestWorld.all_fine) TestWorld.bucket
           TestWorld.a_session_id "The river is rising."
           [TestWorld.report; TestWorld.notes] 0%nat
           (TestWorld.polling None false)).
  reflexivity.
Defined.

Lemma staged_keys_bound {World} (svc : services World) bucket sid text files w :
  let upload := text_upload svc bucket sid text w in
  let results :=
    upload_results svc bucket sid files (world_after_text w upload) in
  (List.length (text_kept svc sid w upload ++ kept_keys sid files results)
   <= total_items text files)%nat.
Proof.
  cbv zeta. rewrite length_app. unfold total_items, text_kept, text_upload.
  pose proof (kept_keys_bound sid files
                (upload_results svc bucket sid files
                   (world_after_text w
                      (if str_truthy (strip text)
                       then Some (put_object svc bucket
                                    (text_key sid (time_time svc w)) text w)
                       else None)))) as Hfiles.
  destruct (str_truthy (strip text)).
  - destruct (put_object svc bucket _ text w) as [w' [[] | e]];
      cbn [List.length] in *; lia.
  - cbn [List.length] in *. lia.
Qed.

(** X3: every progress report of a submission is a fraction d/t with
    1 <= d <= t, t being the number of items of the submission: the files,
    and the text if it is not blank (so the bar is never asked to go beyond
    full); the bar gets to t/t exactly when every item was stored. *)
Theorem progress_stays_within_the_bar :
  forall World (svc : services World) bucket sid text files w s,
    let r := stage svc bucket sid text files w s in
    let total :=
      (List.length files + (if all_space text then 0 else 1))%nat in
    (forall d t, In (d, t) (progress_reports (events r)) ->
                 (1 <= d <= t)%nat /\ t = total)
    /\ (forall keys, how r = Normal keys ->
          (In (total, total) (progress_reports (events r))
           <-> List.length keys = total /\ (0 < total)%nat)).
Proof.
  intros World svc bucket sid text files w s r total. subst r total.
  destruct (stage_run svc bucket sid text files w s)
    as (Hhow & _ & _ & Hprogress & _).
  pose proof (staged_keys_bound svc bucket sid text files w) as Hbound.
  cbv zeta in Hbound. rewrite Hprogress.
  rewrite total_items_counted in *.
  set (total := (List.length files + (if all_space text then 0 else 1))%nat)
    in *.
  split.
  - intros d t Hin. apply in_map_iff in Hin.
    destruct Hin as (k & Hk & Hin). inversion Hk; subst.
    apply in_seq in Hin. lia.
  - intros keys Hkeys. rewrite Hhow in Hkeys. inversion Hkeys; subst keys.
    rewrite in_map_iff. split.
    + intros (k & Hk & Hin). inversion Hk; subst.
      apply in_seq in Hin. lia.
    + intros [Hall Hpos]. exists total.
      split; [reflexivity |]. apply in_seq. lia.
Qed.

(** X4: with no file chosen and a text of whitespace only (or none), a
    press on "Process Content" is ignored: nothing is uploaded, no session
    id is made, and the session stays as it is. *)
Theorem blank_submission_is_ignored :
  forall World (svc : services World) bucket state_machine inp w s,
    chosen_files inp = [] ->
    all_space (user_text inp) = true ->
    process_content svc bucket state_machine inp w s
    = mkRan w s [Button "Process Content"] (Normal tt).
Proof.
  intros World svc bucket state_machine inp w s Hfiles Hblank.
  unfold process_content, mbind, say, has_content.
  now rewrite Hfiles, (TextFacts.strip_all_space _ Hblank).
Qed.

Lemma blank_submission_is_ignored_witness :
  process_content (TestWorld.services_of TestWorld.all_fine)
                  TestWorld.bucket TestWorld.state_machine
                  TestWorld.blank_submission 0%nat
                  (TestWorld.polling None false)
  = mkRan 0%nat (TestWorld.polling None false) [Button "Process Content"]
          (Normal tt).
Proof.
  apply (blank_submission_is_ignored nat
           (TestWorld.services_of TestWorld.all_fine) TestWorld.bucket
           TestWorld.state_machine TestWorld.blank_submission 0%nat
           (TestWorld.polling None false) eq_refl eq_refl).
Defined.

(** *** What kind of events a piece of the script leaves *)

Module TraceFacts.
Import Render Obs Script.

Section Run.

Context {World : Type}.
Variable svc : services World.
Variable P : event -> Prop.

Lemma events_after {A} before (r : ran World A) :
  events (after before r) = before ++ events r.
Proof. now destruct r. Qed.

Lemma how_after {A} before (r : ran World A) : how (after before r) = how r.
Proof. now destruct r. Qed.

Lemma world_after_after {A} before (r : ran World A) :
  world_after (after before r) = world_after r.
Proof. now destruct r. Qed.

Lemma all_mbind {A B} (m : M A) (k : A -> M B) (w : World) s :
  Forall P (events (m w s)) ->
  (forall a w' s', Forall P (events (k a w' s'))) ->
  Forall P (events (mbind m k w s)).
Proof.
  intros Hm Hk. unfold mbind.
  destruct (m w s) as [w1 s1 evs [a | e |]]; cbn [events] in *;
    try assumption.
  rewrite events_after. apply Forall_app. split; [assumption | apply Hk].
Qed.

Lemma all_try_except {A} (m : M A) (handler : exn -> M A) (w : World) s :
  Forall P (events (m w s)) ->
  (forall e w' s', Forall P (events (handler e w' s'))) ->
  Forall P (events (try_except m handler w s)).
Proof.
  intros Hm Hh. unfold try_except.
  destruct (m w s) as [w1 s1 evs [a | e |]]; cbn [events] in *;
    try assumption.
  rewrite events_after. apply Forall_app. split; [assumption | apply Hh].
Qed.

Lemma all_say e (w : World) s : P e -> Forall P (events (say e w s)).
Proof. intros He. now repeat constructor. Qed.

Lemma all_call {A} e (f : World -> World * res A) (w : World) s :
  P e -> Forall P (events (call e f w s)).
Proof. intros He. unfold call. destruct (f w). now repeat constructor. Qed.

Lemma all_mret {A} (a : A) (w : World) s : Forall P (events (mret a w s)).
Proof. constructor. Qed.

Lemma all_update f (w : World) s : Forall P (events (update f w s)).
Proof. constructor. Qed.

Lemma all_now (w : World) s : Forall P (events (now svc w s)).
Proof. constructor. Qed.

End Run.

(** Staging leaves nothing but its own messages and calls. *)
Lemma stage_file_is_staging {World} (svc : services World) bucket sid total
    f file_paths n w s :
  Forall (fun e => is_staging e = true)
         (events (stage_file svc bucket sid total f file_paths n w s)).
Proof.
  unfold stage_file.
  repeat first [ apply all_try_except; [| intros ? ? ?]
               | apply all_mbind; [| intros ? ? ?]
               | apply all_say; reflexivity
               | apply all_call; reflexivity
               | apply all_mret ].
Qed.

Lemma stage_files_is_staging {World} (svc : services World) bucket sid total
    files :
  forall file_paths n w s,
    Forall (fun e => is_staging e = true)
           (events (stage_files svc bucket sid total files file_paths n w s)).
Proof.
  induction files as [| f rest IH]; intros file_paths n w s; cbn [stage_files].
  - apply all_mret.
  - apply all_mbind; [apply stage_file_is_staging | intros ? ? ?; apply IH].
Qed.

Lemma stage_is_staging {World} (svc : services World) bucket sid text files
    w s :
  Forall (fun e => is_staging e = true)
         (events (stage svc bucket sid text files w s)).
Proof.
  unfold stage. apply all_mbind.
  - unfold stage_text. destruct (str_truthy (strip text)); [| apply all_mret].
    repeat first [ apply all_try_except; [| intros ? ? ?]
                 | apply all_mbind; [| intros ? ? ?]
                 | apply all_say; reflexivity
                 | apply all_call; reflexivity
                 | apply all_now
                 | apply all_mret ].
  - intros ? ? ?. apply all_mbind; [apply stage_files_is_staging |].
    intros ? ? ?. apply all_mret.
Qed.

Lemma staging_starts_nothing evs :
  Forall (fun e => is_staging e = true) evs ->
  start_calls evs = [] /\ describe_calls evs = [] /\ sleeps evs = [].
Proof.
  unfold start_calls, describe_calls, sleeps.
  induction 1 as [| e evs He _ (IH1 & IH2 & IH3)]; [now repeat split |].
  cbn [flat_map]. rewrite IH1, IH2, IH3.
  destruct e; try discriminate; now repeat split.
Qed.

End TraceFacts.

(** *** A submission (lines 147-257) *)

Import TraceFacts.

Lemma process_content_run {World} (svc : services World) bucket state_machine
    inp w s keys :
  has_content inp = true ->
  process_button inp = true ->
  let sid := new_session_id svc w in
  let s1 := set_session_id (Some sid) s in
  let staged := stage svc bucket sid (user_text inp) (chosen_files inp)
                      (world_after_id svc w) s1 in
  how staged = Normal keys ->
  process_content svc bucket state_machine inp w s
  = after ([Button "Process Content"; SidebarSessionId sid; ProgressBar 0]
           ++ events staged)
          (after_staging svc state_machine sid keys (world_after staged) s1).
Proof.
  intros Hcontent Hpressed sid s1 staged Hkeys. subst sid s1 staged.
  destruct (stage_run svc bucket (new_session_id svc w) (user_text inp)
              (chosen_files inp) (world_after_id svc w)
              (set_session_id (Some (new_session_id svc w)) s))
    as (_ & Hsession & _).
  revert Hkeys Hsession.
  unfold process_content, mbind, say, update, generate_session_id,
    new_session_id, world_after_id.
  rewrite Hcontent, Hpressed. cbn [andb].
  destruct (uuid4 svc w) as [w1 u]. cbn [fst snd after].
  destruct (stage svc bucket _ (user_text inp) (chosen_files inp) w1 _)
    as [w2 s2 evs h].
  cbn [how session_after world_after events]. intros -> ->.
  destruct (after_staging svc state_machine _ keys w2 _) as [w3 s3 evs3 h3].
  cbn [after app]. reflexivity.
Qed.

Lemma has_content_stated inp :
  chosen_files inp <> [] \/ all_space (user_text inp) = false ->
  has_content inp = true.
Proof.
  unfold has_content. rewrite TextFacts.str_truthy_strip.
  destruct (chosen_files inp); [| reflexivity].
  intros [Hfiles | ->]; [contradiction | reflexivity].
Qed.

(** X5: when a submission is pressed and none of its uploads goes through,
    no execution is started: the run shows "No content was successfully
    uploaded", goes on without a rerun, and of the session only the session
    id has changed. *)
Theorem nothing_staged_nothing_started :
  forall World (svc : services World) bucket state_machine inp w s,
    chosen_files inp <> [] \/ all_space (user_text inp) = false ->
    process_button inp = true ->
    let sid := new_session_id svc w in
    how (stage svc bucket sid (user_text inp) (chosen_files inp)
               (world_after_id svc w) (set_session_id (Some sid) s))
    = Normal [] ->
    let r := process_content svc bucket state_machine inp w s in
    how r = Normal tt
    /\ session_after r = set_session_id (Some sid) s
    /\ start_calls (events r) = []
    /\ exists before, events r = before ++ [no_content_error].
Proof.
  intros World svc bucket state_machine inp w s Hcontent Hpressed sid
         Hnone r. subst r.
  rewrite (process_content_run svc bucket state_machine inp w s []
             (has_content_stated inp Hcontent) Hpressed Hnone).
  fold sid.
  destruct (staging_starts_nothing _
              (stage_is_staging svc bucket sid (user_text inp)
                 (chosen_files inp) (world_after_id svc w)
                 (set_session_id (Some sid) s))) as (Hstart & _).
  unfold after_staging, say, start_calls in *.
  cbn [after how session_after events].
  split; [reflexivity | split; [reflexivity | split]].
  - rewrite !flat_map_app, Hstart. reflexivity.
  - eexists. reflexivity.
Qed.

Lemma nothing_staged_nothing_started_witness :
  start_calls
    (events (process_content
               (TestWorld.services_of TestWorld.every_upload_fails)
               TestWorld.bucket TestWorld.state_machine TestWorld.submission
               0%nat (TestWorld.polling None false)))
  = [].
Proof.
  apply (nothing_staged_nothing_started nat
           (TestWorld.services_of TestWorld.every_upload_fails)
           TestWorld.bucket TestWorld.state_machine TestWorld.submission
           0%nat (TestWorld.polling None false) (or_intror eq_refl) eq_refl
           eq_refl).
Defined.

(** X6: when at least one upload went through and [start_execution]
    returns, the execution was asked for once, after every upload attempt,
    under the name "Execution-{session_id}" with the input
    {"session_id": ..., "last_session_id": null}; the session then holds
    the new session id, the staged keys and the handle returned, automatic
    checking is on, and the run ends in a rerun. *)
Theorem submission_starts_one_execution :
  forall World (svc : services World) bucket state_machine inp w s keys
         w3 arn,
    chosen_files inp <> [] \/ all_space (user_text inp) = false ->
    process_button inp = true ->
    let sid := new_session_id svc w in
    let s1 := set_session_id (Some sid) s in
    let staged := stage svc bucket sid (user_text inp) (chosen_files inp)
                        (world_after_id svc w) s1 in
    how staged = Normal keys ->
    keys <> [] ->
    start_execution svc state_machine (execution_name sid)
                    (execution_input sid) (world_after staged)
    = (w3, Ok arn) ->
    let r := process_content svc bucket state_machine inp w s in
    how r = Rerun
    /\ session_after r
       = mkSession (Some sid) (last_check_time s) true keys (Some arn)
                   (execution_status s)
    /\ start_calls (events r)
       = [(state_machine, ("Execution-" ++ sid)%string,
           WellFormed (JDict [("session_id", JStr sid);
                              ("last_session_id", JNull)]))]
    /\ exists before rest,
        events r
        = before ++ StartExecution state_machine (execution_name sid)
                                   (execution_input sid) :: rest
        /\ upload_attempts before = upload_attempts (events staged)
        /\ upload_attempts rest = [].
Proof.
  intros World svc bucket state_machine inp w s keys w3 arn Hcontent
         Hpressed sid s1 staged Hkeys Hne Hstart r. subst r.
  rewrite (process_content_run svc bucket state_machine inp w s keys
             (has_content_stated inp Hcontent) Hpressed Hkeys).
  fold sid s1 staged.
  destruct (staging_starts_nothing _
              (stage_is_staging svc bucket sid (user_text inp)
                 (chosen_files inp) (world_after_id svc w) s1))
    as (Hnostart & _).
  fold staged in Hnostart.
  unfold after_staging. destruct keys as [| k ks]; [contradiction |].
  unfold mbind, say, update.
  rewrite (launch_started svc state_machine sid _ _ w3 arn Hstart).
  cbn [after how session_after events].
  split; [reflexivity | split; [reflexivity | split]].
  - unfold start_calls in *. rewrite !flat_map_app, Hnostart. reflexivity.
  - exists ([Button "Process Content"; SidebarSessionId sid; ProgressBar 0]
            ++ events staged
            ++ [UploadStatus [FText "All content uploaded successfully!"];
                StartingInfo "Starting document processing pipeline..."]).
    eexists. split; [| split].
    + rewrite <- !app_assoc. cbn [app]. reflexivity.
    + unfold upload_attempts. rewrite !flat_map_app. cbn.
      now rewrite app_nil_r.
    + reflexivity.
Qed.

Lemma submission_starts_one_execution_witness :
  how (process_content (TestWorld.services_of TestWorld.all_fine)
                       TestWorld.bucket TestWorld.state_machine
                       TestWorld.submission 0%nat
                       (TestWorld.polling None false))
  = Rerun.
Proof.
  refine (proj1 (submission_starts_one_execution nat
                   (TestWorld.services_of TestWorld.all_fine)
                   TestWorld.bucket TestWorld.state_machine
                   TestWorld.submission 0%nat (TestWorld.polling None false)
                   ["20260104093000-3f2a9c1e/user_input_1700000000.txt";
                    "20260104093000-3f2a9c1e/report.pdf";
                    "20260104093000-3f2a9c1e/notes.txt"]
                   0%nat TestWorld.an_arn (or_intror eq_refl) eq_refl eq_refl
                   _ eq_refl)).
  discriminate.
Defined.

Lemma sidebar_uploads_nothing s :
  upload_attempts (sidebar s) = [] /\ start_calls (sidebar s) = [].
Proof.
  unfold sidebar. destruct (session_id s) as [sid |]; [| now split].
  destruct (str_truthy sid); now split.
Qed.

(** X7: while automatic checking is on, a run is a poll tick whatever the
    widgets say: a press on "Process Content" in that run uploads nothing,
    starts nothing, and leaves session id, staged keys and handle as they
    are. *)
Theorem press_is_ignored_while_polling :
  forall World (svc : services World) bucket state_machine inp w s arn,
    auto_check s = true ->
    execution_arn s = Some arn ->
    str_truthy arn = true ->
    let r := script svc bucket state_machine inp w s in
    upload_attempts (events r) = []
    /\ start_calls (events r) = []
    /\ session_id (session_after r) = session_id s
    /\ uploaded_files (session_after r) = uploaded_files s
    /\ execution_arn (session_after r) = execution_arn s.
Proof.
  intros World svc bucket state_machine inp w s arn Hauto Harn Htrue r.
  subst r.
  rewrite (script_poll_tick svc bucket state_machine inp w s arn
             Hauto Harn Htrue).
  destruct (sidebar_uploads_nothing s) as [Hu Hs].
  unfold upload_attempts, start_calls in *.
  destruct (describe_execution svc arn w) as [w' [resp | e]];
    [destruct (terminal (resp_status resp)) |];
    cbn [events session_after]; rewrite !flat_map_app, Hu, Hs;
    now repeat split.
Qed.

Lemma press_is_ignored_while_polling_witness :
  upload_attempts
    (events (script (TestWorld.services_of TestWorld.still_running)
                    TestWorld.bucket TestWorld.state_machine
                    TestWorld.submission 0%nat
                    (TestWorld.polling (Some "RUNNING") true)))
  = [].
Proof.
  apply (press_is_ignored_while_polling nat
           (TestWorld.services_of TestWorld.still_running)
           TestWorld.bucket TestWorld.state_machine TestWorld.submission
           0%nat (TestWorld.polling (Some "RUNNING") true) TestWorld.an_arn
           eq_refl eq_refl eq_refl).
Defined.

(** *** What rendering leaves in the trace *)

Module ShownFacts.
Import Render Obs RenderFacts.
#[local] Open Scope render_scope.

Section Kind.

Variable P : event -> Prop.

Lemma all_bind {A B} (m : W A) (k : A -> W B) :
  Forall P (output m) ->
  (forall a, Forall P (output (k a))) ->
  Forall P (output (bind m k)).
Proof.
  intros Hm Hk. rewrite output_bind. apply Forall_app. split; [exact Hm |].
  destruct (result m); [apply Hk | constructor].
Qed.

Lemma all_lift {A} (r : res A) : Forall P (output (lift r)).
Proof. constructor. Qed.

Lemma all_ret {A} (a : A) : Forall P (output (ret a)).
Proof. constructor. Qed.

Lemma all_emit e : P e -> Forall P (output (emit e)).
Proof. intros He. now repeat constructor. Qed.

Lemma all_for_enum {A} (body : nat -> A -> W unit) l :
  (forall i x, Forall P (output (body i x))) ->
  forall i, Forall P (output (for_enum i l body)).
Proof.
  intros Hbody. induction l as [| x l IH]; intros i; cbn [for_enum].
  - apply all_ret.
  - apply all_bind; [apply Hbody | intros _; apply IH].
Qed.

Lemma all_for_each {A} (body : A -> W unit) l :
  (forall x, Forall P (output (body x))) ->
  Forall P (output (for_each l body)).
Proof. intros Hbody. unfold for_each. now apply all_for_enum. Qed.

End Kind.

Ltac kind_steps :=
  repeat first
    [ apply all_bind; [| intros ?]
    | apply all_lift
    | apply all_ret
    | apply all_emit; reflexivity
    | apply all_for_enum; intros ? ?
    | apply all_for_each; intros ?
    | match goal with
      | |- context [if ?c then _ else _] => destruct c
      end ].

Lemma render_question_kind body :
  Forall (fun e => shows_results e = true) (output (render_question body)).
Proof. unfold render_question, render_follow_up. kind_steps. Qed.

Lemma render_item_kind item :
  Forall (fun e => shows_results e = true) (output (render_item item)).
Proof.
  unfold render_item. kind_steps; apply render_question_kind.
Qed.

Lemma render_positional_kind topics_data :
  Forall (fun e => shows_results e = true)
         (output (render_positional topics_data)).
Proof.
  unfold render_positional, render_numbered_topic.
  kind_steps; apply render_item_kind.
Qed.

Lemma render_paired_kind topics topics_data :
  Forall (fun e => shows_results e = true)
         (output (render_paired topics topics_data)).
Proof.
  unfold render_paired, render_named_topic.
  kind_steps; apply render_question_kind.
Qed.

Lemma shows_results_is_rendered evs :
  Forall (fun e => shows_results e = true) evs ->
  Forall (fun e => is_rendered e = true) evs.
Proof.
  apply Forall_impl. intros e He. unfold is_rendered. now rewrite He.
Qed.

(** Whatever the payload, [render_output] leaves only headers, subheaders
    and lines of text, and at most the warning of line 338. *)
Lemma render_output_kind payload :
  Forall (fun e => is_rendered e = true) (output (render_output payload)).
Proof.
  unfold render_output.
  kind_steps;
    first [ apply shows_results_is_rendered, render_paired_kind
          | apply shows_results_is_rendered, render_positional_kind ].
Qed.

Lemma rendered_is_inert evs :
  Forall (fun e => is_rendered e = true) evs ->
  describe_calls evs = [] /\ upload_attempts evs = []
  /\ start_calls evs = [] /\ sleeps evs = []
  /\ offers_manual_check evs = false.
Proof.
  unfold describe_calls, upload_attempts, start_calls, sleeps,
    offers_manual_check.
  induction 1 as [| e evs He _ (IH1 & IH2 & IH3 & IH4 & IH5)];
    [now repeat split |].
  cbn [flat_map existsb]. rewrite IH1, IH2, IH3, IH4, IH5.
  destruct e; try discriminate; now repeat split.
Qed.

Lemma results_carry_no_warning evs :
  Forall (fun e => shows_results e = true) evs ->
  existsb is_warning evs = false.
Proof.
  induction 1 as [| e evs He _ IH]; [reflexivity |].
  cbn [existsb]. rewrite IH. destruct e; try discriminate; reflexivity.
Qed.

End ShownFacts.

(** *** Results (lines 276-408) *)

Import ShownFacts.

(** X8: a payload with result lists and no list of names is shown under
    "Topic 1", "Topic 2", ... with the questions of each topic in the order
    of the payload, and without any warning. *)
Theorem results_without_names_are_numbered :
  forall kvs datas,
    assoc "topics" kvs = None ->
    assoc "topic_results" kvs = Some (JList datas) ->
    let shown := render_output (JDict kvs) in
    (exists rest, output shown = Header "Processing Results" :: rest)
    /\ existsb is_warning (output shown) = false
    /\ (result shown = Ok tt ->
        subheaders (output shown) = positional_labels (List.length datas)
        /\ question_ids (output shown)
           = flat_map ids_in_payload_order datas).
Proof.
  intros kvs datas Htopics Hresults shown. subst shown.
  rewrite (render_output_no_topics kvs datas Htopics Hresults).
  split; [| split].
  - rewrite output_bind. cbn [emit output result fst snd app]. now eexists.
  - apply results_carry_no_warning.
    apply all_bind; [apply all_emit; reflexivity | intros _].
    pose proof (render_positional_kind (JList datas)) as Hkind.
    unfold render_positional in Hkind. cbn [py_iter] in Hkind.
    now rewrite bind_lift_ok in Hkind.
  - intros Hok. apply result_bind_ok in Hok. destruct Hok as [_ Hok].
    destruct (positional_shows datas 0%nat Hok) as [Hq Hs].
    rewrite output_bind. cbn [emit output result fst snd].
    rewrite question_ids_app, subheaders_app, Hq, Hs. now split.
Qed.

Lemma results_without_names_are_numbered_witness :
  subheaders (output (render_output (JDict TestWorld.results_only_fields)))
  = positional_labels 2
  /\ question_ids
       (output (render_output (JDict TestWorld.results_only_fields)))
     = flat_map ids_in_payload_order TestWorld.mismatched_results.
Proof.
  destruct (results_without_names_are_numbered
              TestWorld.results_only_fields TestWorld.mismatched_results
              eq_refl eq_refl)
    as (_ & _ & Hshown).
  apply Hshown. reflexivity.
Defined.

(** X9: an output object without ['topic_results'] shows nothing, with or
    without ['topics'], and raises nothing; so does an execution that
    reports no output at all: after the success message and the fetch, the
    trace is empty. *)
Theorem nothing_is_shown_without_topic_results :
  forall kvs,
    assoc "topic_results" kvs = None ->
    render_output (JDict kvs) = ret tt
    /\ forall World (svc : services World) arn w s w' response,
        describe_execution svc arn (time_sleep svc (1 # 1) w)
        = (w', Ok response) ->
        resp_output response = None
        \/ resp_output response = Some (WellFormed (JDict kvs)) ->
        show_succeeded svc arn w s
        = mkRan w' s
            [Success "Processing completed successfully!"; Sleep (1 # 1);
             DescribeExecution arn]
            (Normal tt).
Proof.
  intros kvs Hnone.
  assert (Hrender : render_output (JDict kvs) = ret tt).
  { unfold render_output, py_in. rewrite Hnone.
    now rewrite !bind_lift_ok. }
  split; [exact Hrender |].
  intros World svc arn w s w' response Hdesc Houtput.
  rewrite show_succeeded_run. cbv zeta. rewrite Hdesc.
  destruct Houtput as [Habsent | Hgiven].
  - rewrite Habsent. reflexivity.
  - rewrite Hgiven. cbn [or_empty_object json_loads]. now rewrite Hrender.
Qed.

Lemma nothing_is_shown_without_topic_results_witness :
  render_output (JDict [("topics", JList [JStr "A"])]) = ret tt.
Proof.
  apply (nothing_is_shown_without_topic_results
           [("topics", JList [JStr "A"])] eq_refl).
Defined.

(** X10: showing a succeeded execution pauses one second, fetches the
    execution once, and does nothing else to the outside: no upload, no
    start, no manual check; it never raises and leaves the session as it
    is.  An output that is not JSON gives the warning "Could not parse
    execution output" and nothing else. *)
Theorem showing_results_is_contained :
  forall World (svc : services World) arn w s,
    let r := show_succeeded svc arn w s in
    how r = Normal tt
    /\ session_after r = s
    /\ describe_calls (events r) = [arn]
    /\ sleeps (events r) = [1 # 1]
    /\ upload_attempts (events r) = []
    /\ start_calls (events r) = []
    /\ offers_manual_check (events r) = false
    /\ forall w' response raw,
        describe_execution svc arn (time_sleep svc (1 # 1) w)
        = (w', Ok response) ->
        resp_output response = Some (Malformed raw) ->
        events r
        = [Success "Processing completed successfully!"; Sleep (1 # 1);
           DescribeExecution arn;
           Warning [FText "Could not parse execution output: ";
                    FExn JSONDecodeError]].
Proof.
  intros World svc arn w s r. subst r.
  destruct (show_succeeded_safe svc arn w s) as [Hhow Hsession].
  split; [exact Hhow | split; [exact Hsession |]].
  rewrite show_succeeded_run. cbv zeta.
  destruct (describe_execution svc arn _) as [w' [response | e]].
  - destruct (json_loads (or_empty_object (resp_output response)))
      as [out | e] eqn:Hloads.
    + destruct (rendered_is_inert _ (render_output_kind out))
        as (Hd & Hu & Hst & Hsl & Hm).
      unfold describe_calls, sleeps, upload_attempts, start_calls,
        offers_manual_check in *.
      cbn [events]. rewrite !flat_map_app, !existsb_app, Hd, Hu, Hst, Hsl, Hm.
      repeat split; try (destruct (result (render_output out)); reflexivity).
      intros w'' response' raw Heq Hraw. inversion Heq; subst.
      rewrite Hraw in Hloads. discriminate.
    + repeat split.
      intros w'' response' raw Heq Hraw. inversion Heq; subst.
      rewrite Hraw in Hloads. cbn in Hloads. now inversion Hloads.
  - repeat split. intros w'' response raw Heq. discriminate.
Qed.

(** *** Questions and follow-ups (lines 316-336) *)

Lemma py_get_non_dict v k d :
  is_dict v = false -> py_get v k d = Raise AttributeError.
Proof. now destruct v. Qed.

Lemma render_follow_up_of idx fu_item qa :
  follow_up_of fu_item qa ->
  render_follow_up idx fu_item
  = ([Markdown [FText ("**" ++ str_of_nat (idx + 1) ++ ". ");
                FValue (fst qa); FText "**"];
      Markdown [FText "   Answer: "; FValue (snd qa)]],
     Ok tt).
Proof.
  intros (kvs & wrapped & -> & Hq & Hs & Ha).
  unfold render_follow_up. rewrite !py_get_dict, !bind_lift_ok.
  unfold dict_get at 1. rewrite Hq.
  rewrite py_get_dict, bind_lift_ok.
  unfold dict_get. now rewrite Hs, Ha.
Qed.

Lemma render_follow_ups_of fus qas :
  Forall2 follow_up_of fus qas ->
  forall i,
    for_enum i fus render_follow_up = (follow_ups_shown (i + 1) qas, Ok tt).
Proof.
  induction 1 as [| fu qa fus qas Hfu _ IH]; intros i; [reflexivity |].
  cbn [for_enum]. rewrite (render_follow_up_of i fu qa Hfu).
  specialize (IH (S i)). rewrite (Nat.add_1_r (S i)) in IH.
  cbn [bind]. rewrite IH. destruct qa as [q a]. cbn [follow_ups_shown app fst snd].
  now rewrite (Nat.add_1_r i).
Qed.

(** X11: a question is shown as its line, its answer and a separator,
    "N/A" standing in for a missing id, question or answer.  Without
    follow-ups (no ['follow-up'], or one that is null or empty) that is
    all.  With follow-ups in the shape of the payload, the header
    "Follow-up Questions:" comes after the answer and every follow-up is
    shown as its question, taken from under ['S'] and numbered from 1, and
    its answer. *)
Theorem question_is_shown_with_its_follow_ups :
  forall body,
    (py_truthy (dict_get body "follow-up" (JList [])) = false ->
     render_question (JDict body)
     = ([question_shown body; answer_shown body; separator], Ok tt))
    /\ (forall fus qas,
          assoc "follow-up" body = Some (JList fus) ->
          fus <> [] ->
          Forall2 follow_up_of fus qas ->
          render_question (JDict body)
          = ([question_shown body; answer_shown body; follow_up_header]
             ++ follow_ups_shown 1 qas ++ [separator],
             Ok tt)).
Proof.
  intros body. split.
  - intros Hnone. unfold render_question.
    rewrite !py_get_dict, !bind_lift_ok, Hnone. reflexivity.
  - intros fus qas Hfus Hne Hshape. unfold render_question.
    rewrite !py_get_dict, !bind_lift_ok.
    replace (dict_get body "follow-up" (JList [])) with (JList fus)
      by (unfold dict_get; now rewrite Hfus).
    destruct fus as [| fu fus]; [contradiction |].
    cbn [py_truthy py_len py_iter List.length]. rewrite !bind_lift_ok.
    cbn [Nat.ltb Nat.leb].
    rewrite (render_follow_ups_of (fu :: fus) qas Hshape 0%nat).
    cbn [Nat.add]. cbn [bind emit app]. reflexivity.
Qed.

Lemma question_is_shown_with_its_follow_ups_witness :
  render_question (JDict TestWorld.body_with_follow_ups)
  = ([question_shown TestWorld.body_with_follow_ups;
      answer_shown TestWorld.body_with_follow_ups; follow_up_header]
     ++ follow_ups_shown 1 [(JStr "Since when?", JStr "noon");
                            (JStr "Where?", JStr "north district")]
     ++ [separator],
     Ok tt).
Proof.
  refine (proj2 (question_is_shown_with_its_follow_ups
                   TestWorld.body_with_follow_ups) _ _ eq_refl _ _).
  - discriminate.
  - repeat constructor; do 2 eexists; repeat split.
Defined.

(** X12: a follow-up that is not an object, or whose ['question'] is
    missing or is a plain string instead of an object with ['S'], raises
    [AttributeError] (the default 'N/A' of line 330 is a string, which has
    no [get]): the question, its answer and the follow-up header are shown,
    and nothing after them. *)
Theorem bare_follow_up_raises :
  forall body fu_item rest,
    assoc "follow-up" body = Some (JList (fu_item :: rest)) ->
    bare_follow_up fu_item = true ->
    render_question (JDict body)
    = ([question_shown body; answer_shown body; follow_up_header],
       Raise AttributeError).
Proof.
  intros body fu_item rest Hfus Hbare. unfold render_question.
  rewrite !py_get_dict, !bind_lift_ok.
  replace (dict_get body "follow-up" (JList []))
    with (JList (fu_item :: rest))
    by (unfold dict_get; now rewrite Hfus).
  cbn [py_truthy py_len py_iter List.length]. rewrite !bind_lift_ok.
  cbn [Nat.ltb Nat.leb for_enum].
  assert (Hraise : render_follow_up 0 fu_item = ([], Raise AttributeError)).
  { unfold render_follow_up.
    destruct fu_item as [| | | | | | kvs]; try reflexivity.
    rewrite py_get_dict, bind_lift_ok.
    cbn [bare_follow_up] in Hbare. apply negb_true_iff in Hbare.
    now rewrite (py_get_non_dict _ "S" (JStr "N/A") Hbare). }
  rewrite Hraise. reflexivity.
Qed.

Lemma bare_follow_up_raises_witness :
  render_question (JDict TestWorld.body_with_bare_follow_up)
  = ([question_shown TestWorld.body_with_bare_follow_up;
      answer_shown TestWorld.body_with_bare_follow_up; follow_up_header],
     Raise AttributeError).
Proof.
  apply (bare_follow_up_raises TestWorld.body_with_bare_follow_up
           (JDict [("question", JStr "Since when?"); ("answer", JStr "noon")])
           [] eq_refl eq_refl).
Defined.

(** *** The order of the questions (line 312) *)

Lemma stable_sort_of_sorted l :
  StronglySorted key_le l -> stable_sort l = l.
Proof.
  induction 1 as [| x l Hs IH Hx]; [reflexivity |].
  cbn [stable_sort]. rewrite IH.
  destruct l as [| y l]; [reflexivity |].
  cbn [insert_by_key]. inversion Hx as [| ? ? Hxy _]; subst.
  unfold key_le in Hxy. apply Z.leb_le in Hxy. now rewrite Hxy.
Qed.

(** X13: questions that arrive in ascending order of [int(question_id)]
    (equal numbers allowed, a missing id counting as 0) are left in the
    order they arrive by the sort of line 312. *)
Theorem ascending_questions_keep_their_order :
  forall qs ks,
    Forall2 (fun q k => id_number q = Ok k) qs ks ->
    StronglySorted Z.le ks ->
    sorted_questions qs = Ok qs.
Proof.
  intros qs ks Hkeys Hasc.
  assert (Hall : Forall (fun q => exists k, id_number q = Ok k) qs).
  { clear Hasc. induction Hkeys; constructor; eauto. }
  destruct (with_keys_total qs Hall) as [kqs Hkqs].
  pose proof (with_keys_map qs kqs Hkqs) as Hmap.
  destruct (with_keys_spec qs kqs Hkqs) as [Hsnd _].
  unfold sorted_questions. rewrite Hkqs. cbn [res_bind].
  rewrite stable_sort_of_sorted; [now rewrite Hsnd |].
  subst kqs. clear Hkqs Hall Hsnd.
  revert Hasc. induction Hkeys as [| q k qs ks Hq Hrest IH]; intros Hasc;
    [constructor |].
  inversion Hasc as [| ? ? Hasc' Hk]; subst.
  cbn [map]. constructor; [now apply IH |].
  clear IH Hasc Hasc'. unfold key_of at 1. rewrite Hq.
  revert Hk. induction Hrest as [| q' k' qs ks Hq' _ IH];
    intros Hk; [constructor |].
  inversion Hk; subst. cbn [map]. constructor; [| now apply IH].
  unfold key_le, key_of. cbn [fst]. now rewrite Hq'.
Qed.

Lemma ascending_questions_keep_their_order_witness :
  sorted_questions
    [JDict [("question_id", JStr "1")]; JDict [("question_id", JInt 2)];
     JDict [("question_id", JInt 2); ("question", JStr "again")]]
  = Ok [JDict [("question_id", JStr "1")]; JDict [("question_id", JInt 2)];
        JDict [("question_id", JInt 2); ("question", JStr "again")]].
Proof.
  apply (ascending_questions_keep_their_order _ [1; 2; 2]).
  - repeat constructor.
  - repeat constructor; lia.
Defined.

(** *** The status section (lines 260-439) *)

Lemma show_succeeded_offers_no_check {World} (svc : services World) arn w s :
  offers_manual_check (events (show_succeeded svc arn w s)) = false.
Proof.
  rewrite show_succeeded_run. cbv zeta. unfold offers_manual_check.
  destruct (describe_execution svc arn _) as [w' [response | e]];
    [| reflexivity].
  destruct (json_loads _) as [out | e]; [| reflexivity].
  destruct (rendered_is_inert _ (render_output_kind out))
    as (_ & _ & _ & _ & Hm).
  unfold offers_manual_check in Hm. cbn [events].
  rewrite !existsb_app, Hm.
  now destruct (result (render_output out)).
Qed.

Lemma show_failed_offers_no_check {World} (svc : services World) arn w s :
  offers_manual_check (events (show_failed svc arn w s)) = false.
Proof.
  rewrite show_failed_run. cbv zeta.
  destruct (describe_execution svc arn w) as [w' [response | e]];
    [| reflexivity].
  destruct (json_loads (or_empty_object (resp_error response)));
    [| reflexivity].
  now destruct (json_loads (or_empty_object (resp_cause response))).
Qed.

Lemma mbind_mret {World A B} (a : A) (k : A -> M B) (w : World) s :
  mbind (mret a) k w s = after [] (k a w s).
Proof. reflexivity. Qed.

Lemma after_nil {World A} (r : ran World A) : after [] r = r.
Proof. now destruct r. Qed.

(** The status section when the stored status is not RUNNING (or there is
    no handle): no manual check, no change of the session, no rerun while
    automatic checking is off. *)
Lemma display_when_not_running {World} (svc : services World) inp w s :
  auto_check s = false ->
  truthy (execution_arn s) && status_is_running s = false ->
  offers_manual_check (events (display svc inp w s)) = false
  /\ session_after (display svc inp w s) = s
  /\ how (display svc inp w s) = Normal tt.
Proof.
  intros Hauto Hnot.
  assert (Hshape : forall r,
    r = display svc inp w s ->
    offers_manual_check (events r) = false
    /\ session_after r = s /\ how r = Normal tt); [| now apply Hshape].
  intros r. unfold display, status_is_running in *.
  unfold mbind at 1, read. rewrite after_nil.
  destruct (execution_arn s) as [arn |]; [| now intros ->].
  cbn [truthy] in Hnot.
  destruct (str_truthy arn); [| now intros ->].
  cbn [andb] in Hnot. rewrite mbind_say.
  destruct (execution_status s) as [status |].
  2: { rewrite mbind_say, Hauto. now intros ->. }
  destruct (str_truthy status).
  2: { rewrite mbind_say, Hauto. now intros ->. }
  rewrite mbind_say, Hauto. cbn [andb]. rewrite mbind_mret, after_nil, Hnot.
  unfold offers_manual_check.
  destruct (String.eqb status "SUCCEEDED").
  { destruct (show_succeeded_safe svc arn w s) as [Hhow Hsession].
    pose proof (show_succeeded_offers_no_check svc arn w s) as Hno.
    unfold offers_manual_check in Hno. intros ->.
    rewrite !events_after, !session_after_after, !how_after, !existsb_app.
    now rewrite Hno. }
  destruct (String.eqb status "FAILED").
  { destruct (show_failed_safe svc arn w s) as [Hhow Hsession].
    pose proof (show_failed_offers_no_check svc arn w s) as Hno.
    unfold offers_manual_check in Hno. intros ->.
    rewrite !events_after, !session_after_after, !how_after, !existsb_app.
    now rewrite Hno. }
  now intros ->.
Qed.

(** X14: with automatic checking off, a run that is not a submission
    offers the manual check exactly when a handle is stored and the stored
    status is RUNNING: never for SUCCEEDED, FAILED, TIMED_OUT or ABORTED,
    and never while the status is still unknown. *)
Theorem manual_check_only_when_running :
  forall World (svc : services World) bucket state_machine inp w s,
    auto_check s = false ->
    process_button inp = false ->
    offers_manual_check (events (script svc bucket state_machine inp w s))
    = truthy (execution_arn s) && status_is_running s.
Proof.
  intros World svc bucket state_machine inp w s Hauto Hbutton.
  rewrite script_idle; [| | exact Hbutton].
  2: { unfold polls_next. now rewrite Hauto. }
  cbv zeta. cbn [events].
  destruct (sidebar_is_quiet s) as (_ & _ & Hm).
  unfold offers_manual_check in *. rewrite existsb_app, Hm.
  cbn [existsb orb is_manual_check_button String.eqb Ascii.eqb Bool.eqb].
  destruct (truthy (execution_arn s) && status_is_running s) eqn:Hcase.
  - apply andb_true_iff in Hcase. destruct Hcase as [Harn Hstatus].
    unfold status_is_running in Hstatus.
    destruct (execution_arn s) as [arn |] eqn:Harn'; [| discriminate].
    destruct (execution_status s) as [status |] eqn:Hstatus';
      [| discriminate].
    apply String.eqb_eq in Hstatus. subst status.
    rewrite (display_running svc inp w s arn Hauto Harn' Harn Hstatus').
    cbv zeta.
    destruct (manual_button inp); cbn [events]; try rewrite existsb_app;
      reflexivity.
  - destruct (display_when_not_running svc inp w s Hauto Hcase) as (Hno & _).
    exact Hno.
Qed.

Lemma manual_check_only_when_running_witness :
  offers_manual_check
    (events (script (TestWorld.services_of TestWorld.still_running)
                    TestWorld.bucket TestWorld.state_machine
                    TestWorld.no_click 0%nat
                    (TestWorld.polling (Some "TIMED_OUT") false)))
  = false.
Proof.
  apply (manual_check_only_when_running nat
           (TestWorld.services_of TestWorld.still_running)
           TestWorld.bucket TestWorld.state_machine TestWorld.no_click
           0%nat (TestWorld.polling (Some "TIMED_OUT") false)
           eq_refl eq_refl).
Defined.

(** X15: with automatic checking off, a run in which no button is pressed
    leaves the session exactly as it is and ends without a rerun, whatever
    the stored status: showing the status and the results again and again
    changes nothing. *)
Theorem run_without_a_press_changes_nothing :
  forall World (svc : services World) bucket state_machine inp w s,
    auto_check s = false ->
    process_button inp = false ->
    manual_button inp = false ->
    let r := script svc bucket state_machine inp w s in
    session_after r = s /\ how r = Normal tt.
Proof.
  intros World svc bucket state_machine inp w s Hauto Hbutton Hmanual r.
  subst r. rewrite script_idle; [| | exact Hbutton].
  2: { unfold polls_next. now rewrite Hauto. }
  cbv zeta. cbn [session_after how].
  destruct (truthy (execution_arn s) && status_is_running s) eqn:Hcase.
  - apply andb_true_iff in Hcase. destruct Hcase as [Harn Hstatus].
    unfold status_is_running in Hstatus.
    destruct (execution_arn s) as [arn |] eqn:Harn'; [| discriminate].
    destruct (execution_status s) as [status |] eqn:Hstatus';
      [| discriminate].
    apply String.eqb_eq in Hstatus. subst status.
    rewrite (display_running svc inp w s arn Hauto Harn' Harn Hstatus').
    cbv zeta. rewrite Hmanual. now split.
  - destruct (display_when_not_running svc inp w s Hauto Hcase)
      as (_ & Hsession & Hhow).
    now split.
Qed.

Lemma run_without_a_press_changes_nothing_witness :
  session_after
    (script (TestWorld.services_of TestWorld.failed_with_plain_error)
            TestWorld.bucket TestWorld.state_machine TestWorld.no_click
            0%nat (TestWorld.polling (Some "FAILED") false))
  = TestWorld.polling (Some "FAILED") false.
Proof.
  apply (run_without_a_press_changes_nothing nat
           (TestWorld.services_of TestWorld.failed_with_plain_error)
           TestWorld.bucket TestWorld.state_machine TestWorld.no_click
           0%nat (TestWorld.polling (Some "FAILED") false)
           eq_refl eq_refl eq_refl).
Defined.

(** X16: for a stored status other than SUCCEEDED, FAILED and RUNNING
    (TIMED_OUT and ABORTED among them) the status section shows the status
    line and nothing else: nothing is fetched, no message is shown, and the
    session stays as it is. *)
Theorem other_statuses_show_only_the_status :
  forall World (svc : services World) inp w s arn status,
    execution_arn s = Some arn ->
    str_truthy arn = true ->
    execution_status s = Some status ->
    str_truthy status = true ->
    has_a_branch status = false ->
    display svc inp w s
    = mkRan w s
        [Header "Execution Status";
         Write [FText ("Current Status: **" ++ status ++ "**")]]
        (Normal tt).
Proof.
  intros World svc inp w s arn status Harn Htrue Hstatus Hshown Hother.
  unfold has_a_branch in Hother.
  apply orb_false_iff in Hother. destruct Hother as [Hother Hrunning].
  apply orb_false_iff in Hother. destruct Hother as [Hsucceeded Hfailed].
  unfold display, mbind, read, say, mret.
  rewrite Harn, Htrue, Hstatus, Hshown, Hrunning, Hsucceeded, Hfailed.
  rewrite andb_false_r. reflexivity.
Qed.

Lemma other_statuses_show_only_the_status_witness :
  display (TestWorld.services_of TestWorld.still_running) TestWorld.no_click
          0%nat (TestWorld.polling (Some "TIMED_OUT") false)
  = mkRan 0%nat (TestWorld.polling (Some "TIMED_OUT") false)
      [Header "Execution Status";
       Write [FText "Current Status: **TIMED_OUT**"]]
      (Normal tt).
Proof.
  apply (other_statuses_show_only_the_status nat
           (TestWorld.services_of TestWorld.still_running)
           TestWorld.no_click 0%nat
           (TestWorld.polling (Some "TIMED_OUT") false) TestWorld.an_arn
           "TIMED_OUT" eq_refl eq_refl eq_refl eq_refl eq_refl).
Defined.

(** *** What every run keeps *)

Module KeptFacts.
Import Render Obs Script.

Section Kept.

Context {World : Type}.
Variable svc : services World.
Variable I : session -> Prop.

Lemma preserves_mbind {A B} (m : M A) (k : A -> M B) :
  preserves (World := World) I m ->
  (forall a, preserves I (k a)) ->
  preserves I (mbind m k).
Proof.
  intros Hm Hk w s Hs. specialize (Hm w s Hs). unfold mbind.
  destruct (m w s) as [w1 s1 evs [a | e |]]; cbn [session_after] in *;
    try assumption.
  specialize (Hk a w1 s1 Hm).
  now destruct (k a w1 s1).
Qed.

Lemma preserves_try_except {A} (m : M A) (handler : exn -> M A) :
  preserves (World := World) I m ->
  (forall e, preserves I (handler e)) ->
  preserves I (try_except m handler).
Proof.
  intros Hm Hh w s Hs. specialize (Hm w s Hs). unfold try_except.
  destruct (m w s) as [w1 s1 evs [a | e |]]; cbn [session_after] in *;
    try assumption.
  specialize (Hh e w1 s1 Hm).
  now destruct (handler e w1 s1).
Qed.

Lemma preserves_same {A} (m : M A) :
  (forall (w : World) s, session_after (m w s) = s) -> preserves I m.
Proof. intros Hsame w s Hs. now rewrite Hsame. Qed.

Lemma preserves_update f :
  (forall s, I s -> I (f s)) -> preserves (World := World) I (update f).
Proof. intros Hf w s Hs. now apply Hf. Qed.

End Kept.

Ltac kept_step :=
  first
    [ apply preserves_mbind; [| intros ?]
    | apply preserves_try_except; [| intros ?]
    | apply preserves_same; intros ? ?; reflexivity
    | match goal with
      | |- preserves _ (call _ _) =>
          apply preserves_same; intros w0 ?; unfold call;
          match goal with
          | |- context [let (_, _) := ?f w0 in _] => now destruct (f w0)
          end
      | |- preserves _ (if ?c then _ else _) => destruct c
      | |- preserves _ (match ?x with Some _ => _ | None => _ end) =>
          destruct x
      end ].

End KeptFacts.

Module InvariantFacts.
Import Render Obs Script KeptFacts.

Section Invariant.

Context {World : Type}.
Variable svc : services World.
Variable bucket state_machine : option string.
Variable I : session -> Prop.

Hypothesis keeps_session_id : forall v s, I s -> I (set_session_id v s).
Hypothesis keeps_files : forall v s, I s -> I (set_uploaded_files v s).
Hypothesis keeps_status : forall v s, I s -> I (set_execution_status v s).
Hypothesis keeps_off : forall s, I s -> I (set_auto_check false s).
Hypothesis keeps_launch :
  forall arn s, I s -> I (set_auto_check true (set_execution_arn (Some arn) s)).

Ltac setters :=
  first [ apply preserves_update; intros ? ?; now apply keeps_session_id
        | apply preserves_update; intros ? ?; now apply keeps_files
        | apply preserves_update; intros ? ?; now apply keeps_status
        | apply preserves_update; intros ? ?; now apply keeps_off ].

Lemma auto_check_status_preserves : preserves I (auto_check_status svc).
Proof.
  unfold auto_check_status. repeat first [setters | kept_step].
Qed.

Lemma auto_check_block_preserves : preserves I (auto_check_block svc).
Proof.
  unfold auto_check_block.
  repeat first [apply auto_check_status_preserves | kept_step].
Qed.

Lemma launch_preserves sid : preserves I (launch svc state_machine sid).
Proof.
  intros w s Hs.
  destruct (start_execution svc state_machine (execution_name sid)
              (execution_input sid) w) as [w' [arn | e]] eqn:Hstart.
  - rewrite (launch_started svc state_machine sid w s w' arn Hstart).
    now apply keeps_launch.
  - now rewrite (launch_failed svc state_machine sid w s w' e Hstart).
Qed.

Lemma stage_preserves sid text files :
  preserves I (stage svc bucket sid text files).
Proof.
  apply preserves_same. intros w s.
  now destruct (stage_run svc bucket sid text files w s) as (_ & Hs & _).
Qed.

Lemma generate_session_id_preserves : preserves I (generate_session_id svc).
Proof.
  apply preserves_same. intros w s. unfold generate_session_id.
  now destruct (uuid4 svc w).
Qed.

Lemma after_staging_preserves sid file_paths :
  preserves I (after_staging svc state_machine sid file_paths).
Proof.
  unfold after_staging. destruct file_paths;
    repeat first [apply launch_preserves | setters | kept_step].
Qed.

Lemma process_content_preserves inp :
  preserves I (process_content svc bucket state_machine inp).
Proof.
  unfold process_content.
  repeat first [ apply generate_session_id_preserves
               | apply stage_preserves
               | apply after_staging_preserves
               | setters | kept_step ].
Qed.

Lemma show_succeeded_preserves arn : preserves I (show_succeeded svc arn).
Proof. apply preserves_same. intros w s. apply show_succeeded_safe. Qed.

Lemma show_failed_preserves arn : preserves I (show_failed svc arn).
Proof. apply preserves_same. intros w s. apply show_failed_safe. Qed.

Lemma display_preserves inp : preserves I (display svc inp).
Proof.
  unfold display, show_running.
  repeat first [ apply show_succeeded_preserves
               | apply show_failed_preserves
               | apply auto_check_status_preserves
               | setters | kept_step ].
Qed.

Lemma show_session_id_preserves :
  preserves (World := World) I show_session_id.
Proof.
  apply preserves_same. intros w s. now rewrite show_session_id_run.
Qed.

Lemma script_preserves inp :
  preserves I (script svc bucket state_machine inp).
Proof.
  unfold script.
  repeat first [ apply show_session_id_preserves
               | apply auto_check_block_preserves
               | apply process_content_preserves
               | apply display_preserves
               | apply preserves_mbind; [| intros ?] ].
Qed.

Lemma runs_preserve runs :
  forall s, I s -> I (session_after_runs svc bucket state_machine runs s).
Proof.
  unfold session_after_runs.
  induction runs as [| run runs IH]; intros s Hs; [exact Hs |].
  cbn [fold_left]. apply IH. now apply script_preserves.
Qed.

End Invariant.
End InvariantFacts.

Import InvariantFacts.

(** X17: over any series of runs, whatever the widgets and the services
    do, automatic checking is never on without an execution handle in the
    session: this holds from a new browser session on, and every run keeps
    it. *)
Theorem checking_is_never_on_without_a_handle :
  forall World (svc : services World) bucket state_machine runs w0 s,
    handle_if_checking
      (session_after_runs svc bucket state_machine runs (fresh_session svc w0))
    /\ (handle_if_checking s ->
        handle_if_checking
          (session_after_runs svc bucket state_machine runs s)).
Proof.
  intros World svc bucket state_machine runs w0 s.
  assert (Hkept : forall s0,
    handle_if_checking s0 ->
    handle_if_checking (session_after_runs svc bucket state_machine runs s0)).
  { apply runs_preserve; unfold handle_if_checking; cbn;
      try (intros; auto; fail); intros; discriminate. }
  split; [| apply Hkept].
  apply Hkept. unfold handle_if_checking. cbn. discriminate.
Qed.

Lemma checking_is_never_on_without_a_handle_witness :
  handle_if_checking
    (session_after_runs (TestWorld.services_of TestWorld.all_fine)
       TestWorld.bucket TestWorld.state_machine
       [(TestWorld.submission, 0%nat); (TestWorld.no_click, 0%nat)]
       (TestWorld.polling None false)).
Proof.
  apply (checking_is_never_on_without_a_handle nat
           (TestWorld.services_of TestWorld.all_fine) TestWorld.bucket
           TestWorld.state_machine
           [(TestWorld.submission, 0%nat); (TestWorld.no_click, 0%nat)]
           0%nat (TestWorld.polling None false)).
  unfold handle_if_checking. cbn. discriminate.
Defined.

(** X18: an execution handle, once stored, is never removed from the
    session: later runs replace it at most by the handle of a new
    execution. *)
Theorem a_handle_is_never_dropped :
  forall World (svc : services World) bucket state_machine runs s,
    has_handle s ->
    has_handle (session_after_runs svc bucket state_machine runs s).
Proof.
  intros World svc bucket state_machine runs.
  apply runs_preserve; unfold has_handle; cbn;
    try (intros; auto; fail); intros; discriminate.
Qed.

Lemma a_handle_is_never_dropped_witness :
  has_handle
    (session_after_runs (TestWorld.services_of TestWorld.start_fails)
       TestWorld.bucket TestWorld.state_machine
       [(TestWorld.submission, 0%nat); (TestWorld.manual_click, 0%nat)]
       (TestWorld.polling (Some "RUNNING") false)).
Proof.
  apply (a_handle_is_never_dropped nat
           (TestWorld.services_of TestWorld.start_fails) TestWorld.bucket
           TestWorld.state_machine
           [(TestWorld.submission, 0%nat); (TestWorld.manual_click, 0%nat)]
           (TestWorld.polling (Some "RUNNING") false)).
  unfold has_handle. cbn. discriminate.
Defined.

(** X19: a poll whose fetch raises is written to the console with [print]
    and shown nowhere on the page; it switches automatic checking off and
    changes nothing else in the session, so the status last fetched stays
    on display; the run still pauses 2 seconds and reruns. *)
Theorem failed_poll_is_only_printed :
  forall World (svc : services World) bucket state_machine inp w s arn w' e,
    auto_check s = true ->
    execution_arn s = Some arn ->
    str_truthy arn = true ->
    describe_execution svc arn w = (w', Raise e) ->
    let r := script svc bucket state_machine inp w s in
    session_after r = set_auto_check false s
    /\ execution_status (session_after r) = execution_status s
    /\ events r
       = sidebar s
         ++ [waiting_spinner; DescribeExecution arn;
             Print [FText "Error checking status: "; FExn e]; Sleep (2 # 1)]
    /\ error_messages (events r) = []
    /\ existsb is_warning (events r) = false
    /\ how r = Rerun.
Proof.
  intros World svc bucket state_machine inp w s arn w' e Hauto Harn Htrue
         Hdesc r. subst r.
  rewrite (script_poll_tick svc bucket state_machine inp w s arn
             Hauto Harn Htrue), Hdesc.
  cbn [session_after events how].
  split; [reflexivity | split; [reflexivity | split; [reflexivity |]]].
  unfold error_messages, sidebar. rewrite flat_map_app, existsb_app.
  destruct (session_id s) as [sid |]; [| now repeat split].
  destruct (str_truthy sid); now repeat split.
Qed.

Lemma failed_poll_is_only_printed_witness :
  session_after
    (script (TestWorld.services_of TestWorld.unreachable) TestWorld.bucket
            TestWorld.state_machine TestWorld.no_click 0%nat
            (TestWorld.polling (Some "RUNNING") true))
  = TestWorld.polling (Some "RUNNING") false.
Proof.
  apply (failed_poll_is_only_printed nat
           (TestWorld.services_of TestWorld.unreachable) TestWorld.bucket
           TestWorld.state_machine TestWorld.no_click 0%nat
           (TestWorld.polling (Some "RUNNING") true) TestWorld.an_arn
           1%nat TestWorld.throttled eq_refl eq_refl eq_refl eq_refl).
Defined.
